(** * L1_L2_RAD_LSTE: the swath-to-grid orchestration of ECOSTRESS Collection 2

    A shallow embedding of [L1_L2_RAD_LSTE/L1_L2_RAD_LSTE.py]:

    - [generate_L1_L2_RAD_LSTE_runconfig], the run-config generator;
    - [L2GL2TRADLSTEConfig], the run-config reader with its land filter;
    - [L1_L2_RAD_LSTE], the orchestrator: spatial-index (K-D tree) resolution
      under the three overlap strategies, then the three gridded products.

    The Python code is sequential and effectful: it queries and writes the
    file system, calls collaborators of the [ECOSTRESS] and [rasters]
    packages, and raises exceptions.  It is embedded in a state-and-exception
    monad over a [world] that holds the file system and the trace of the
    calls made so far. *)

From Stdlib Require Import ZArith QArith Ascii String List Bool Lia.
From Stdlib Require Import DecimalString DecimalN DecimalFacts.
From stdpp Require Import base option list sorting gmap strings sets fin_maps.

Open Scope string_scope.
Open Scope Z_scope.
Open Scope list_scope.

(** ** Python strings and paths *)

Module Py.

Definition startswith (s p : string) : bool := String.prefix p s.

Fixpoint last_char (s : string) : option ascii :=
  match s with
  | EmptyString => None
  | String c EmptyString => Some c
  | String _ s' => last_char s'
  end.

Definition ends_with_sep (s : string) : bool :=
  match last_char s with
  | Some c => Ascii.eqb c "/"
  | None => false
  end.

(** [posixpath.join] on two components: an absolute second component
    replaces the first, an empty first component or one that ends in the
    separator takes the second as it is, otherwise a separator is put
    between them. *)
Definition join2 (a b : string) : string :=
  if startswith b "/" then b
  else if String.eqb a "" || ends_with_sep a then a +:+ b
  else a +:+ "/" +:+ b.

Definition join (a : string) (ps : list string) : string :=
  fold_left join2 ps a.

(** [str.replace old new] for a non-empty [old]: every occurrence, left to
    right, without overlap.  [skip] counts the characters of a match that
    are still to be dropped. *)
Fixpoint replace_go (old new : string) (skip : nat) (s : string) : string :=
  match s with
  | EmptyString => EmptyString
  | String c s' =>
      match skip with
      | S k => replace_go old new k s'
      | O =>
          if String.prefix old s
          then new +:+ replace_go old new (String.length old - 1) s'
          else String c (replace_go old new 0 s')
      end
  end.

Definition replace (old new s : string) : string :=
  match old with
  | EmptyString => s
  | _ => replace_go old new 0 s
  end.

Fixpoint zeros (k : nat) : string :=
  match k with
  | O => EmptyString
  | S k' => String "0" (zeros k')
  end.

Definition digits (n : N) : string := NilEmpty.string_of_uint (N.to_uint n).

(** The format specification [0<width>d]: sign first, then zeros up to the
    width, then the decimal digits. *)
Definition format_0d (width : nat) (z : Z) : string :=
  let sign := if (z <? 0)%Z then "-" else "" in
  let ds := digits (Z.abs_N z) in
  sign +:+ zeros (width - String.length sign - String.length ds) +:+ ds.

(** [str.split(sep)] on a one-character separator. *)
Fixpoint split_go (sep : ascii) (cur : string) (s : string) : list string :=
  match s with
  | EmptyString => [String.rev cur]
  | String c s' =>
      if Ascii.eqb c sep then String.rev cur :: split_go sep EmptyString s'
      else split_go sep (String c cur) s'
  end.

Definition split (sep : ascii) (s : string) : list string :=
  split_go sep EmptyString s.

(** [l[-k]] for [k >= 1]; [None] stands for [IndexError]. *)
Definition index_from_end {A} (l : list A) (k : nat) : option A :=
  if (k <=? length l)%nat then l !! (length l - k)%nat else None.

(** [posixpath.basename]: what follows the last separator. *)
Definition basename (p : string) : string :=
  match index_from_end (split "/" p) 1 with
  | Some b => b
  | None => p
  end.

(** [posixpath.dirname]: what precedes the last separator, with the
    trailing separators of that head removed unless the head is made of
    separators only. *)
Fixpoint rstrip_sep_rev (r : string) : string :=
  match r with
  | String c r' => if Ascii.eqb c "/" then rstrip_sep_rev r' else r
  | EmptyString => EmptyString
  end.

Definition dirname (p : string) : string :=
  let head := String.substring 0 (String.length p - String.length (basename p)) p in
  match rstrip_sep_rev (String.rev head) with
  | EmptyString => head
  | r => String.rev r
  end.

(** [posixpath.splitext(p)[0]]: the path without its extension; the
    extension starts at the last dot of the last component, leading dots
    of that component set aside. *)
Fixpoint lstrip_dots (s : string) : string * string :=
  match s with
  | String c s' =>
      if Ascii.eqb c "."
      then let '(d, r) := lstrip_dots s' in (String c d, r)
      else (EmptyString, s)
  | EmptyString => (EmptyString, EmptyString)
  end.

Fixpoint drop_ext_rev (r : string) : option string :=
  match r with
  | EmptyString => None
  | String c r' => if Ascii.eqb c "." then Some r' else drop_ext_rev r'
  end.

Definition splitext_root (p : string) : string :=
  let b := basename p in
  let head := String.substring 0 (String.length p - String.length b) p in
  let '(dots, rest) := lstrip_dots b in
  match drop_ext_rev (String.rev rest) with
  | Some (String c r') => head +:+ dots +:+ String.rev (String c r')
  | _ => p
  end.

(** [sorted] on strings: code-point order. *)
Definition sorted (l : list string) : list string := merge_sort String.le l.

End Py.

(** ** Exceptions *)

(** What a call into a collaborator package can end with, other than a
    value: an exception of the [ECOSTRESSExitCodeException] family, seen here
    only through its [exit_code], or any other exception. *)
Inductive failure :=
| ExitCodeFailure (code : Z)
| OtherFailure (what : string).

(** The exceptions the three functions raise or let through.  The first three
    are the classes imported from [ECOSTRESS.exit_codes]; [LandFilter] keeps
    the land fraction its message ends with. *)
Inductive exn :=
| MissingRunConfigValue (msg : string)
| UnableToParseRunConfig (msg : string)
| LandFilter (land_percent : Q)
| ValueError (msg : string)
| TypeError (msg : string)
| IOError (msg : string)
| IndexError (msg : string)
| KeyError (key : string)
| Foreign (f : failure).

(** Modelled from the spec: the class hierarchy of [ECOSTRESS.exit_codes],
    which is not part of this source file.  The spec calls it the known
    domain-exception hierarchy; [MissingRunConfigValue],
    [UnableToParseRunConfig] and [LandFilter] belong to it. *)
Definition is_ECOSTRESSExitCodeException (e : exn) : bool :=
  match e with
  | MissingRunConfigValue _ | UnableToParseRunConfig _ | LandFilter _ => true
  | Foreign (ExitCodeFailure _) => true
  | _ => false
  end.

Inductive outcome (A : Type) :=
| Ok (a : A)
| Raise (e : exn).
Arguments Ok {A} a.
Arguments Raise {A} e.

Definition obind {A B} (o : outcome A) (k : A -> outcome B) : outcome B :=
  match o with
  | Ok a => k a
  | Raise e => Raise e
  end.

Definition outcome_of_option {A} (o : option A) (e : exn) : outcome A :=
  match o with
  | Some a => Ok a
  | None => Raise e
  end.

(** ** File system *)

(** The file system is a map from paths to what lies there.  A path is the
    string the program wrote: two spellings of one place, as [/a/b] and
    [/a//b/], are two keys. *)
Inductive node :=
| Directory
| File (data : string).

(** [glob] patterns, matched against a whole path: [*], [?] and a bracket
    class stay inside one path component and do not match a leading dot;
    every other character stands for itself.  [st] tells that the next
    character starts a component. *)
Definition hidden_start (st : bool) (s : string) : bool :=
  st && match s with String d _ => Ascii.eqb d "." | EmptyString => false end.

(** The bracket classes of [fnmatch].  After the opening bracket an
    exclamation mark negates the class, and a closing bracket that comes
    first is a member; the class ends at the next closing bracket.  The
    pattern is cut into components before it is matched, so a class is
    closed inside its component: without a closing bracket the opening one
    stands for itself. *)
Fixpoint find_close (p : string) : option nat :=
  match p with
  | EmptyString => None
  | String c p' =>
      if Ascii.eqb c "]" then Some O
      else if Ascii.eqb c "/" then None
      else S <$> find_close p'
  end.

Definition skip_char (c : ascii) (p : string) : nat * string :=
  match p with
  | String d p' => if Ascii.eqb d c then (1%nat, p') else (O, p)
  | EmptyString => (O, p)
  end.

(** The number of characters between the two brackets, for the pattern
    that follows the opening one. *)
Definition class_length (p : string) : option nat :=
  let '(k1, p1) := skip_char "!" p in
  let '(k2, p2) := skip_char "]" p1 in
  (fun n => k1 + k2 + n)%nat <$> find_close p2.

(** A class while its members are read, for the character [cl_char] that
    is matched against it: [cl_left] members are still to come, [cl_prev]
    is a member read and not counted yet (a hyphen after it makes it the
    start of a range), [cl_lo] the start of a range whose hyphen has been
    read. *)
Record class_state := {
  cl_char : ascii;
  cl_left : nat;
  cl_first : bool;
  cl_neg : bool;
  cl_hit : bool;
  cl_prev : option ascii;
  cl_lo : option ascii;
}.

Definition class_start (d : ascii) (n : nat) : class_state :=
  {| cl_char := d; cl_left := n; cl_first := true; cl_neg := false;
     cl_hit := false; cl_prev := None; cl_lo := None |}.

Definition is_char (o : option ascii) (d : ascii) : bool :=
  match o with
  | Some c => Ascii.eqb c d
  | None => false
  end.

(** [lo-hi] holds the characters from [lo] to [hi] by code point, none
    when [hi] comes before [lo]. *)
Definition in_range (lo hi d : ascii) : bool :=
  (N_of_ascii lo <=? N_of_ascii d)%N && (N_of_ascii d <=? N_of_ascii hi)%N.

(** One more character [x] of the class, [k] being what is left after it.
    A hyphen makes a range when a member stands before it and another
    character follows it inside the class. *)
Definition class_step (q : class_state) (k : nat) (x : ascii) : class_state :=
  let d := cl_char q in
  if cl_first q && Ascii.eqb x "!" then
    {| cl_char := d; cl_left := k; cl_first := false; cl_neg := true;
       cl_hit := cl_hit q; cl_prev := None; cl_lo := None |}
  else
    match cl_lo q with
    | Some lo =>
        {| cl_char := d; cl_left := k; cl_first := false; cl_neg := cl_neg q;
           cl_hit := cl_hit q || in_range lo x d; cl_prev := None; cl_lo := None |}
    | None =>
        match cl_prev q, k with
        | Some lo, S _ =>
            if Ascii.eqb x "-" then
              {| cl_char := d; cl_left := k; cl_first := false; cl_neg := cl_neg q;
                 cl_hit := cl_hit q; cl_prev := None; cl_lo := Some lo |}
            else
              {| cl_char := d; cl_left := k; cl_first := false; cl_neg := cl_neg q;
                 cl_hit := cl_hit q || Ascii.eqb lo d; cl_prev := Some x; cl_lo := None |}
        | _, _ =>
            {| cl_char := d; cl_left := k; cl_first := false; cl_neg := cl_neg q;
               cl_hit := cl_hit q || is_char (cl_prev q) d; cl_prev := Some x;
               cl_lo := None |}
        end
    end.

(** At the closing bracket. *)
Definition class_accepts (q : class_state) : bool :=
  xorb (cl_neg q) (cl_hit q || is_char (cl_prev q) (cl_char q)).

(** [cl] is the class that is being read, if any: the character it stands
    for has been taken from the string already. *)
Fixpoint glob_match_from (p : string) : option class_state -> bool -> string -> bool :=
  match p with
  | EmptyString =>
      fun cl _ s =>
        match cl, s with
        | None, EmptyString => true
        | _, _ => false
        end
  | String c p' =>
      fun cl =>
        match cl with
        | Some q =>
            fun st s =>
              match cl_left q with
              | O => class_accepts q && glob_match_from p' None false s
              | S k => glob_match_from p' (Some (class_step q k c)) st s
              end
        | None =>
            if Ascii.eqb c "*" then
              fix star (st : bool) (s : string) {struct s} : bool :=
                negb (hidden_start st s) &&
                (glob_match_from p' None false s ||
                 match s with
                 | String d s' => negb (Ascii.eqb d "/") && star false s'
                 | EmptyString => false
                 end)
            else if Ascii.eqb c "?" then
              fun st s =>
                negb (hidden_start st s) &&
                match s with
                | String d s' => negb (Ascii.eqb d "/") && glob_match_from p' None false s'
                | EmptyString => false
                end
            else
              match (if Ascii.eqb c "[" then class_length p' else None) with
              | Some n =>
                  fun st s =>
                    negb (hidden_start st s) &&
                    match s with
                    | String d s' =>
                        negb (Ascii.eqb d "/") &&
                        glob_match_from p' (Some (class_start d n)) false s'
                    | EmptyString => false
                    end
              | None =>
                  fun _ s =>
                    match s with
                    | String d s' =>
                        Ascii.eqb c d && glob_match_from p' None (Ascii.eqb d "/") s'
                    | EmptyString => false
                    end
              end
        end
  end.

Definition glob_match (p : string) (st : bool) (s : string) : bool :=
  glob_match_from p None st s.

(** [glob.glob]: the paths of the file system that match, in the order the
    file system enumerates them. *)
Definition glob (fs : gmap string node) (pattern : string) : list string :=
  elements (filter (λ p, glob_match pattern true p = true) (dom fs)).

(** ** The world, the collaborators and the monad *)

Inductive product := L1CG_RAD | L2G_LSTE | L2G_CLOUD.

Inductive swath_kind := L1B_RAD_swath | L2_LSTE_swath | L2_CLOUD_swath.

Section Pipeline.


(** The values of the [rasters] and [ECOSTRESS] packages that only pass
    through this program. *)
Context {SwathGeometry RasterGrid KDTree DateTime : Type}.

(** What [L2LSTE(...)] exposes to this program. *)
Record granule_info := {
  time_UTC : DateTime;
  land_percent : Q;
  geometry : SwathGeometry;
}.

(** A swath granule object: the files it was opened on. *)
Record swath_granule := {
  sg_kind : swath_kind;
  sg_filenames : list string;
}.

(** The keyword arguments of [from_swath]. *)
Record from_swath_args := {
  fa_swath_granule : swath_granule;
  fa_output_filename : string;
  fa_variables : option (list string);
  fa_PGE_name : string;
  fa_PGE_version : string;
  fa_build : string;
  fa_input_filenames : list string;
  fa_gridded_geometry : RasterGrid;
  fa_cell_size_degrees : Q;
  fa_cell_size_meters : Q;
  fa_projection_system : string;
  fa_kd_tree : option KDTree;
  fa_scan_kd_trees : option (list KDTree);
  fa_kd_tree_path : string;
}.

(** The calls that leave this program, in the order they are made.  Of the
    logger's calls only [logger.exception] and [logger.warning] are kept. *)
Inductive event :=
| EReadRunConfig (filename : string)
| EOpenSwath (g : swath_granule)
| EReadL2LSTE (g : swath_granule)
| EConfigureLog (filename : string) (strip_console : bool)
| EExists (path : string)
| EGlob (pattern : string)
| EMakedirs (path : string)
| EReadFile (path : string)
| EWriteFile (path : string)
| EKDTreeLoad (path : string)
| EKDTreeBuild (source : SwathGeometry) (target : RasterGrid) (radius : Q)
| EGenerateScanKDTrees (swath : SwathGeometry) (cell_size_degrees : Q)
| EKDTreeSave (t : KDTree) (path : string)
| EClipTails (swath : SwathGeometry)
| EOpenProduct (k : product) (filename : string)
| EFromSwath (k : product) (a : from_swath_args)
| EWriteBrowseImage (k : product) (filename : string)
| EToTiles (k : product) (output_directory : string) (tiles variables : option (list string))
| ELogWarning (msg : string)
| ELogException (e : exn).

Record world := {
  fs : gmap string node;
  trace : list event;
}.

Definition runconfig_dict : Type := gmap string (gmap string string).

(** The collaborators: the [ECOSTRESS] and [rasters] packages, the parts of
    the Python library whose result depends on the process or the machine,
    and the constants of [ECOSTRESS.exit_codes].  [from_swath] and
    [write_browse_image] write the file they are told to: [from_swath] and
    [browse_image] give the content of that file when the call returns,
    and when it raises, the exception with what it had written by then, if
    anything. *)
Class Collaborators := {
  SUCCESS_EXIT_CODE : Z;
  MISSING_RUNCONFIG_VALUE : Z;
  UNABLE_TO_PARSE_RUNCONFIG : Z;
  LAND_FILTER : Z;
  PGEVersion : string;
  abspath : string -> string;
  expanduser : string -> string;
  which : string -> option string;
  gethostname : string;
  utcnow : DateTime;
  uuid4 : string;
  str_of_datetime : DateTime -> string;
  strftime_compact : DateTime -> string;
  parse_int : string -> option Z;
  parse_datetime : string -> option DateTime;
  read_runconfig : gmap string node -> string -> failure + runconfig_dict;
  read_L2LSTE : gmap string node -> swath_granule -> failure + granule_info;
  UTM : SwathGeometry -> Q -> RasterGrid;
  geographic : SwathGeometry -> Q -> RasterGrid;
  clip_tails : SwathGeometry -> SwathGeometry;
  KDTree_new : SwathGeometry -> RasterGrid -> Q -> KDTree;
  generate_scan_kd_trees : SwathGeometry -> Q -> list KDTree;
  KDTree_dumps : KDTree -> string;
  KDTree_loads : string -> failure + KDTree;
  from_swath : product -> gmap string node -> from_swath_args ->
               failure * option string + string;
  browse_image : product -> string -> failure * option string + string;
  module_directory : string;
  to_tiles : product -> gmap string node -> string -> string ->
             option (list string) -> option (list string) -> failure + list (string * string);
}.

Context `{collaborators : !Collaborators}.

(** [exception.exit_code], for the exceptions that have the attribute:
    those of the [ECOSTRESSExitCodeException] family. *)
Definition exit_code (e : exn) : option Z :=
  match e with
  | MissingRunConfigValue _ => Some MISSING_RUNCONFIG_VALUE
  | UnableToParseRunConfig _ => Some UNABLE_TO_PARSE_RUNCONFIG
  | LandFilter _ => Some LAND_FILTER
  | Foreign (ExitCodeFailure c) => Some c
  | _ => None
  end.

Definition M (A : Type) : Type := world -> outcome A * world.

Definition ret {A} (a : A) : M A := fun w => (Ok a, w).

Definition bind {A B} (m : M A) (k : A -> M B) : M B :=
  fun w =>
    match m w with
    | (Ok a, w') => k a w'
    | (Raise e, w') => (Raise e, w')
    end.

Definition raise {A} (e : exn) : M A := fun w => (Raise e, w).

(** [try: m except ...: handler] *)
Definition try_except {A} (m : M A) (handler : exn -> M A) : M A :=
  fun w =>
    match m w with
    | (Ok a, w') => (Ok a, w')
    | (Raise e, w') => handler e w'
    end.

Definition emit (e : event) : M unit :=
  fun w => (Ok tt, {| fs := fs w; trace := trace w ++ [e] |}).

Definition get_fs : M (gmap string node) := fun w => (Ok (fs w), w).

Definition put_fs (f : gmap string node) : M unit :=
  fun w => (Ok tt, {| fs := f; trace := trace w |}).

Definition call {A} (r : failure + A) : M A :=
  match r with
  | inl f => raise (Foreign f)
  | inr a => ret a
  end.

Definition of_option {A} (o : option A) (e : exn) : M A :=
  match o with
  | Some a => ret a
  | None => raise e
  end.

Notation "'let*' x ':=' c1 'in' c2" := (bind c1 (fun x => c2))
  (at level 10, x name, c1 at level 100, c2 at level 200).
Notation "c1 >> c2" := (bind c1 (fun _ => c2))
  (at level 100, c2 at level 200, right associativity).

(** *** File-system calls *)

Definition exists_ (path : string) : M bool :=
  emit (EExists path) >>
  let* f := get_fs in
  ret (bool_decide (is_Some (f !! path))).

(** The directories on the way to a path: its prefixes that end before a
    separator and are neither empty nor closed by a separator themselves,
    the shortest first.  [sep] tells that the character before [s] is a
    separator, or that [s] is the whole path. *)
Fixpoint parents (sep : bool) (s : string) : list string :=
  match s with
  | EmptyString => []
  | String c s' =>
      let rest := map (String c) (parents (Ascii.eqb c "/") s') in
      if Ascii.eqb c "/" && negb sep then EmptyString :: rest else rest
  end.

(** What [makedirs] makes sure of: the directories on the way, then the
    path itself. *)
Definition directories_to (path : string) : list string :=
  parents true path ++ [path].

(** [mkdir] with [exist_ok]: a directory that is there is left alone; a
    file of that name raises [FileExistsError], or [NotADirectoryError]
    for what lies under it. *)
Definition ensure_directory (path : string) : M unit :=
  let* f := get_fs in
  match f !! path with
  | None => put_fs (<[path := Directory]> f)
  | Some Directory => ret tt
  | Some (File _) => raise (IOError path)
  end.

Fixpoint ensure_directories (paths : list string) : M unit :=
  match paths with
  | [] => ret tt
  | p :: rest => ensure_directory p >> ensure_directories rest
  end.

(** [makedirs(path, exist_ok=True)]: every missing directory on the way to
    [path] is made, the outermost first, then [path] itself; the empty path
    raises [FileNotFoundError]. *)
Definition makedirs (path : string) : M unit :=
  emit (EMakedirs path) >>
  if String.eqb path "" then raise (IOError path)
  else ensure_directories (directories_to path).

Definition read_file (path : string) : M string :=
  emit (EReadFile path) >>
  let* f := get_fs in
  match f !! path with
  | Some (File data) => ret data
  | _ => raise (IOError path)
  end.

Definition write_file (path data : string) : M unit :=
  emit (EWriteFile path) >>
  let* f := get_fs in
  put_fs (<[path := File data]> f).

(** [KDTree.load(path)] *)
Definition KDTree_load (path : string) : M KDTree :=
  emit (EKDTreeLoad path) >>
  let* f := get_fs in
  match f !! path with
  | Some (File data) => call (KDTree_loads data)
  | _ => raise (IOError path)
  end.

(** [kd_tree.save(path)] *)
Definition KDTree_save (t : KDTree) (path : string) : M unit :=
  emit (EKDTreeSave t path) >>
  let* f := get_fs in
  put_fs (<[path := File (KDTree_dumps t)]> f).

Fixpoint mapM {A B} (f : A -> M B) (l : list A) : M (list B) :=
  match l with
  | [] => ret []
  | x :: l' => let* y := f x in let* ys := mapM f l' in ret (y :: ys)
  end.

(** The properties of an [L2LSTE] granule, read from its files. *)
Definition L2LSTE_properties (g : swath_granule) : M granule_info :=
  emit (EReadL2LSTE g) >>
  let* f := get_fs in
  call (read_L2LSTE f g).

(** ** The run-config reader: [L2GL2TRADLSTEConfig.__init__] *)

Record L2GL2TRADLSTEConfig_t := {
  working_directory : string;
  log_filename : string;
  output_directory : string;
  L2_LSTE_filename : string;
  L2_CLOUD_filename : string;
  L1B_GEO_filename : string;
  L1B_RAD_filename : string;
  orbit : Z;
  scene : Z;
  production_datetime : DateTime;
  build : string;
  product_counter : Z;
  granule_ID : string;
  L2G_granule_ID : string;
  L1CG_RAD_filename : string;
  L2G_LSTE_filename : string;
  L2G_CLOUD_filename : string;
  PGE_name : string;
  PGE_version : string;
}.

Definition PGE_NAME : string := "L1_L2_RAD_LSTE".

Notation "'let?' x ':=' c1 'in' c2" := (obind c1 (fun x => c2))
  (at level 10, x name, c1 at level 100, c2 at level 200).
Notation "c1 >>? c2" := (obind c1 (fun _ => c2))
  (at level 100, c2 at level 200, right associativity).

Definition lift {A} (o : outcome A) : M A := fun w => (o, w).

(** [if key not in d: raise MissingRunConfigValue(msg)] *)
Definition require {V} (d : gmap string V) (key msg : string) : outcome unit :=
  match d !! key with
  | Some _ => Ok tt
  | None => Raise (MissingRunConfigValue msg)
  end.

(** [d[key]] *)
Definition getitem {V} (d : gmap string V) (key : string) : outcome V :=
  outcome_of_option (d !! key) (KeyError key).

(** [int(s)] *)
Definition int (s : string) : outcome Z :=
  outcome_of_option (parse_int s)
                    (ValueError ("invalid literal for int() with base 10: " +:+ s)).

(** The part of a granule ID after the product name. *)
Definition granule_suffix (orbit scene : Z) (timestamp build : string) (product_counter : Z) : string :=
  "_" +:+ Py.format_0d 5 orbit +:+ "_" +:+ Py.format_0d 3 scene +:+ "_" +:+ timestamp
  +:+ "_" +:+ build +:+ "_" +:+ Py.format_0d 2 product_counter.

Definition L2LSTE_granule (L2_LSTE_filename L2_CLOUD_filename L1B_GEO_filename : string) : swath_granule :=
  {| sg_kind := L2_LSTE_swath;
     sg_filenames := [L2_LSTE_filename; L2_CLOUD_filename; L1B_GEO_filename] |}.

(** What lines 293 to 374 take from the run-config document. *)
Record runconfig_fields := {
  rf_working_directory : string;
  rf_output_directory : string;
  rf_L2_LSTE_filename : string;
  rf_L2_CLOUD_filename : string;
  rf_L1B_GEO_filename : string;
  rf_L1B_RAD_filename : string;
  rf_orbit : Z;
  rf_scene : Z;
  rf_production_datetime : DateTime;
  rf_build : string;
  rf_product_counter : Z;
}.

(** Lines 293 to 374: the checks and conversions of the [try] block that
    come before the granule is opened.  They touch neither the file system
    nor the log. *)
Definition read_fields (filename : string) (runconfig : runconfig_dict)
  : outcome runconfig_fields :=
  let missing (what : string) :=
    "missing " +:+ what +:+ " in L1_L2_RAD_LSTE run-config: " +:+ filename in
  let missing' (what : string) :=
    "missing " +:+ what +:+ " in L1_L2_RAD_LSTE run-config " +:+ filename in
  require runconfig "StaticAncillaryFileGroup" (missing "StaticAncillaryFileGroup") >>?
  let? static := getitem runconfig "StaticAncillaryFileGroup" in
  require static "L2G_L2T_WORKING" (missing "StaticAncillaryFileGroup/L2G_L2T_WORKING") >>?
  let? working := getitem static "L2G_L2T_WORKING" in
  require runconfig "ProductPathGroup" (missing "ProductPathGroup") >>?
  let? product_path_group := getitem runconfig "ProductPathGroup" in
  require product_path_group "ProductPath" (missing "ProductPathGroup/ProductPath") >>?
  let? product_path := getitem product_path_group "ProductPath" in
  require runconfig "InputFileGroup" (missing "InputFileGroup") >>?
  let? input_file_group := getitem runconfig "InputFileGroup" in
  require input_file_group "L2_LSTE" (missing "InputFileGroup/L2_LSTE") >>?
  let? l2_lste := getitem input_file_group "L2_LSTE" in
  require input_file_group "L2_CLOUD" (missing "InputFileGroup/L2_CLOUD") >>?
  let? l2_cloud := getitem input_file_group "L2_CLOUD" in
  require input_file_group "L1B_GEO" (missing "InputFileGroup/L1B_GEO") >>?
  let? l1b_geo := getitem input_file_group "L1B_GEO" in
  require input_file_group "L1B_RAD" (missing "InputFileGroup/L1B_RAD") >>?
  let? l1b_rad := getitem input_file_group "L1B_RAD" in
  let? geometry_group := getitem runconfig "Geometry" in
  let? orbit_number := getitem geometry_group "OrbitNumber" in
  let? orbit := int orbit_number in
  require geometry_group "SceneId" (missing "Geometry/SceneId") >>?
  let? scene_id := getitem geometry_group "SceneId" in
  let? scene := int scene_id in
  let? job_identification := getitem runconfig "JobIdentification" in
  require job_identification "ProductionDateTime" (missing' "JobIdentification/ProductionDateTime") >>?
  let? production := getitem job_identification "ProductionDateTime" in
  let? production_datetime :=
    outcome_of_option (parse_datetime production)
                      (ValueError ("Unknown string format: " +:+ production)) in
  let? primary_executable := getitem runconfig "PrimaryExecutable" in
  require primary_executable "BuildID" (missing' "PrimaryExecutable/BuildID") >>?
  let? build := getitem primary_executable "BuildID" in
  require product_path_group "ProductCounter" (missing' "ProductPathGroup/ProductCounter") >>?
  let? counter := getitem product_path_group "ProductCounter" in
  let? product_counter := int counter in
  Ok {| rf_working_directory := abspath working;
        rf_output_directory := abspath product_path;
        rf_L2_LSTE_filename := abspath l2_lste;
        rf_L2_CLOUD_filename := abspath l2_cloud;
        rf_L1B_GEO_filename := abspath l1b_geo;
        rf_L1B_RAD_filename := abspath l1b_rad;
        rf_orbit := orbit;
        rf_scene := scene;
        rf_production_datetime := production_datetime;
        rf_build := build;
        rf_product_counter := product_counter |}.

(** Lines 388 to 419: the names derived from the fields and from the time
    of the granule. *)
Definition make_config (r : runconfig_fields) (time_UTC : DateTime) : L2GL2TRADLSTEConfig_t :=
  let timestamp := strftime_compact time_UTC in
  let suffix := granule_suffix (rf_orbit r) (rf_scene r) timestamp (rf_build r)
                               (rf_product_counter r) in
  let granule_ID := "ECOv002_L1_L2_RAD_LSTE" +:+ suffix in
  let L1CG_RAD_granule_ID := "ECOv002_L1CG_RAD" +:+ suffix in
  let L2G_LSTE_granule_ID := "ECOv002_L2G_LSTE" +:+ suffix in
  let L2G_CLOUD_granule_ID := "ECOv002_L2G_CLOUD" +:+ suffix in
  {| working_directory := rf_working_directory r;
     log_filename :=
       abspath (expanduser (Py.join (rf_working_directory r) ["log"; granule_ID +:+ ".log"]));
     output_directory := rf_output_directory r;
     L2_LSTE_filename := rf_L2_LSTE_filename r;
     L2_CLOUD_filename := rf_L2_CLOUD_filename r;
     L1B_GEO_filename := rf_L1B_GEO_filename r;
     L1B_RAD_filename := rf_L1B_RAD_filename r;
     orbit := rf_orbit r;
     scene := rf_scene r;
     production_datetime := rf_production_datetime r;
     build := rf_build r;
     product_counter := rf_product_counter r;
     granule_ID := granule_ID;
     L2G_granule_ID := L1CG_RAD_granule_ID;
     L1CG_RAD_filename := Py.join (rf_output_directory r) [L1CG_RAD_granule_ID +:+ ".h5"];
     L2G_LSTE_filename := Py.join (rf_output_directory r) [L2G_LSTE_granule_ID +:+ ".h5"];
     L2G_CLOUD_filename := Py.join (rf_output_directory r) [L2G_CLOUD_granule_ID +:+ ".h5"];
     PGE_name := PGE_NAME;
     PGE_version := PGEVersion |}.

(** The body of the [try] block: the fields, then the granule with its
    land filter (lines 376 to 386), then the names. *)
Definition L2GL2TRADLSTEConfig_try (filename : string) (runconfig : runconfig_dict)
  : M L2GL2TRADLSTEConfig_t :=
  let* r := lift (read_fields filename runconfig) in
  let* L2_LSTE_info :=
    L2LSTE_properties
      (L2LSTE_granule (rf_L2_LSTE_filename r) (rf_L2_CLOUD_filename r) (rf_L1B_GEO_filename r)) in
  let time_UTC := time_UTC L2_LSTE_info in
  let land_percent := land_percent L2_LSTE_info in
  if Qeq_bool land_percent 0 then raise (LandFilter land_percent)
  else ret (make_config r time_UTC).

(** The [except] clauses: [MissingRunConfigValue] and every
    [ECOSTRESSExitCodeException] are raised again; anything else is logged
    and replaced by [UnableToParseRunConfig]. *)
Definition L2GL2TRADLSTEConfig_except (filename : string) (e : exn) : M L2GL2TRADLSTEConfig_t :=
  match e with
  | MissingRunConfigValue _ => raise e
  | _ =>
      if is_ECOSTRESSExitCodeException e then raise e
      else
        emit (ELogException e) >>
        raise (UnableToParseRunConfig ("unable to parse run-config file: " +:+ filename))
  end.

(** [self.read_runconfig(filename)] comes before the [try]. *)
Definition L2GL2TRADLSTEConfig (filename : string) : M L2GL2TRADLSTEConfig_t :=
  emit (EReadRunConfig filename) >>
  let* f := get_fs in
  let* runconfig := call (read_runconfig f filename) in
  try_except (L2GL2TRADLSTEConfig_try filename runconfig)
             (L2GL2TRADLSTEConfig_except filename).

(** ** The orchestrator: [L1_L2_RAD_LSTE] *)

(** The parameters of [L1_L2_RAD_LSTE]. *)
Record arguments := {
  runconfig_filename : string;
  tiles : option (list string);
  variables : option (list string);
  process_tiles : bool;
  cell_size_degrees : Q;
  cell_size_meters : Q;
  gridded_geometry : option RasterGrid;
  kd_tree : option KDTree;
  scan_kd_trees : option (list KDTree);
  kd_tree_path : option string;
  search_radius_meters : Q;
  overlap_strategy : string;
  projection_system : string;
  strip_console : bool;
}.

Definition CELL_SIZE_DEGREES : Q := 7 # 10000.
Definition CELL_SIZE_METERS : Q := 70 # 1.
Definition SEARCH_RADIUS_METERS : Q := 100 # 1.
Definition PROJECTION_SYSTEM : string := "global_geographic".
Definition OVERLAP_STRATEGY : string := "checkerboard".
Definition STRIP_CONSOLE : bool := false.

(** A call that gives the run-config only, as [main] does. *)
Definition default_arguments (runconfig_filename : string) : arguments :=
  {| runconfig_filename := runconfig_filename;
     tiles := None;
     variables := None;
     process_tiles := true;
     cell_size_degrees := CELL_SIZE_DEGREES;
     cell_size_meters := CELL_SIZE_METERS;
     gridded_geometry := None;
     kd_tree := None;
     scan_kd_trees := None;
     kd_tree_path := None;
     search_radius_meters := SEARCH_RADIUS_METERS;
     overlap_strategy := OVERLAP_STRATEGY;
     projection_system := PROJECTION_SYSTEM;
     strip_console := STRIP_CONSOLE |}.

(** The local variables the later parts read, as they stand when the
    overlap strategy is dispatched on (line 556). *)
Record locals := {
  runconfig : L2GL2TRADLSTEConfig_t;
  L1B_RAD_granule : swath_granule;
  L2_LSTE_granule : swath_granule;
  L2_CLOUD_granule : swath_granule;
  swath_geometry0 : SwathGeometry;
  kd_tree_path0 : string;
  gridded_geometry0 : RasterGrid;
}.

(** The local variables the dispatch assigns. *)
Record spatial_index := {
  ix_kd_tree : option KDTree;
  ix_scan_kd_trees : option (list KDTree);
  ix_kd_tree_path : string;
  ix_swath_geometry : SwathGeometry;
}.

(** Lines 543 to 549: the grid the K-D tree is built against, unless the
    caller gave one. *)
Definition initial_gridded_geometry (a : arguments) (swath_geometry : SwathGeometry)
  : outcome RasterGrid :=
  match gridded_geometry a with
  | Some g => Ok g
  | None =>
      if String.eqb (projection_system a) "local_UTM"
      then Ok (UTM swath_geometry (cell_size_meters a))
      else if String.eqb (projection_system a) "global_geographic"
      then Ok (geographic swath_geometry (cell_size_degrees a))
      else Raise (ValueError ("unrecognized projection system: " +:+ projection_system a))
  end.

(** Lines 513 and 514. *)
Definition default_kd_tree_path (c : L2GL2TRADLSTEConfig_t) : string :=
  Py.join (working_directory c) [granule_ID c +:+ ".kdtree"].

(** Lines 453 to 552: run-config, log, granules, default K-D tree path,
    grid of the projection system, and the warning about a K-D tree file
    that is not there. *)
Definition prologue (a : arguments) : M locals :=
  let* runconfig := L2GL2TRADLSTEConfig (runconfig_filename a) in
  let working_directory := working_directory runconfig in
  let granule_ID := granule_ID runconfig in
  let log_filename := Py.join working_directory ["log"; granule_ID +:+ ".log"] in
  emit (EConfigureLog log_filename (strip_console a)) >>
  let L1B_RAD_granule :=
    {| sg_kind := L1B_RAD_swath;
       sg_filenames := [L1B_RAD_filename runconfig; L2_CLOUD_filename runconfig;
                        L2_LSTE_filename runconfig; L1B_GEO_filename runconfig] |} in
  emit (EOpenSwath L1B_RAD_granule) >>
  let L2_LSTE_granule :=
    L2LSTE_granule (L2_LSTE_filename runconfig) (L2_CLOUD_filename runconfig)
                   (L1B_GEO_filename runconfig) in
  emit (EOpenSwath L2_LSTE_granule) >>
  let L2_CLOUD_granule :=
    {| sg_kind := L2_CLOUD_swath;
       sg_filenames := [L2_CLOUD_filename runconfig; L1B_GEO_filename runconfig] |} in
  emit (EOpenSwath L2_CLOUD_granule) >>
  let* L2_LSTE_info := L2LSTE_properties L2_LSTE_granule in
  let swath_geometry := geometry L2_LSTE_info in
  let kd_tree_path :=
    match kd_tree_path a with
    | None => default_kd_tree_path runconfig
    | Some p => p
    end in
  let* gridded_geometry := lift (initial_gridded_geometry a swath_geometry) in
  let* found := exists_ kd_tree_path in
  (if found then ret tt
   else emit (ELogWarning ("K-D tree file not found: " +:+ kd_tree_path))) >>
  ret {| runconfig := runconfig;
         L1B_RAD_granule := L1B_RAD_granule;
         L2_LSTE_granule := L2_LSTE_granule;
         L2_CLOUD_granule := L2_CLOUD_granule;
         swath_geometry0 := swath_geometry;
         kd_tree_path0 := kd_tree_path;
         gridded_geometry0 := gridded_geometry |}.

(** The whole-swath index of the checkerboard and clipped-tails branches:
    loaded from [kd_tree_path] when that exists, built and saved there
    otherwise. *)
Definition whole_swath_index (a : arguments) (l : locals) (swath_geometry : SwathGeometry)
  : M spatial_index :=
  let kd_tree_path := kd_tree_path0 l in
  let* found := exists_ kd_tree_path in
  let* kd_tree :=
    if found then KDTree_load kd_tree_path
    else
      emit (EKDTreeBuild swath_geometry (gridded_geometry0 l) (search_radius_meters a)) >>
      let kd_tree := KDTree_new swath_geometry (gridded_geometry0 l) (search_radius_meters a) in
      KDTree_save kd_tree kd_tree_path >>
      ret kd_tree in
  ret {| ix_kd_tree := Some kd_tree;
         ix_scan_kd_trees := scan_kd_trees a;
         ix_kd_tree_path := kd_tree_path;
         ix_swath_geometry := swath_geometry |}.

Definition scan_kd_tree_name (i : nat) : string :=
  Py.format_0d 2 (Z.of_nat i) +:+ ".kdtree".

(** [for i, kd_tree in enumerate(scan_kd_trees)]: the loop assigns the
    function's own [kd_tree] and [kd_tree_path], which keep the values of
    the last round. *)
Fixpoint save_scan_kd_trees (kd_tree_directory : string) (i : nat) (trees : list KDTree)
    (ix : spatial_index) : M spatial_index :=
  match trees with
  | [] => ret ix
  | kd_tree :: rest =>
      let kd_tree_path := Py.join kd_tree_directory [scan_kd_tree_name i] in
      KDTree_save kd_tree kd_tree_path >>
      save_scan_kd_trees kd_tree_directory (S i) rest
        {| ix_kd_tree := Some kd_tree;
           ix_scan_kd_trees := ix_scan_kd_trees ix;
           ix_kd_tree_path := kd_tree_path;
           ix_swath_geometry := ix_swath_geometry ix |}
  end.

Definition scan_by_scan_index (a : arguments) (l : locals) : M spatial_index :=
  let kd_tree_directory := kd_tree_path0 l in
  let unchanged (trees : option (list KDTree)) :=
    {| ix_kd_tree := kd_tree a;
       ix_scan_kd_trees := trees;
       ix_kd_tree_path := kd_tree_path0 l;
       ix_swath_geometry := swath_geometry0 l |} in
  match scan_kd_trees a with
  | Some trees => ret (unchanged (Some trees))
  | None =>
      let* found := exists_ kd_tree_directory in
      if found then
        let pattern := Py.join kd_tree_directory ["*.kdtree"] in
        emit (EGlob pattern) >>
        let* f := get_fs in
        let* trees := mapM KDTree_load (Py.sorted (glob f pattern)) in
        ret (unchanged (Some trees))
      else
        emit (EGenerateScanKDTrees (swath_geometry0 l) (cell_size_degrees a)) >>
        let trees := generate_scan_kd_trees (swath_geometry0 l) (cell_size_degrees a) in
        makedirs kd_tree_directory >>
        save_scan_kd_trees kd_tree_directory 0 trees (unchanged (Some trees))
  end.

(** Lines 556 to 651: the dispatch on [overlap_strategy]. *)
Definition resolve_spatial_index (a : arguments) (l : locals) : M spatial_index :=
  if String.eqb (overlap_strategy a) "checkerboard" then
    whole_swath_index a l (swath_geometry0 l)
  else if String.eqb (overlap_strategy a) "scan_by_scan" then
    scan_by_scan_index a l
  else if String.eqb (overlap_strategy a) "remove_105_128" then
    emit (EClipTails (swath_geometry0 l)) >>
    whole_swath_index a l (clip_tails (swath_geometry0 l))
  else
    raise (ValueError ("unrecognized overlap strategy: " +:+ overlap_strategy a)).

(** *** The product stages *)

(** The primary output file of a product. *)
Definition product_filename (k : product) (c : L2GL2TRADLSTEConfig_t) : string :=
  match k with
  | L1CG_RAD => L1CG_RAD_filename c
  | L2G_LSTE => L2G_LSTE_filename c
  | L2G_CLOUD => L2G_CLOUD_filename c
  end.

Definition browse_filename (k : product) (c : L2GL2TRADLSTEConfig_t) : string :=
  Py.replace ".h5" ".png" (product_filename k c).

Definition product_swath_granule (k : product) (l : locals) : swath_granule :=
  match k with
  | L1CG_RAD => L1B_RAD_granule l
  | L2G_LSTE => L2_LSTE_granule l
  | L2G_CLOUD => L2_CLOUD_granule l
  end.

Definition product_input_filenames (k : product) (c : L2GL2TRADLSTEConfig_t) : list string :=
  match k with
  | L1CG_RAD => [L2_CLOUD_filename c; L1B_GEO_filename c; L1B_RAD_filename c]
  | L2G_LSTE => [L2_LSTE_filename c; L2_CLOUD_filename c; L1B_GEO_filename c; L1B_RAD_filename c]
  | L2G_CLOUD => [L2_CLOUD_filename c; L1B_GEO_filename c]
  end.

(** A gridded granule object: the product and the file it stands on. *)
Record gridded_granule := {
  gg_product : product;
  gg_filename : string;
}.

Definition product_args (k : product) (a : arguments) (l : locals) (ix : spatial_index)
    (grid : RasterGrid) : from_swath_args :=
  {| fa_swath_granule := product_swath_granule k l;
     fa_output_filename := product_filename k (runconfig l);
     fa_variables := variables a;
     fa_PGE_name := "L1_L2_RAD_LSTE";
     fa_PGE_version := PGEVersion;
     fa_build := build (runconfig l);
     fa_input_filenames := product_input_filenames k (runconfig l);
     fa_gridded_geometry := grid;
     fa_cell_size_degrees := cell_size_degrees a;
     fa_cell_size_meters := cell_size_meters a;
     fa_projection_system := projection_system a;
     fa_kd_tree := ix_kd_tree ix;
     fa_scan_kd_trees := ix_scan_kd_trees ix;
     fa_kd_tree_path := ix_kd_tree_path ix |}.

(** [exists(a) and exists(b)]: the second call is made only after the
    first has answered yes. *)
Definition both_exist (p1 p2 : string) : M bool :=
  let* e1 := exists_ p1 in
  if e1 then exists_ p2 else ret false.

(** What a call that raises has left at the file it was writing. *)
Definition left_at (path : string) (partial : option string) (f : gmap string node)
  : gmap string node :=
  match partial with
  | Some data => <[path := File data]> f
  | None => f
  end.

(** [from_swath] writes [output_filename]: the product when it returns,
    what it had written by then when it raises. *)
Definition from_swath_call (k : product) (args : from_swath_args) : M string :=
  emit (EFromSwath k args) >>
  let* f := get_fs in
  match from_swath k f args with
  | inr data =>
      put_fs (<[fa_output_filename args := File data]> f) >>
      ret data
  | inl (e, partial) =>
      put_fs (left_at (fa_output_filename args) partial f) >>
      raise (Foreign e)
  end.

(** [granule.write_browse_image(PNG_filename=...)], in the same way. *)
Definition write_browse_image (k : product) (data PNG_filename : string) : M unit :=
  emit (EWriteBrowseImage k PNG_filename) >>
  let* f := get_fs in
  match browse_image k data with
  | inr image => put_fs (<[PNG_filename := File image]> f)
  | inl (e, partial) =>
      put_fs (left_at PNG_filename partial f) >>
      raise (Foreign e)
  end.

(** One product: the existing file is opened when it and its browse image
    are there, otherwise [from_swath] builds the product and writes it to
    the primary file, and the browse image is written next to it. *)
Definition product_stage (k : product) (a : arguments) (l : locals) (ix : spatial_index)
    (grid : RasterGrid) : M gridded_granule :=
  let filename := product_filename k (runconfig l) in
  let browse := browse_filename k (runconfig l) in
  let* complete := both_exist filename browse in
  if complete then
    emit (EOpenProduct k filename) >>
    ret {| gg_product := k; gg_filename := filename |}
  else
    let* data := from_swath_call k (product_args k a l ix grid) in
    write_browse_image k data browse >>
    ret {| gg_product := k; gg_filename := filename |}.

Definition write_all (files : list (string * string)) (f : gmap string node) : gmap string node :=
  fold_left (fun f pd => <[pd.1 := File pd.2]> f) files f.

(** [if process_tiles: granule.to_tiles(...)] *)
Definition tile_stage (g : gridded_granule) (a : arguments) (l : locals) : M unit :=
  if process_tiles a then
    emit (EToTiles (gg_product g) (output_directory (runconfig l)) (tiles a) (variables a)) >>
    let* f := get_fs in
    let* files :=
      call (to_tiles (gg_product g) f (gg_filename g) (output_directory (runconfig l))
                     (tiles a) (variables a)) in
    put_fs (write_all files f)
  else ret tt.

(** Lines 653 to 756. *)
Definition product_stages (a : arguments) (l : locals) (ix : spatial_index) : M unit :=
  let gridded_geometry := geographic (ix_swath_geometry ix) (cell_size_degrees a) in
  let* L1CG_RAD_granule := product_stage L1CG_RAD a l ix gridded_geometry in
  tile_stage L1CG_RAD_granule a l >>
  exists_ (ix_kd_tree_path ix) >>
  let* L2G_LSTE_granule := product_stage L2G_LSTE a l ix gridded_geometry in
  tile_stage L2G_LSTE_granule a l >>
  let* L2G_CLOUD_granule := product_stage L2G_CLOUD a l ix gridded_geometry in
  ret tt.

(** The body of the [try] block. *)
Definition L1_L2_RAD_LSTE_try (a : arguments) : M Z :=
  let* l := prologue a in
  let* ix := resolve_spatial_index a l in
  product_stages a l ix >>
  ret SUCCESS_EXIT_CODE.

(** [except ECOSTRESSExitCodeException as exception]: logged, and its
    [exit_code] becomes the result.  There is no other [except] clause. *)
Definition L1_L2_RAD_LSTE_except (e : exn) : M Z :=
  match exit_code e with
  | Some code => emit (ELogException e) >> ret code
  | None => raise e
  end.

Definition L1_L2_RAD_LSTE (a : arguments) : M Z :=
  try_except (L1_L2_RAD_LSTE_try a) L1_L2_RAD_LSTE_except.

(** ** The run-config generator: [generate_L1_L2_RAD_LSTE_runconfig] *)

Record generate_arguments := {
  g_L2_LSTE_filename : string;
  g_L2_CLOUD_filename : option string;
  g_L1B_GEO_filename : option string;
  g_L1B_RAD_filename : option string;
  g_orbit : option Z;
  g_scene : option Z;
  g_working_directory : option string;
  g_executable_filename : option string;
  g_output_directory : option string;
  g_runconfig_filename : option string;
  g_log_filename : option string;
  g_build : option string;
  g_processing_node : option string;
  g_production_datetime : option DateTime;
  g_job_ID : option string;
  g_instance_ID : option string;
  g_product_counter : option Z;
  g_template_filename : option string;
}.

Definition DEFAULT_OUTPUT_DIRECTORY : string := "L1_L2_RAD_LSTE_output".

(** [join(abspath(dirname(__file__)), "L1_L2_RAD_LSTE.xml")] *)
Definition L1_L2_RAD_LSTE_TEMPLATE : string :=
  Py.join module_directory ["L1_L2_RAD_LSTE.xml"].

(** [join(a, ...)] where [a] may be [None]: [posixpath.join] raises
    [TypeError] on it. *)
Definition join_of_None : exn :=
  TypeError "expected str, bytes or os.PathLike object, not NoneType".

Definition join_value (a : option string) (ps : list string) : M string :=
  match a with
  | Some a => ret (Py.join a ps)
  | None => raise join_of_None
  end.

(** [source_granule_ID.split("_")[-k]] *)
Definition granule_field (source_granule_ID : string) (k : nat) : M string :=
  of_option (Py.index_from_end (Py.split "_" source_granule_ID) k)
            (IndexError "list index out of range").

Definition sorted_glob (pattern : string) : M (list string) :=
  emit (EGlob pattern) >>
  let* f := get_fs in
  ret (Py.sorted (glob f pattern)).

(** The search for a companion file of the L2 LSTE granule: first with the
    build in the pattern, then without it; the last candidate in sorted
    order wins. *)
Definition find_companion (given : option string) (L2_LSTE_filename name label : string)
    (orbit scene : Z) (build : string) : M string :=
  match given with
  | Some filename => ret filename
  | None =>
      let directory := abspath (expanduser (Py.dirname L2_LSTE_filename)) in
      let stem := "*_" +:+ name +:+ "_" +:+ Py.format_0d 5 orbit +:+ "_" +:+ Py.format_0d 3 scene in
      let* candidates := sorted_glob (Py.join directory [stem +:+ "_*_" +:+ build +:+ "_*.h5"]) in
      let* candidates :=
        match candidates with
        | [] => sorted_glob (Py.join directory [stem +:+ "_*.h5"])
        | _ => ret candidates
        end in
      of_option (Py.index_from_end candidates 1)
                (ValueError ("no " +:+ label +:+ " filename given or found"))
  end.

Definition value_or {A} (o : option A) (d : A) : A :=
  match o with
  | Some a => a
  | None => d
  end.

(** What lines 67 to 152 settle: the L2 LSTE file, the orbit, scene and
    build, the companion files, the template and the executable. *)
Record generate_inputs := {
  gi_L2_LSTE_filename : string;
  gi_orbit : Z;
  gi_scene : Z;
  gi_build : string;
  gi_L2_CLOUD_filename : string;
  gi_L1B_GEO_filename : string;
  gi_L1B_RAD_filename : string;
  gi_template_filename : string;
  gi_executable_filename : string;
}.

(** Lines 67 to 152.  The [build] is never [None] after line 87, so that the
    default of line 160 is never taken. *)
Definition resolve_generate_inputs (g : generate_arguments) : M generate_inputs :=
  let L2_LSTE_filename := abspath (expanduser (g_L2_LSTE_filename g)) in
  let* found := exists_ L2_LSTE_filename in
  if negb found then raise (IOError ("L2 LSTE file not found: " +:+ L2_LSTE_filename))
  else
  let source_granule_ID := Py.splitext_root (Py.basename L2_LSTE_filename) in
  let* orbit :=
    match g_orbit g with
    | Some o => ret o
    | None => let* field := granule_field source_granule_ID 5 in lift (int field)
    end in
  let* scene :=
    match g_scene g with
    | Some s => ret s
    | None => let* field := granule_field source_granule_ID 4 in lift (int field)
    end in
  let* build :=
    match g_build g with
    | Some b => ret b
    | None => granule_field source_granule_ID 2
    end in
  let* L2_CLOUD_filename :=
    find_companion (g_L2_CLOUD_filename g) L2_LSTE_filename "L2_CLOUD" "L2 CLOUD" orbit scene build in
  let* L1B_GEO_filename :=
    find_companion (g_L1B_GEO_filename g) L2_LSTE_filename "L1B_GEO" "L1B GEO" orbit scene build in
  let* L1B_RAD_filename :=
    find_companion (g_L1B_RAD_filename g) L2_LSTE_filename "L1B_RAD" "L1B RAD" orbit scene build in
  let template_filename :=
    abspath (expanduser (value_or (g_template_filename g) L1_L2_RAD_LSTE_TEMPLATE)) in
  let executable_filename :=
    value_or (g_executable_filename g) (value_or (which "L1_L2_RAD_LSTE") "L1_L2_RAD_LSTE") in
  ret {| gi_L2_LSTE_filename := L2_LSTE_filename;
         gi_orbit := orbit;
         gi_scene := scene;
         gi_build := build;
         gi_L2_CLOUD_filename := L2_CLOUD_filename;
         gi_L1B_GEO_filename := L1B_GEO_filename;
         gi_L1B_RAD_filename := L1B_RAD_filename;
         gi_template_filename := template_filename;
         gi_executable_filename := executable_filename |}.

(** The granule that lines 184 to 188 open. *)
Definition generate_granule (i : generate_inputs) : swath_granule :=
  L2LSTE_granule (abspath (expanduser (gi_L2_LSTE_filename i)))
                 (abspath (expanduser (gi_L2_CLOUD_filename i)))
                 (abspath (expanduser (gi_L1B_GEO_filename i))).

(** Lines 154 to 260. *)
Definition write_runconfig (g : generate_arguments) (i : generate_inputs) : M string :=
  let orbit := gi_orbit i in
  let scene := gi_scene i in
  let build := gi_build i in
  let L1B_RAD_filename := gi_L1B_RAD_filename i in
  let template_filename := gi_template_filename i in
  let executable_filename := gi_executable_filename i in
  let* output_directory :=
    match g_output_directory g with
    | Some d => ret d
    | None => join_value (g_working_directory g) [DEFAULT_OUTPUT_DIRECTORY]
    end in
  let output_directory := abspath (expanduser output_directory) in
  let processing_node := value_or (g_processing_node g) gethostname in
  let production_datetime := str_of_datetime (value_or (g_production_datetime g) utcnow) in
  let job_ID := value_or (g_job_ID g) production_datetime in
  let instance_ID := value_or (g_instance_ID g) uuid4 in
  let product_counter := value_or (g_product_counter g) 1 in
  let L2_LSTE_filename := abspath (expanduser (gi_L2_LSTE_filename i)) in
  let L2_CLOUD_filename := abspath (expanduser (gi_L2_CLOUD_filename i)) in
  let L1B_GEO_filename := abspath (expanduser (gi_L1B_GEO_filename i)) in
  let* L2_LSTE_info := L2LSTE_properties (generate_granule i) in
  let timestamp := strftime_compact (time_UTC L2_LSTE_info) in
  let granule_ID :=
    "ECOv002_L1_L2_RAD_LSTE" +:+ granule_suffix orbit scene timestamp build product_counter in
  let* runconfig_filename :=
    match g_runconfig_filename g with
    | Some r => ret r
    | None => join_value (g_working_directory g) ["runconfig"; granule_ID +:+ ".xml"]
    end in
  let runconfig_filename := abspath (expanduser runconfig_filename) in
  let* present := exists_ runconfig_filename in
  if present then ret runconfig_filename
  else
  let* log_filename :=
    match g_log_filename g with
    | Some f => ret f
    | None => join_value (g_working_directory g) ["log"; granule_ID +:+ ".log"]
    end in
  let log_filename := abspath (expanduser log_filename) in
  let working_directory := abspath (expanduser (value_or (g_working_directory g) granule_ID)) in
  let* template := read_file template_filename in
  let template :=
    fold_left (fun t kv => Py.replace kv.1 kv.2 t)
      [("orbit_number", Py.format_0d 5 orbit);
       ("scene_ID", Py.format_0d 3 scene);
       ("L2_LSTE_filename", L2_LSTE_filename);
       ("L2_CLOUD_filename", L2_CLOUD_filename);
       ("L1B_GEO_filename", L1B_GEO_filename);
       ("L1B_RAD_filename", L1B_RAD_filename);
       ("working_directory", working_directory);
       ("executable_filename", executable_filename);
       ("output_directory", output_directory);
       ("runconfig_filename", runconfig_filename);
       ("log_filename", log_filename);
       ("build_ID", build);
       ("processing_node", processing_node);
       ("production_datetime", production_datetime);
       ("job_ID", job_ID);
       ("instance_ID", instance_ID);
       ("product_counter", Py.format_0d 2 product_counter)]
      template in
  makedirs (Py.dirname (abspath runconfig_filename)) >>
  write_file runconfig_filename template >>
  ret runconfig_filename.

Definition generate_L1_L2_RAD_LSTE_runconfig (g : generate_arguments) : M string :=
  let* i := resolve_generate_inputs g in
  write_runconfig g i.

(** ** The run-config of a Collection 1 scene: [L1_L2_RAD_LSTE_runconfig_from_C1] *)

(** What the entry points take from the [ECOSTRESS] package besides the
    collaborators of the pipeline: the exit code of a command line without
    run-config, and the search for the files of a Collection 1 scene, which
    answers with a dictionary of file names. *)
Class EntryPoints := {
  RUNCONFIG_FILENAME_NOT_SUPPLIED : Z;
  find_ECOSTRESS_C1_scene : gmap string node -> Z -> Z -> failure + gmap string string;
}.

Context `{entry_points : !EntryPoints}.

(** The call of lines 273 to 280: what it does not name keeps the default
    [None]. *)
Definition C1_generate_arguments (orbit scene : Z)
    (L2_LSTE_filename L2_CLOUD_filename L1B_GEO_filename runconfig_filename : string)
  : generate_arguments :=
  {| g_L2_LSTE_filename := L2_LSTE_filename;
     g_L2_CLOUD_filename := Some L2_CLOUD_filename;
     g_L1B_GEO_filename := Some L1B_GEO_filename;
     g_L1B_RAD_filename := None;
     g_orbit := Some orbit;
     g_scene := Some scene;
     g_working_directory := None;
     g_executable_filename := None;
     g_output_directory := None;
     g_runconfig_filename := Some runconfig_filename;
     g_log_filename := None;
     g_build := None;
     g_processing_node := None;
     g_production_datetime := None;
     g_job_ID := None;
     g_instance_ID := None;
     g_product_counter := None;
     g_template_filename := None |}.

Definition L1_L2_RAD_LSTE_runconfig_from_C1 (orbit scene : Z) (runconfig_filename : string)
  : M string :=
  let* f := get_fs in
  let* filenames := call (find_ECOSTRESS_C1_scene f orbit scene) in
  let* L2_LSTE_filename := lift (getitem filenames "L2_LSTE") in
  let* L2_CLOUD_filename := lift (getitem filenames "L2_CLOUD") in
  let* L1B_GEO_filename := lift (getitem filenames "L1B_GEO") in
  generate_L1_L2_RAD_LSTE_runconfig
    (C1_generate_arguments orbit scene L2_LSTE_filename L2_CLOUD_filename L1B_GEO_filename
                           runconfig_filename).

(** ** The command line: [main] *)

(** The call of line 781: the run-config and [strip_console], the defaults
    for the rest. *)
Definition main_arguments (runconfig_filename : string) (strip_console : bool) : arguments :=
  {| runconfig_filename := runconfig_filename;
     tiles := None;
     variables := None;
     process_tiles := true;
     cell_size_degrees := CELL_SIZE_DEGREES;
     cell_size_meters := CELL_SIZE_METERS;
     gridded_geometry := None;
     kd_tree := None;
     scan_kd_trees := None;
     kd_tree_path := None;
     search_radius_meters := SEARCH_RADIUS_METERS;
     overlap_strategy := OVERLAP_STRATEGY;
     projection_system := PROJECTION_SYSTEM;
     strip_console := strip_console |}.

(** The lines that [main] prints when it does not run the pipeline. *)
Definition usage : list string :=
  ["L1_L2_RAD_LSTE PGE (" +:+ PGEVersion +:+ ")"; "usage: L1_L2_RAD_LSTE RunConfig.xml"].

(** [main(argv)]: the lines printed, and the rest of the call. *)
Definition main (argv : list string) : list string * M Z :=
  if (length argv =? 1)%nat || bool_decide ("--version" ∈ argv) then
    (usage,
     if bool_decide ("--version" ∈ argv) then ret SUCCESS_EXIT_CODE
     else ret RUNCONFIG_FILENAME_NOT_SUPPLIED)
  else
    ([],
     let strip_console := bool_decide ("--strip-console" ∈ argv) in
     let* runconfig_filename :=
       of_option (argv !! 1%nat) (IndexError "list index out of range") in
     L1_L2_RAD_LSTE (main_arguments runconfig_filename strip_console)).

(** ** Predicates on runs *)

(** [yields m P V E]: whatever the world [m] starts in, the events it
    appends to the trace satisfy [P], the value it returns satisfies [V],
    and the exception it ends with otherwise satisfies [E]. *)
Definition yields {A} (m : M A) (P : list event -> Prop) (V : A -> Prop) (E : exn -> Prop)
  : Prop :=
  forall w r w', m w = (r, w') ->
    (exists t, trace w' = trace w ++ t /\ P t) /\
    match r with Ok a => V a | Raise e => E e end.

Definition any {A} : A -> Prop := fun _ => True.

Definition overlap_strategies : list string :=
  ["checkerboard"; "scan_by_scan"; "remove_105_128"].

Definition projection_systems : list string := ["local_UTM"; "global_geographic"].

Definition unrecognized_overlap_strategy (a : arguments) : exn :=
  ValueError ("unrecognized overlap strategy: " +:+ overlap_strategy a).

Definition unrecognized_projection_system (a : arguments) : exn :=
  ValueError ("unrecognized projection system: " +:+ projection_system a).

(** What the run-config reader appends to the trace. *)
Definition config_event (e : event) : Prop :=
  match e with
  | EReadRunConfig _ | EReadL2LSTE _ | ELogException _ => True
  | _ => False
  end.

(** What the run-config reader raises. *)
Definition config_exn (e : exn) : Prop :=
  match e with
  | MissingRunConfigValue _ | UnableToParseRunConfig _ | LandFilter _ | Foreign _ => True
  | _ => False
  end.

Definition prologue_event (e : event) : Prop :=
  match e with
  | EReadRunConfig _ | EReadL2LSTE _ | ELogException _
  | EConfigureLog _ _ | EOpenSwath _ | EExists _ | ELogWarning _ => True
  | _ => False
  end.

(** What the [try] block of the orchestrator raises. *)
Definition body_exn (a : arguments) (e : exn) : Prop :=
  match e with
  | MissingRunConfigValue _ | UnableToParseRunConfig _ | LandFilter _
  | Foreign _ | IOError _ => True
  | ValueError _ =>
      (e = unrecognized_projection_system a /\ gridded_geometry a = None /\
       projection_system a ∉ projection_systems) \/
      (e = unrecognized_overlap_strategy a /\ overlap_strategy a ∉ overlap_strategies)
  | _ => False
  end.

Definition index_event (e : event) : Prop :=
  match e with
  | EExists _ | EGlob _ | EMakedirs _ | EClipTails _
  | EKDTreeLoad _ | EKDTreeBuild _ _ _ | EGenerateScanKDTrees _ _ | EKDTreeSave _ _ => True
  | _ => False
  end.

(** The events that stand for a build of the spatial index: the [KDTree]
    constructor and [generate_scan_kd_trees]. *)
Definition is_build (e : event) : bool :=
  match e with
  | EKDTreeBuild _ _ _ | EGenerateScanKDTrees _ _ => true
  | _ => false
  end.

Definition builds (t : list event) : nat :=
  length (filter (fun e => is_build e = true) t).

Definition stage_event (k : product) (args : from_swath_args) (e : event) : Prop :=
  match e with
  | EExists _ => True
  | EOpenProduct k' _ | EWriteBrowseImage k' _ | EToTiles k' _ _ _ => k' = k
  | EFromSwath k' args' => k' = k /\ args' = args
  | _ => False
  end.

Definition opened (k : product) (l : locals) : gridded_granule :=
  {| gg_product := k; gg_filename := product_filename k (runconfig l) |}.

(** The grid every product is built on (line 653). *)
Definition product_grid (a : arguments) (ix : spatial_index) : RasterGrid :=
  geographic (ix_swath_geometry ix) (cell_size_degrees a).

Definition stages_event (a : arguments) (l : locals) (ix : spatial_index) (e : event) : Prop :=
  exists k, stage_event k (product_args k a l ix (product_grid a ix)) e.






(** What the [except] clause of the orchestrator appends. *)
Definition boundary_event (e : event) : Prop :=
  match e with
  | ELogException _ => True
  | _ => False
  end.


(** [keeps_fs m]: [m] leaves the file system as it found it. *)
Definition keeps_fs {A} (m : M A) : Prop :=
  forall w r w', m w = (r, w') -> fs w' = fs w.

(** [starts_with ev t]: the first event of [t] is [ev]. *)
Definition starts_with (ev : event) (t : list event) : Prop :=
  exists t', t = ev :: t'.

(** The swath geometry the index is built on: clipped under the
    clipped-tails strategy, as the granule gave it otherwise. *)
Definition prepared_swath_geometry (a : arguments) (swath_geometry : SwathGeometry)
  : SwathGeometry :=
  if String.eqb (overlap_strategy a) "remove_105_128"
  then clip_tails swath_geometry
  else swath_geometry.

(** *** What [makedirs] leaves *)



(** The file system with the directories among [paths] that were missing. *)
Definition with_directories (paths : list string) (f : gmap string node) : gmap string node :=
  fold_left (fun f p => match f !! p with
                        | None => <[p := Directory]> f
                        | Some _ => f
                        end) paths f.

(** *** The scan-by-scan cache, as a specification *)

(** What [posixpath.join] puts between a directory and a relative name. *)
Definition separator_after (dir : string) : string :=
  if String.eqb dir "" || Py.ends_with_sep dir then "" else "/".








(** *** Predicates on the run-config reader *)

(** What lines 293 to 374 raise. *)
Definition fields_exn (e : exn) : Prop :=
  match e with
  | MissingRunConfigValue _ | KeyError _ | ValueError _ => True
  | _ => False
  end.

(** The exception that replaces what the reader could not make sense of. *)
Definition unable_to_parse (filename : string) : exn :=
  UnableToParseRunConfig ("unable to parse run-config file: " +:+ filename).

(** The world after some more events. *)
Definition after (w : world) (t : list event) : world :=
  {| fs := fs w; trace := trace w ++ t |}.


(** *** Predicates on the product stages *)

(** The tile products of a run: of the radiance and of the LSTE products
    only, with the tiles and variables of the call, and only when
    [process_tiles] is set. *)
Definition tile_event (a : arguments) (e : event) : Prop :=
  match e with
  | EToTiles k _ ti va =>
      k <> L2G_CLOUD /\ process_tiles a = true /\ ti = tiles a /\ va = variables a
  | _ => True
  end.

(** The checks that [exists(a) and exists(b)] makes on a file system. *)
Definition existence_checks (f : gmap string node) (p1 p2 : string) : list event :=
  EExists p1 :: (if bool_decide (is_Some (f !! p1)) then [EExists p2] else []).

(** The call with another [kd_tree]. *)
Definition with_kd_tree (t : option KDTree) (a : arguments) : arguments :=
  {| runconfig_filename := runconfig_filename a;
     tiles := tiles a;
     variables := variables a;
     process_tiles := process_tiles a;
     cell_size_degrees := cell_size_degrees a;
     cell_size_meters := cell_size_meters a;
     gridded_geometry := gridded_geometry a;
     kd_tree := t;
     scan_kd_trees := scan_kd_trees a;
     kd_tree_path := kd_tree_path a;
     search_radius_meters := search_radius_meters a;
     overlap_strategy := overlap_strategy a;
     projection_system := projection_system a;
     strip_console := strip_console a |}.


(** *** Predicates on the run-config generator *)

(** The granule ID that the generator derives (line 193). *)
Definition generated_granule_ID (g : generate_arguments) (i : generate_inputs)
    (info : granule_info) : string :=
  "ECOv002_L1_L2_RAD_LSTE" +:+
  granule_suffix (gi_orbit i) (gi_scene i) (strftime_compact (time_UTC info)) (gi_build i)
                 (value_or (g_product_counter g) 1).

(** The run-config file of a call that names it or names the working
    directory (lines 195 to 198). *)
Definition generated_runconfig_filename (g : generate_arguments) (i : generate_inputs)
    (info : granule_info) : option string :=
  match g_runconfig_filename g, g_working_directory g with
  | Some r, _ => Some (abspath (expanduser r))
  | None, Some d =>
      Some (abspath (expanduser (Py.join d ["runconfig"; generated_granule_ID g i info +:+ ".xml"])))
  | None, None => None
  end.

(** [c] is the last of [l] in the order of [sorted]. *)
Definition greatest (l : list string) (c : string) : Prop :=
  c ∈ l /\ forall c', c' ∈ l -> String.le c' c.

(** The two patterns that lines 91 and 96 search with, for the product
    [name]. *)
Definition companion_patterns (L2_LSTE_filename name : string) (orbit scene : Z) (build : string)
  : string * string :=
  let directory := abspath (expanduser (Py.dirname L2_LSTE_filename)) in
  let stem := "*_" +:+ name +:+ "_" +:+ Py.format_0d 5 orbit +:+ "_" +:+ Py.format_0d 3 scene in
  (Py.join directory [stem +:+ "_*_" +:+ build +:+ "_*.h5"],
   Py.join directory [stem +:+ "_*.h5"]).


(** *** What stays in the file system *)

(** [grows_fs m]: [m] removes no path from the file system. *)
Definition grows_fs {A} (m : M A) : Prop :=
  forall w r w', m w = (r, w') -> forall p, is_Some (fs w !! p) -> is_Some (fs w' !! p).


(** [s] ends with the extension of the product files. *)
Definition ends_with_h5 (s : string) : Prop := exists x, s = x +:+ ".h5".


(** *** Runs on the trees of the caller *)

(** What a run on the per-scan-line trees [trees] of the caller does: no
    work on a K-D tree or on the cache, and [from_swath] on these trees and
    on the [kd_tree] of the call. *)
Definition passed_trees_event (a : arguments) (trees : list KDTree) (e : event) : Prop :=
  match e with
  | EKDTreeLoad _ | EKDTreeBuild _ _ _ | EGenerateScanKDTrees _ _ | EKDTreeSave _ _
  | EGlob _ | EMakedirs _ | EClipTails _ => False
  | EFromSwath _ args => fa_scan_kd_trees args = Some trees /\ fa_kd_tree args = kd_tree a
  | _ => True
  end.

End Pipeline.

(** ** A test double for the collaborators *)

(** Concrete collaborators, small enough to run the embedding: a swath
    geometry is its shape, a K-D tree is a number, and a granule file holds
    the number of scan-lines of its swath in decimal, or the word [ocean]. *)
Module TestDouble.

Definition parse_nat (s : string) : option nat :=
  match s with
  | EmptyString => None
  | _ => (fun d => N.to_nat (N.of_uint d)) <$> NilEmpty.uint_of_string s
  end.

Definition scene_runconfig : runconfig_dict :=
  {[ "StaticAncillaryFileGroup" := {[ "L2G_L2T_WORKING" := "/w" ]};
     "ProductPathGroup" := {[ "ProductPath" := "/o"; "ProductCounter" := "1" ]};
     "InputFileGroup" := {[ "L2_LSTE" := "/i/lste.h5"; "L2_CLOUD" := "/i/cloud.h5";
                            "L1B_GEO" := "/i/geo.h5"; "L1B_RAD" := "/i/rad.h5" ]};
     "Geometry" := {[ "OrbitNumber" := "1"; "SceneId" := "2" ]};
     "JobIdentification" := {[ "ProductionDateTime" := "2024-01-01T00:00:00" ]};
     "PrimaryExecutable" := {[ "BuildID" := "0700" ]} ]}.

Definition read_granule (f : gmap string node) (g : swath_granule)
  : failure + @granule_info (nat * nat) string :=
  match sg_filenames g with
  | filename :: _ =>
      match f !! filename with
      | Some (File data) =>
          if String.eqb data "ocean"
          then inr {| time_UTC := "T"; land_percent := 0; geometry := (44%nat, 540%nat) |}
          else match parse_nat data with
               | Some n => inr {| time_UTC := "T"; land_percent := 50 # 1;
                                  geometry := (n, 540%nat) |}
               | None => inl (OtherFailure "not a granule")
               end
      | _ => inl (OtherFailure "no such granule")
      end
  | [] => inl (OtherFailure "no file name")
  end.

#[export] Instance collaborators : @Collaborators (nat * nat) (string * (nat * nat)) nat string := {|
  SUCCESS_EXIT_CODE := 0;
  MISSING_RUNCONFIG_VALUE := 3;
  UNABLE_TO_PARSE_RUNCONFIG := 4;
  LAND_FILTER := 7;
  PGEVersion := "v2";
  abspath := fun p => p;
  expanduser := fun p => p;
  which := fun _ => None;
  gethostname := "node";
  utcnow := "2024-01-02 00:00:00";
  uuid4 := "uuid";
  str_of_datetime := fun d => d;
  strftime_compact := fun d => d;
  parse_int := fun s => Z.of_int <$> NilZero.int_of_string s;
  parse_datetime := fun s => Some s;
  read_runconfig := fun f filename =>
    match f !! filename with
    | Some (File _) => inr scene_runconfig
    | _ => inl (OtherFailure "no run-config")
    end;
  read_L2LSTE := read_granule;
  UTM := fun sg _ => ("UTM", sg);
  geographic := fun sg _ => ("geographic", sg);
  clip_tails := fun sg => (sg.1, sg.2 - 24)%nat;
  KDTree_new := fun _ _ _ => 99%nat;
  generate_scan_kd_trees := fun sg _ => seq 0 sg.1;
  KDTree_dumps := fun t => Py.digits (N.of_nat t);
  KDTree_loads := fun data =>
    match parse_nat data with
    | Some t => inr t
    | None => inl (OtherFailure "not a K-D tree")
    end;
  from_swath := fun _ _ _ => inr "gridded";
  browse_image := fun _ _ => inr "png";
  module_directory := "/pkg";
  to_tiles := fun _ _ _ _ _ _ => inr [];
|}.

Abbreviation world := (@world (nat * nat) (string * (nat * nat)) nat).
Abbreviation arguments := (@arguments (string * (nat * nat)) nat).
Abbreviation event := (@event (nat * nat) (string * (nat * nat)) nat).

(** The input files of a scene whose swath has [scans] scan-lines. *)
Definition inputs (scans : string) : gmap string node :=
  {[ "/rc.xml" := File "<xml/>"; "/i/lste.h5" := File scans; "/i/cloud.h5" := File "c";
     "/i/geo.h5" := File "g"; "/i/rad.h5" := File "r" ]}.

Definition start (f : gmap string node) : world := {| fs := f; trace := [] |}.

(** A call of the orchestrator with the defaults of the source, but for the
    overlap strategy, the projection system and the K-D tree path. *)
Definition call_with (overlap projection : string) (kd : option string) : arguments :=
  {| runconfig_filename := "/rc.xml";
     tiles := None;
     variables := None;
     process_tiles := true;
     cell_size_degrees := CELL_SIZE_DEGREES;
     cell_size_meters := CELL_SIZE_METERS;
     gridded_geometry := None;
     kd_tree := None;
     scan_kd_trees := None;
     kd_tree_path := kd;
     search_radius_meters := SEARCH_RADIUS_METERS;
     overlap_strategy := overlap;
     projection_system := projection;
     strip_console := STRIP_CONSOLE |}.

(** The locals that the prologue leaves for a scene of [scans] scan-lines
    whose K-D tree path is [kd]. *)
Definition scene_locals (scans : nat) (kd : string) : @locals (nat * nat) (string * (nat * nat)) string :=
  {| runconfig :=
       {| working_directory := "/w";
          log_filename := "/w/log/ECOv002_L1_L2_RAD_LSTE_00001_002_T_0700_01.log";
          output_directory := "/o";
          L2_LSTE_filename := "/i/lste.h5";
          L2_CLOUD_filename := "/i/cloud.h5";
          L1B_GEO_filename := "/i/geo.h5";
          L1B_RAD_filename := "/i/rad.h5";
          orbit := 1;
          scene := 2;
          production_datetime := "2024-01-01T00:00:00";
          build := "0700";
          product_counter := 1;
          granule_ID := "ECOv002_L1_L2_RAD_LSTE_00001_002_T_0700_01";
          L2G_granule_ID := "ECOv002_L1CG_RAD_00001_002_T_0700_01";
          L1CG_RAD_filename := "/o/ECOv002_L1CG_RAD_00001_002_T_0700_01.h5";
          L2G_LSTE_filename := "/o/ECOv002_L2G_LSTE_00001_002_T_0700_01.h5";
          L2G_CLOUD_filename := "/o/ECOv002_L2G_CLOUD_00001_002_T_0700_01.h5";
          PGE_name := "L1_L2_RAD_LSTE";
          PGE_version := "v2" |};
     L1B_RAD_granule :=
       {| sg_kind := L1B_RAD_swath;
          sg_filenames := ["/i/rad.h5"; "/i/cloud.h5"; "/i/lste.h5"; "/i/geo.h5"] |};
     L2_LSTE_granule := L2LSTE_granule "/i/lste.h5" "/i/cloud.h5" "/i/geo.h5";
     L2_CLOUD_granule :=
       {| sg_kind := L2_CLOUD_swath; sg_filenames := ["/i/cloud.h5"; "/i/geo.h5"] |};
     swath_geometry0 := (scans, 540%nat);
     kd_tree_path0 := kd;
     gridded_geometry0 := ("geographic", (scans, 540%nat)) |}.

(** The default K-D tree path of the scene. *)
Definition scene_kd_tree_path : string :=
  "/w/ECOv002_L1_L2_RAD_LSTE_00001_002_T_0700_01.kdtree".

(** What the prologue of a run logs on the scene. *)
Definition prologue_trace (kd : string) (found : bool) : list event :=
  [EReadRunConfig "/rc.xml";
   EReadL2LSTE (L2LSTE_granule "/i/lste.h5" "/i/cloud.h5" "/i/geo.h5");
   EConfigureLog "/w/log/ECOv002_L1_L2_RAD_LSTE_00001_002_T_0700_01.log" false;
   EOpenSwath {| sg_kind := L1B_RAD_swath;
                 sg_filenames := ["/i/rad.h5"; "/i/cloud.h5"; "/i/lste.h5"; "/i/geo.h5"] |};
   EOpenSwath (L2LSTE_granule "/i/lste.h5" "/i/cloud.h5" "/i/geo.h5");
   EOpenSwath {| sg_kind := L2_CLOUD_swath; sg_filenames := ["/i/cloud.h5"; "/i/geo.h5"] |};
   EReadL2LSTE (L2LSTE_granule "/i/lste.h5" "/i/cloud.h5" "/i/geo.h5");
   EExists kd] ++
  (if found then [] else [ELogWarning ("K-D tree file not found: " +:+ kd)]).


(** The exceptions that a run logged. *)
Definition logged (t : list event) : list exn :=
  omap (fun e => match e with ELogException e => Some e | _ => None end) t.

(** A directory of input granules under their product names. *)
Definition L2_LSTE_name : string := "/i/ECOv002_L2_LSTE_00001_002_20240101T000000_0700_01.h5".
Definition L2_CLOUD_name : string := "/i/ECOv002_L2_CLOUD_00001_002_20240101T000000_0700_01.h5".
Definition L1B_GEO_name : string := "/i/ECOv002_L1B_GEO_00001_002_20240101T000000_0700_01.h5".
Definition L1B_RAD_name : string := "/i/ECOv002_L1B_RAD_00001_002_20240101T000000_0700_01.h5".

Definition granules : gmap string node :=
  {[ L2_LSTE_name := File "3"; L2_CLOUD_name := File "c";
     L1B_GEO_name := File "g"; L1B_RAD_name := File "r" ]}.

(** A call of the generator that names the L2 LSTE file and leaves the rest
    to the defaults, but for the three directories and files it is given. *)
Definition generate_call (working_directory output_directory runconfig_filename : option string)
  : @generate_arguments string :=
  {| g_L2_LSTE_filename := L2_LSTE_name;
     g_L2_CLOUD_filename := None;
     g_L1B_GEO_filename := None;
     g_L1B_RAD_filename := None;
     g_orbit := None;
     g_scene := None;
     g_working_directory := working_directory;
     g_executable_filename := None;
     g_output_directory := output_directory;
     g_runconfig_filename := runconfig_filename;
     g_log_filename := None;
     g_build := None;
     g_processing_node := None;
     g_production_datetime := None;
     g_job_ID := None;
     g_instance_ID := None;
     g_product_counter := None;
     g_template_filename := None |}.

(** What lines 67 to 152 find for that call among [granules]. *)
Definition found_inputs : generate_inputs :=
  {| gi_L2_LSTE_filename := L2_LSTE_name;
     gi_orbit := 1;
     gi_scene := 2;
     gi_build := "0700";
     gi_L2_CLOUD_filename := L2_CLOUD_name;
     gi_L1B_GEO_filename := L1B_GEO_name;
     gi_L1B_RAD_filename := L1B_RAD_name;
     gi_template_filename := "/pkg/L1_L2_RAD_LSTE.xml";
     gi_executable_filename := "L1_L2_RAD_LSTE" |}.

Definition found_trace : list event :=
  [EExists L2_LSTE_name;
   EGlob "/i/*_L2_CLOUD_00001_002_*_0700_*.h5";
   EGlob "/i/*_L1B_GEO_00001_002_*_0700_*.h5";
   EGlob "/i/*_L1B_RAD_00001_002_*_0700_*.h5"].

(** The same collaborators, but for a run-config reader that finds no
    [Geometry] group in the document. *)
Definition without_geometry : @Collaborators (nat * nat) (string * (nat * nat)) nat string :=
  {| SUCCESS_EXIT_CODE := @SUCCESS_EXIT_CODE _ _ _ _ collaborators;
     MISSING_RUNCONFIG_VALUE := @MISSING_RUNCONFIG_VALUE _ _ _ _ collaborators;
     UNABLE_TO_PARSE_RUNCONFIG := @UNABLE_TO_PARSE_RUNCONFIG _ _ _ _ collaborators;
     LAND_FILTER := @LAND_FILTER _ _ _ _ collaborators;
     PGEVersion := @PGEVersion _ _ _ _ collaborators;
     abspath := @abspath _ _ _ _ collaborators;
     expanduser := @expanduser _ _ _ _ collaborators;
     which := @which _ _ _ _ collaborators;
     gethostname := @gethostname _ _ _ _ collaborators;
     utcnow := @utcnow _ _ _ _ collaborators;
     uuid4 := @uuid4 _ _ _ _ collaborators;
     str_of_datetime := @str_of_datetime _ _ _ _ collaborators;
     strftime_compact := @strftime_compact _ _ _ _ collaborators;
     parse_int := @parse_int _ _ _ _ collaborators;
     parse_datetime := @parse_datetime _ _ _ _ collaborators;
     read_runconfig := fun f filename =>
       match f !! filename with
       | Some (File _) => inr (delete "Geometry" scene_runconfig)
       | _ => inl (OtherFailure "no run-config")
       end;
     read_L2LSTE := @read_L2LSTE _ _ _ _ collaborators;
     UTM := @UTM _ _ _ _ collaborators;
     geographic := @geographic _ _ _ _ collaborators;
     clip_tails := @clip_tails _ _ _ _ collaborators;
     KDTree_new := @KDTree_new _ _ _ _ collaborators;
     generate_scan_kd_trees := @generate_scan_kd_trees _ _ _ _ collaborators;
     KDTree_dumps := @KDTree_dumps _ _ _ _ collaborators;
     KDTree_loads := @KDTree_loads _ _ _ _ collaborators;
     from_swath := @from_swath _ _ _ _ collaborators;
     browse_image := @browse_image _ _ _ _ collaborators;
     module_directory := @module_directory _ _ _ _ collaborators;
     to_tiles := @to_tiles _ _ _ _ collaborators |}.


(** The entry points: the search for a Collection 1 scene finds the files
    of [granules], whatever the orbit and the scene. *)
#[export] Instance entry_points : EntryPoints := {|
  RUNCONFIG_FILENAME_NOT_SUPPLIED := 2;
  find_ECOSTRESS_C1_scene := fun _ _ _ =>
    inr {[ "L2_LSTE" := L2_LSTE_name; "L2_CLOUD" := L2_CLOUD_name;
           "L1B_GEO" := L1B_GEO_name ]};
|}.

(** What the granule reader finds in a granule of three scan-lines. *)
Definition scene_info : @granule_info (nat * nat) string :=
  {| time_UTC := "T"; land_percent := 50 # 1; geometry := (3%nat, 540%nat) |}.

(** The configuration of the scene. *)
Definition scene_fields : @runconfig_fields string :=
  {| rf_working_directory := "/w";
     rf_output_directory := "/o";
     rf_L2_LSTE_filename := "/i/lste.h5";
     rf_L2_CLOUD_filename := "/i/cloud.h5";
     rf_L1B_GEO_filename := "/i/geo.h5";
     rf_L1B_RAD_filename := "/i/rad.h5";
     rf_orbit := 1;
     rf_scene := 2;
     rf_production_datetime := "2024-01-01T00:00:00";
     rf_build := "0700";
     rf_product_counter := 1 |}.

(** The whole-swath index of the scene. *)
Definition scene_index : @spatial_index (nat * nat) nat :=
  {| ix_kd_tree := Some 99%nat;
     ix_scan_kd_trees := None;
     ix_kd_tree_path := scene_kd_tree_path;
     ix_swath_geometry := (3%nat, 540%nat) |}.

(** A scan-by-scan call on the trees of the caller. *)
Definition call_with_trees (trees : list nat) : arguments :=
  {| runconfig_filename := "/rc.xml";
     tiles := None;
     variables := None;
     process_tiles := true;
     cell_size_degrees := CELL_SIZE_DEGREES;
     cell_size_meters := CELL_SIZE_METERS;
     gridded_geometry := None;
     kd_tree := None;
     scan_kd_trees := Some trees;
     kd_tree_path := Some "/kd";
     search_radius_meters := SEARCH_RADIUS_METERS;
     overlap_strategy := "scan_by_scan";
     projection_system := "global_geographic";
     strip_console := STRIP_CONSOLE |}.

(** The run-config that the generator writes for [granules] under the
    working directory [/w]. *)
Definition generated_name : string :=
  "/w/runconfig/ECOv002_L1_L2_RAD_LSTE_00001_002_T_0700_01.xml".

End TestDouble.

(** * Verification *)

(** ** The Python layer on examples *)

Example join_two : Py.join "/work" ["log"; "g.log"] = "/work/log/g.log".
Proof. reflexivity. Qed.
Example join_absolute : Py.join "/work" ["/x"] = "/x".
Proof. reflexivity. Qed.
Example join_trailing : Py.join "/work/" ["x"] = "/work/x".
Proof. reflexivity. Qed.
Example replace_h5 : Py.replace ".h5" ".png" "/out/a.h5/b.h5" = "/out/a.png/b.png".
Proof. reflexivity. Qed.
Example format_orbit : Py.format_0d 5 123 = "00123".
Proof. reflexivity. Qed.
Example format_negative : Py.format_0d 5 (-12) = "-0012".
Proof. reflexivity. Qed.
Example format_wide : Py.format_0d 2 100 = "100".
Proof. reflexivity. Qed.
Example format_zero : Py.format_0d 2 0 = "00".
Proof. reflexivity. Qed.
Example split_fields : Py.split "_" "a_b__c" = ["a"; "b"; ""; "c"].
Proof. reflexivity. Qed.
Example basename_file : Py.basename "/d/e/f.h5" = "f.h5".
Proof. reflexivity. Qed.
Example dirname_file : Py.dirname "/d/e/f.h5" = "/d/e".
Proof. reflexivity. Qed.
Example dirname_root : Py.dirname "/f.h5" = "/".
Proof. reflexivity. Qed.
Example splitext_file : Py.splitext_root "f.tar.h5" = "f.tar".
Proof. reflexivity. Qed.
Example splitext_hidden : Py.splitext_root ".bashrc" = ".bashrc".
Proof. reflexivity. Qed.
Example sorted_names :
  Py.sorted ["10.kdtree"; "02.kdtree"; "100.kdtree"; "11.kdtree"]
  = ["02.kdtree"; "10.kdtree"; "100.kdtree"; "11.kdtree"].
Proof. reflexivity. Qed.

Example glob_match_kdtree : glob_match "/w/kd/*.kdtree" true "/w/kd/07.kdtree" = true.
Proof. reflexivity. Qed.
Example glob_match_deeper : glob_match "/w/kd/*.kdtree" true "/w/kd/x/07.kdtree" = false.
Proof. reflexivity. Qed.
Example glob_match_hidden : glob_match "/w/kd/*.kdtree" true "/w/kd/.kdtree" = false.
Proof. reflexivity. Qed.
Example glob_match_dir : glob_match "/w/kd/*.kdtree" true "/w/kd" = false.
Proof. reflexivity. Qed.
Example glob_match_class :
  glob_match "/kd[1]/*.kdtree" true "/kd1/00.kdtree" = true /\
  glob_match "/kd[1]/*.kdtree" true "/kd[1]/00.kdtree" = false.
Proof. split; reflexivity. Qed.
Example glob_match_range :
  glob_match "/kd/[0-9][!a-z].kdtree" true "/kd/07.kdtree" = true /\
  glob_match "/kd/[0-9][!a-z].kdtree" true "/kd/0a.kdtree" = false /\
  glob_match "/kd/[z-a]" true "/kd/m" = false.
Proof. repeat split; reflexivity. Qed.
Example glob_match_open_class :
  glob_match "/kd[1/*.kdtree" true "/kd[1/00.kdtree" = true /\
  glob_match "/kd/[]-]" true "/kd/]" = true.
Proof. split; reflexivity. Qed.
Example directories_to_nested :
  directories_to "/w/runconfig" = ["/w"; "/w/runconfig"] /\
  directories_to "kd" = ["kd"] /\
  directories_to "a//b/" = ["a"; "a//b"; "a//b/"].
Proof. repeat split; reflexivity. Qed.
Example makedirs_nested :
  makedirs "/w/runconfig" (TestDouble.start ∅)
  = (Ok tt, {| fs := <["/w/runconfig" := Directory]> (<["/w" := Directory]> ∅);
               trace := [EMakedirs "/w/runconfig"] |}).
Proof. vm_compute. reflexivity. Qed.
Example makedirs_empty_path :
  (makedirs "" (TestDouble.start ∅)).1 = Raise (IOError "").
Proof. reflexivity. Qed.
Example makedirs_under_a_file :
  makedirs "/f/x/y" (TestDouble.start {[ "/f" := File "data" ]})
  = (Raise (IOError "/f"),
     {| fs := {[ "/f" := File "data" ]}; trace := [EMakedirs "/f/x/y"] |}).
Proof. vm_compute. reflexivity. Qed.
Example glob_small :
  glob (<["/w/kd/01.kdtree" := File "b"]> (<["/w/kd" := Directory]> (<["/w/kd/00.kdtree" := File "a"]> ∅)))
       "/w/kd/*.kdtree" ≡ₚ ["/w/kd/00.kdtree"; "/w/kd/01.kdtree"].
Proof. vm_compute. reflexivity || apply Permutation_swap. Qed.

(** ** Scan-line file names *)

Lemma append_cons c (s1 s2 : string) : String c s1 +:+ s2 = String c (s1 +:+ s2).
Proof. reflexivity. Qed.

Lemma append_assoc (s1 s2 s3 : string) : (s1 +:+ s2) +:+ s3 = s1 +:+ (s2 +:+ s3).
Proof. induction s1 as [|c s1 IH]; [done|]. rewrite !append_cons. by f_equal. Qed.


Lemma length_append (s1 s2 : string) :
  String.length (s1 +:+ s2) = (String.length s1 + String.length s2)%nat.
Proof. induction s1 as [|c s1 IH]; [done|]. rewrite append_cons. simpl. by f_equal. Qed.

Lemma append_inv_head (s s1 s2 : string) : s +:+ s1 = s +:+ s2 -> s1 = s2.
Proof. induction s as [|c s IH]; [done|]. rewrite !append_cons. intros [= H]. by apply IH. Qed.


(** The zero-padded digits of a number are the decimal writing of a number
    with leading zeros. *)
Lemma zeros_string_of_uint k d :
  Py.zeros k +:+ NilEmpty.string_of_uint d = NilEmpty.string_of_uint (Nat.iter k Decimal.D0 d).
Proof. induction k as [|k IH]; [done|]. simpl. rewrite append_cons. by f_equal. Qed.



Lemma format_0d_nat width (i : nat) :
  Py.format_0d width (Z.of_nat i) =
  NilEmpty.string_of_uint
    (Nat.iter (width - String.length (Py.digits (N.of_nat i))) Decimal.D0
              (N.to_uint (N.of_nat i))).
Proof.
  unfold Py.format_0d.
  replace (Z.of_nat i <? 0) with false by (symmetry; apply Z.ltb_ge; lia).
  replace (Z.abs_N (Z.of_nat i)) with (N.of_nat i)
    by (by rewrite <- nat_N_Z, Zabs2N.id).
  simpl. rewrite Nat.sub_0_r. apply zeros_string_of_uint.
Qed.


Lemma to_uint_not_nil n : N.to_uint n <> Decimal.Nil.
Proof.
  intros H. pose proof (DecimalN.Unsigned.of_to n) as Hn. rewrite H in Hn.
  simpl in Hn. subst n. discriminate H.
Qed.

(** The first character of a formatted natural number is a digit. *)
Lemma format_0d_nat_head width (i : nat) :
  exists c s, Py.format_0d width (Z.of_nat i) = String c s /\
              Ascii.eqb c "/" = false /\ Ascii.eqb c "." = false.
Proof.
  rewrite format_0d_nat.
  destruct (width - _)%nat as [|k]; simpl.
  - pose proof (to_uint_not_nil (N.of_nat i)) as Hnil.
    destruct (N.to_uint (N.of_nat i)); [done|..]; simpl; by eexists _, _.
  - by eexists _, _.
Qed.


Lemma scan_kd_tree_name_head i :
  exists c s, scan_kd_tree_name i = String c s /\
              Ascii.eqb c "/" = false /\ Ascii.eqb c "." = false.
Proof.
  unfold scan_kd_tree_name.
  destruct (format_0d_nat_head 2 i) as (c & s & -> & H1 & H2).
  exists c, (s +:+ ".kdtree"). by rewrite append_cons.
Qed.

Lemma startswith_sep_cons c s :
  Ascii.eqb c "/" = false -> Py.startswith (String c s) "/" = false.
Proof.
  intros Hc. unfold Py.startswith. cbn -[ascii_dec].
  destruct (ascii_dec "/" c) as [<-|_]; [done|done].
Qed.

Lemma join_scan_kd_tree_name dir i :
  Py.join dir [scan_kd_tree_name i] = dir +:+ separator_after dir +:+ scan_kd_tree_name i.
Proof.
  unfold Py.join, Py.join2, separator_after. cbn [fold_left].
  destruct (scan_kd_tree_name_head i) as (c & s & -> & Hc & _).
  rewrite startswith_sep_cons by done.
  by destruct (String.eqb dir "" || Py.ends_with_sep dir).
Qed.


Lemma join_scan_kd_tree_name_not_dir dir i : Py.join dir [scan_kd_tree_name i] <> dir.
Proof.
  rewrite join_scan_kd_tree_name. intros H.
  apply (f_equal String.length) in H. rewrite !length_append in H.
  destruct (scan_kd_tree_name_head i) as (c & s & Hname & _).
  rewrite Hname in H. simpl in H. lia.
Qed.

(** ** [glob] on the files of a scan-by-scan cache *)



















Section Facts.

Context {SwathGeometry RasterGrid KDTree DateTime : Type}.
Context `{collaborators : !@Collaborators SwathGeometry RasterGrid KDTree DateTime}.

Local Abbreviation event := (@event SwathGeometry RasterGrid KDTree).
Local Abbreviation world := (@world SwathGeometry RasterGrid KDTree).
Local Abbreviation M := (@M SwathGeometry RasterGrid KDTree).
Local Abbreviation arguments := (@arguments RasterGrid KDTree).
Local Abbreviation locals := (@locals SwathGeometry RasterGrid DateTime).
Local Abbreviation spatial_index := (@spatial_index SwathGeometry KDTree).
Local Abbreviation from_swath_args := (@from_swath_args RasterGrid KDTree).

Local Notation "'let*' x ':=' c1 'in' c2" := (bind c1 (fun x => c2))
  (at level 10, x name, c1 at level 100, c2 at level 200).
Local Notation "c1 >> c2" := (bind c1 (fun _ => c2))
  (at level 100, c2 at level 200, right associativity).

(** ** What a computation appends to the trace, returns and raises *)

Lemma yields_weaken {A} (m : M A) (P P' : list event -> Prop) (V V' : A -> Prop)
    (E E' : exn -> Prop) :
  yields m P V E -> (forall t, P t -> P' t) -> (forall a, V a -> V' a) ->
  (forall e, E e -> E' e) -> yields m P' V' E'.
Proof.
  intros Hm HP HV HE w r w' Hrun.
  destruct (Hm w r w' Hrun) as [(t & Ht & HPt) Hr].
  split; [exists t; auto | destruct r; auto].
Qed.

Lemma yields_and {A} (m : M A) (P Q : list event -> Prop) (V : A -> Prop) (E : exn -> Prop) :
  yields m P V E -> yields m Q any any -> yields m (fun t => P t /\ Q t) V E.
Proof.
  intros HP HQ w r w' Hrun.
  destruct (HP w r w' Hrun) as [(t & Ht & HPt) Hr].
  destruct (HQ w r w' Hrun) as [(t' & Ht' & HQt) _].
  split; [|done]. exists t. split; [done|]. split; [done|].
  rewrite Ht in Ht'. by apply app_inv_head in Ht' as ->.
Qed.

Lemma yields_ret {A} (a : A) (P : list event -> Prop) (V : A -> Prop) E :
  P [] -> V a -> yields (ret a) P V E.
Proof.
  intros HP HV w r w' [= <- <-]. split; [|done].
  exists []. by rewrite app_nil_r.
Qed.

Lemma yields_raise {A} (e : exn) (P : list event -> Prop) (V : A -> Prop) (E : exn -> Prop) :
  P [] -> E e -> yields (raise e) P V E.
Proof.
  intros HP HE w r w' [= <- <-]. split; [|done].
  exists []. by rewrite app_nil_r.
Qed.

Lemma yields_lift {A} (o : outcome A) (P : list event -> Prop) (V : A -> Prop) (E : exn -> Prop) :
  P [] -> match o with Ok a => V a | Raise e => E e end -> yields (lift o) P V E.
Proof.
  intros HP HE w r w' [= <- <-]. split; [|done].
  exists []. by rewrite app_nil_r.
Qed.

Lemma yields_emit (ev : event) (P : list event -> Prop) (V : unit -> Prop) E :
  P [ev] -> V tt -> yields (emit ev) P V E.
Proof.
  intros HP HV w r w' [= <- <-]. split; [|done].
  by exists [ev].
Qed.

Lemma yields_get_fs (P : list event -> Prop) (V : gmap string node -> Prop) E :
  P [] -> (forall f, V f) -> yields get_fs P V E.
Proof.
  intros HP HV w r w' [= <- <-]. split; [|done].
  exists []. by rewrite app_nil_r.
Qed.

Lemma yields_put_fs f (P : list event -> Prop) (V : unit -> Prop) E :
  P [] -> V tt -> yields (put_fs f) P V E.
Proof.
  intros HP HV w r w' [= <- <-]. split; [|done].
  exists []. by rewrite app_nil_r.
Qed.

Lemma yields_call {A} (c : failure + A) (P : list event -> Prop) (V : A -> Prop)
    (E : exn -> Prop) :
  P [] -> match c with inl f => E (Foreign f) | inr a => V a end -> yields (call c) P V E.
Proof.
  intros HP HE. destruct c as [f|a]; simpl.
  - by apply yields_raise.
  - by apply yields_ret.
Qed.

Lemma yields_of_option {A} (o : option A) (e : exn) (P : list event -> Prop) (V : A -> Prop)
    (E : exn -> Prop) :
  P [] -> match o with Some a => V a | None => E e end -> yields (of_option o e) P V E.
Proof.
  intros HP HE. destruct o; simpl.
  - by apply yields_ret.
  - by apply yields_raise.
Qed.

Lemma yields_bind {A B} (m : M A) (k : A -> M B) (P Q R : list event -> Prop)
    (U : A -> Prop) (V : B -> Prop) E :
  yields m P U E -> (forall a, U a -> yields (k a) Q V E) ->
  (forall t, P t -> R t) -> (forall t1 t2, P t1 -> Q t2 -> R (t1 ++ t2)) ->
  yields (bind m k) R V E.
Proof.
  intros Hm Hk HR1 HR2 w r w' Hrun. unfold bind in Hrun.
  destruct (m w) as [[a|e] w1] eqn:Hmw.
  - destruct (Hm _ _ _ Hmw) as [(t1 & Ht1 & HP) HU].
    destruct (Hk a HU _ _ _ Hrun) as [(t2 & Ht2 & HQ) Hr].
    split; [|done]. exists (t1 ++ t2). split; [|auto].
    by rewrite Ht2, Ht1, app_assoc.
  - injection Hrun as <- <-.
    destruct (Hm _ _ _ Hmw) as [(t1 & Ht1 & HP) Hr].
    split; [exists t1; auto | done].
Qed.

Lemma yields_try_except {A} (m : M A) (h : exn -> M A) (P Q R : list event -> Prop)
    (V : A -> Prop) E1 E :
  yields m P V E1 -> (forall e, E1 e -> yields (h e) Q V E) ->
  (forall t, P t -> R t) -> (forall t1 t2, P t1 -> Q t2 -> R (t1 ++ t2)) ->
  yields (try_except m h) R V E.
Proof.
  intros Hm Hh HR1 HR2 w r w' Hrun. unfold try_except in Hrun.
  destruct (m w) as [[a|e] w1] eqn:Hmw.
  - injection Hrun as <- <-.
    destruct (Hm _ _ _ Hmw) as [(t1 & Ht1 & HP) HV].
    split; [exists t1; auto | done].
  - destruct (Hm _ _ _ Hmw) as [(t1 & Ht1 & HP) Hr].
    destruct (Hh e Hr _ _ _ Hrun) as [(t2 & Ht2 & HQ) Hr'].
    split; [|done]. exists (t1 ++ t2). split; [|auto].
    by rewrite Ht2, Ht1, app_assoc.
Qed.

(** The same rules when the property holds of each event. *)
Lemma yields_bind_Forall {A B} (m : M A) (k : A -> M B) (φ : event -> Prop)
    (U : A -> Prop) (V : B -> Prop) E :
  yields m (Forall φ) U E -> (forall a, U a -> yields (k a) (Forall φ) V E) ->
  yields (bind m k) (Forall φ) V E.
Proof.
  intros Hm Hk. eapply yields_bind; eauto.
  intros t1 t2 H1 H2. apply Forall_app; auto.
Qed.

Lemma yields_try_except_Forall {A} (m : M A) (h : exn -> M A) (φ : event -> Prop)
    (V : A -> Prop) E1 E :
  yields m (Forall φ) V E1 -> (forall e, E1 e -> yields (h e) (Forall φ) V E) ->
  yields (try_except m h) (Forall φ) V E.
Proof.
  intros Hm Hh. eapply yields_try_except; eauto.
  intros t1 t2 H1 H2. apply Forall_app; auto.
Qed.

Lemma yields_mapM {A B} (f : A -> M B) (l : list A) (φ : event -> Prop) E :
  (forall x, yields (f x) (Forall φ) any E) -> yields (mapM f l) (Forall φ) any E.
Proof.
  intros Hf. induction l as [|x l IH]; simpl.
  - by apply yields_ret.
  - eapply yields_bind_Forall; [done|]. intros y _.
    eapply yields_bind_Forall; [done|]. intros ys _. by apply yields_ret.
Qed.

(** One step of a proof that every event of a computation satisfies a
    property; what is left is about single events, values and
    exceptions. *)
Ltac yields_step :=
  lazymatch goal with
  | |- yields (bind _ _) (Forall _) _ _ =>
      eapply (yields_bind_Forall _ _ _ any); [|intros ? _]
  | |- yields (ret _) _ _ _ => apply yields_ret; [by constructor|]
  | |- yields (raise _) _ _ _ => apply yields_raise; [by constructor|]
  | |- yields (emit _) _ _ _ => apply yields_emit; [apply Forall_singleton|]
  | |- yields get_fs _ _ _ => apply yields_get_fs; [by constructor|intros ?]
  | |- yields (put_fs _) _ _ _ => apply yields_put_fs; [by constructor|]
  | |- yields (lift _) _ _ _ => apply yields_lift; [by constructor|]
  | |- yields (call _) _ _ _ => apply yields_call; [by constructor|]
  | |- yields (of_option _ _) _ _ _ => apply yields_of_option; [by constructor|]
  | |- yields (mapM _ _) _ _ _ => apply yields_mapM; intros ?
  | |- yields (match ?x with _ => _ end) _ _ _ => destruct x eqn:?
  | |- yields (let _ := _ in _) _ _ _ => cbv zeta
  end.

Ltac yields_go := repeat first [yields_step | progress cbv beta zeta].

(** ** The calls of the file-system layer *)

Section Calls.
Variable φ : event -> Prop.
Variable E : exn -> Prop.

Lemma exists__yields path : φ (EExists path) -> yields (exists_ path) (Forall φ) any E.
Proof. intros. unfold exists_. yields_go; done. Qed.

Lemma ensure_directories_yields paths :
  (forall p, E (IOError p)) -> yields (ensure_directories paths) (Forall φ) any E.
Proof.
  intros HE. induction paths as [|p paths IH]; simpl.
  - by apply yields_ret.
  - eapply (yields_bind_Forall _ _ _ any); [|by intros ? _].
    unfold ensure_directory. yields_go; done.
Qed.

Lemma makedirs_yields path :
  φ (EMakedirs path) -> (forall p, E (IOError p)) -> yields (makedirs path) (Forall φ) any E.
Proof.
  intros ? HE. unfold makedirs.
  eapply (yields_bind_Forall _ _ _ any); [by apply yields_emit; [apply Forall_singleton|]|].
  intros ? _. destruct (String.eqb path "").
  - apply yields_raise; [by constructor|done].
  - by apply ensure_directories_yields.
Qed.

Lemma read_file_yields path :
  φ (EReadFile path) -> E (IOError path) -> yields (read_file path) (Forall φ) any E.
Proof. intros. unfold read_file. yields_go; done. Qed.

Lemma write_file_yields path data :
  φ (EWriteFile path) -> yields (write_file path data) (Forall φ) any E.
Proof. intros. unfold write_file. yields_go; done. Qed.

Lemma KDTree_load_yields path :
  φ (EKDTreeLoad path) -> E (IOError path) -> (forall f, E (Foreign f)) ->
  yields (KDTree_load path) (Forall φ) any E.
Proof.
  intros ? ? HF. unfold KDTree_load. yields_go; try done.
  destruct (KDTree_loads _); [apply HF | done].
Qed.

Lemma KDTree_save_yields t path :
  φ (EKDTreeSave t path) -> yields (KDTree_save t path) (Forall φ) any E.
Proof. intros. unfold KDTree_save. yields_go; done. Qed.

Lemma L2LSTE_properties_yields g :
  φ (EReadL2LSTE g) -> (forall f, E (Foreign f)) ->
  yields (L2LSTE_properties g) (Forall φ) any E.
Proof.
  intros ? HF. unfold L2LSTE_properties. yields_go; try done.
  destruct (read_L2LSTE _ _); [apply HF | done].
Qed.
End Calls.

(** ** [makedirs] *)





Lemma with_directories_lookup paths (f : gmap string node) p :
  with_directories paths f !! p =
  match f !! p with
  | Some x => Some x
  | None => if bool_decide (p ∈ paths) then Some Directory else None
  end.
Proof.
  unfold with_directories. revert f. induction paths as [|q paths IH]; intros f; simpl.
  - by destruct (f !! p).
  - rewrite IH. destruct (decide (p = q)) as [->|Hne].
    + rewrite (bool_decide_eq_true_2 (q ∈ q :: paths)) by apply list_elem_of_here.
      destruct (f !! q) as [x|] eqn:Hq; [by rewrite Hq|].
      by rewrite lookup_insert_eq.
    + assert (Hq : (match f !! q with
                    | None => <[q := Directory]> f
                    | Some _ => f
                    end) !! p = f !! p).
      { destruct (f !! q); [done|]. by rewrite lookup_insert_ne. }
      rewrite Hq. destruct (f !! p); [done|].
      apply (f_equal (fun b : bool => if b then Some Directory else None)).
      apply bool_decide_ext. rewrite elem_of_cons. naive_solver.
Qed.

Lemma with_directories_grows paths (f : gmap string node) : f ⊆ with_directories paths f.
Proof.
  apply map_subseteq_spec. intros p x Hp. by rewrite with_directories_lookup, Hp.
Qed.

(** What the directories of [makedirs] do to the file system, whatever the
    outcome: nothing is emitted, what was there stays, and what is new is a
    directory among those asked for. *)
Lemma ensure_directories_effect paths (w : world) r w' :
  ensure_directories paths w = (r, w') ->
  trace w' = trace w /\
  fs w ⊆ fs w' /\
  forall p, fs w' !! p <> fs w !! p ->
            p ∈ paths /\ fs w !! p = None /\ fs w' !! p = Some Directory.
Proof.
  revert w. induction paths as [|q paths IH]; intros w Hrun; simpl in Hrun.
  - injection Hrun as <- <-. split; [done|]. split; [done|]. by intros p [].
  - unfold bind at 1 in Hrun. unfold ensure_directory, bind, get_fs in Hrun.
    destruct (fs w !! q) as [[|data]|] eqn:Hq; simpl in Hrun.
    + destruct (IH _ Hrun) as (Ht & Hsub & Hnew). split; [done|]. split; [done|].
      intros p Hp. destruct (Hnew p Hp) as (? & ? & ?).
      split; [by apply list_elem_of_further|done].
    + injection Hrun as <- <-. split; [done|]. split; [done|]. by intros p [].
    + destruct (IH _ Hrun) as (Ht & Hsub & Hnew). simpl in *.
      split; [done|]. split.
      { etrans; [|exact Hsub]. by apply insert_subseteq. }
      intros p Hp. destruct (decide (p = q)) as [->|Hne].
      * split; [apply list_elem_of_here|]. split; [done|].
        eapply lookup_weaken; [|exact Hsub]. apply lookup_insert_eq.
      * rewrite <- (lookup_insert_ne (fs w) q p Directory) in Hp by done.
        destruct (Hnew p Hp) as (? & Hnone & ?).
        rewrite lookup_insert_ne in Hnone by done.
        split; [by apply list_elem_of_further|done].
Qed.






(** [makedirs] whatever its outcome. *)
Lemma makedirs_effect path (w : world) r w' :
  makedirs path w = (r, w') ->
  trace w' = trace w ++ [EMakedirs path] /\
  fs w ⊆ fs w' /\
  forall p, fs w' !! p <> fs w !! p ->
            p ∈ directories_to path /\ fs w !! p = None /\ fs w' !! p = Some Directory.
Proof.
  unfold makedirs, bind, emit. destruct (String.eqb path "").
  - intros [= <- <-]. split; [done|]. split; [done|]. by intros p [].
  - intros Hrun. apply ensure_directories_effect in Hrun. exact Hrun.
Qed.


(** ** The events and the exceptions of each part of the run *)

Lemma config_exn_body (a : arguments) e : config_exn e -> body_exn a e.
Proof. by destruct e. Qed.

Lemma L2GL2TRADLSTEConfig_parse_yields filename :
  yields (let* f := get_fs in
          let* runconfig := call (read_runconfig f filename) in
          try_except (L2GL2TRADLSTEConfig_try filename runconfig)
                     (L2GL2TRADLSTEConfig_except filename))
         (Forall config_event) any config_exn.
Proof.
  yields_go; try done.
  { by destruct (read_runconfig _ _). }
  apply (yields_try_except_Forall _ _ _ _ any).
  - unfold L2GL2TRADLSTEConfig_try. yields_go; try done.
    + by destruct (read_fields _ _).
    + by apply L2LSTE_properties_yields.
  - intros e _. unfold L2GL2TRADLSTEConfig_except.
    destruct e as [| | | | | | | |[]]; simpl; yields_go; done.
Qed.

Lemma L2GL2TRADLSTEConfig_yields filename :
  yields (L2GL2TRADLSTEConfig filename) (Forall config_event) any config_exn.
Proof.
  unfold L2GL2TRADLSTEConfig.
  eapply (yields_bind_Forall _ _ _ any); [by apply yields_emit; [apply Forall_singleton|]|].
  intros _ _. apply L2GL2TRADLSTEConfig_parse_yields.
Qed.

Lemma initial_gridded_geometry_exn a sg e :
  initial_gridded_geometry a sg = Raise e -> body_exn a e.
Proof.
  unfold initial_gridded_geometry.
  destruct (gridded_geometry a) eqn:Hg; [done|].
  destruct (String.eqb_spec (projection_system a) "local_UTM"); [done|].
  destruct (String.eqb_spec (projection_system a) "global_geographic"); [done|].
  intros [= <-]. left. split; [done|]. split; [done|].
  unfold projection_systems. intros Hin.
  repeat (apply elem_of_cons in Hin as [Hin|Hin]; [congruence|]).
  by apply elem_of_nil in Hin.
Qed.

Lemma prologue_yields a :
  yields (prologue a) (Forall prologue_event) any (body_exn a).
Proof.
  unfold prologue. yields_go; try done.
  - eapply yields_weaken; [apply L2GL2TRADLSTEConfig_yields|..]; try done.
    + intros t Ht. eapply Forall_impl; [exact Ht|]. by intros [].
    + apply config_exn_body.
  - by apply L2LSTE_properties_yields.
  - destruct (initial_gridded_geometry _ _) eqn:Hg; [done|].
    by eapply initial_gridded_geometry_exn.
  - by apply exists__yields.
Qed.

(** *** Spatial-index resolution *)

Lemma builds_app (t1 t2 : list event) : builds (t1 ++ t2) = (builds t1 + builds t2)%nat.
Proof. unfold builds. by rewrite filter_app, length_app. Qed.


Lemma save_scan_kd_trees_yields (φ : event -> Prop) E dir trees :
  (forall t path, φ (EKDTreeSave t path)) ->
  forall i ix, yields (save_scan_kd_trees dir i trees ix) (Forall φ) any E.
Proof.
  intros Hφ. induction trees as [|t trees IH]; intros i ix; simpl.
  - by apply yields_ret.
  - yields_go. { by apply KDTree_save_yields. } apply IH.
Qed.

Lemma whole_swath_index_yields a l sg :
  yields (whole_swath_index a l sg) (Forall index_event) any (body_exn a).
Proof.
  unfold whole_swath_index. yields_go; try done.
  - by apply exists__yields.
  - by apply KDTree_load_yields.
  - by apply KDTree_save_yields.
Qed.

Lemma scan_by_scan_index_yields a l :
  yields (scan_by_scan_index a l) (Forall index_event) any (body_exn a).
Proof.
  unfold scan_by_scan_index. yields_go; try done.
  - by apply exists__yields.
  - by apply KDTree_load_yields.
  - by apply makedirs_yields.
  - by apply save_scan_kd_trees_yields.
Qed.

Lemma not_overlap_strategy s :
  s <> "checkerboard" -> s <> "scan_by_scan" -> s <> "remove_105_128" ->
  s ∉ overlap_strategies.
Proof.
  intros H1 H2 H3 Hin. unfold overlap_strategies in Hin.
  repeat (apply elem_of_cons in Hin as [Hin|Hin]; [congruence|]).
  by apply elem_of_nil in Hin.
Qed.

Lemma resolve_spatial_index_yields a l :
  yields (resolve_spatial_index a l) (Forall index_event) any (body_exn a).
Proof.
  unfold resolve_spatial_index.
  destruct (String.eqb_spec (overlap_strategy a) "checkerboard");
    [apply whole_swath_index_yields|].
  destruct (String.eqb_spec (overlap_strategy a) "scan_by_scan");
    [apply scan_by_scan_index_yields|].
  destruct (String.eqb_spec (overlap_strategy a) "remove_105_128").
  - yields_go; [done..|]. apply whole_swath_index_yields.
  - apply yields_raise; [by constructor|].
    right. split; [done|]. by apply not_overlap_strategy.
Qed.






(** *** Product stages *)

Lemma both_exist_yields (φ : event -> Prop) E p1 p2 :
  (forall p, φ (EExists p)) -> yields (both_exist p1 p2) (Forall φ) any E.
Proof.
  intros. unfold both_exist. yields_go; try done; by apply exists__yields.
Qed.

Lemma from_swath_call_yields (φ : event -> Prop) E k args :
  φ (EFromSwath k args) -> (forall f, E (Foreign f)) ->
  yields (from_swath_call k args) (Forall φ) any E.
Proof.
  intros Hφ HE. unfold from_swath_call.
  eapply (yields_bind_Forall _ _ _ any); [by apply yields_emit; [apply Forall_singleton|]|].
  intros _ _. eapply (yields_bind_Forall _ _ _ any); [by apply yields_get_fs|].
  intros f _. destruct (from_swath k f args) as [[e partial]|data].
  - eapply (yields_bind_Forall _ _ _ any); [by apply yields_put_fs|].
    intros _ _. by apply yields_raise.
  - eapply (yields_bind_Forall _ _ _ any); [by apply yields_put_fs|].
    intros _ _. by apply yields_ret.
Qed.

Lemma write_browse_image_yields (φ : event -> Prop) E k data browse :
  φ (EWriteBrowseImage k browse) -> (forall f, E (Foreign f)) ->
  yields (write_browse_image k data browse) (Forall φ) any E.
Proof.
  intros Hφ HE. unfold write_browse_image.
  eapply (yields_bind_Forall _ _ _ any); [by apply yields_emit; [apply Forall_singleton|]|].
  intros _ _. eapply (yields_bind_Forall _ _ _ any); [by apply yields_get_fs|].
  intros f _. destruct (browse_image k data) as [[e partial]|image].
  - eapply (yields_bind_Forall _ _ _ any); [by apply yields_put_fs|].
    intros _ _. by apply yields_raise.
  - by apply yields_put_fs.
Qed.

Lemma product_stage_yields k a l ix grid :
  yields (product_stage k a l ix grid)
         (Forall (stage_event k (product_args k a l ix grid)))
         (fun g => g = opened k l) (body_exn a).
Proof.
  unfold product_stage. cbv zeta.
  eapply (yields_bind_Forall _ _ _ any); [by apply both_exist_yields|].
  intros [] _.
  - eapply (yields_bind_Forall _ _ _ any); [by apply yields_emit; [apply Forall_singleton|]|].
    intros _ _. by apply yields_ret.
  - eapply (yields_bind_Forall _ _ _ any); [by apply from_swath_call_yields|].
    intros data _.
    eapply (yields_bind_Forall _ _ _ any); [by apply write_browse_image_yields|].
    intros _ _. by apply yields_ret.
Qed.

Lemma tile_stage_yields g a l args :
  yields (tile_stage g a l) (Forall (stage_event (gg_product g) args)) any (body_exn a).
Proof.
  unfold tile_stage. yields_go; try done.
  by destruct (to_tiles _ _ _ _ _ _).
Qed.

Lemma stage_event_stages k a l ix t :
  Forall (stage_event k (product_args k a l ix (product_grid a ix))) t ->
  Forall (stages_event a l ix) t.
Proof. intros Ht. eapply Forall_impl; [exact Ht|]. intros e He. by exists k. Qed.

Lemma product_stages_yields a l ix :
  yields (product_stages a l ix) (Forall (stages_event a l ix)) any (body_exn a).
Proof.
  unfold product_stages. cbv zeta. fold (product_grid a ix).
  eapply yields_bind_Forall.
  { eapply yields_weaken; [apply product_stage_yields|apply stage_event_stages|..]; done. }
  intros g1 ->. eapply (yields_bind_Forall _ _ _ any).
  { eapply yields_weaken; [apply tile_stage_yields|apply stage_event_stages|..]; done. }
  intros _ _. eapply (yields_bind_Forall _ _ _ any).
  { apply exists__yields. by exists L1CG_RAD. }
  intros _ _. eapply yields_bind_Forall.
  { eapply yields_weaken; [apply product_stage_yields|apply stage_event_stages|..]; done. }
  intros g2 ->. eapply (yields_bind_Forall _ _ _ any).
  { eapply yields_weaken; [apply tile_stage_yields|apply stage_event_stages|..]; done. }
  intros _ _. eapply (yields_bind_Forall _ _ _ any).
  { eapply yields_weaken; [apply product_stage_yields|apply stage_event_stages|..]; done. }
  intros _ _. by apply yields_ret.
Qed.

(** *** The order of the parts *)









(** *** The whole run *)

Lemma L1_L2_RAD_LSTE_except_yields e :
  yields (L1_L2_RAD_LSTE_except e) (Forall boundary_event) any any.
Proof. unfold L1_L2_RAD_LSTE_except. yields_go; done. Qed.

















(** ** The boundary of the orchestrator *)

Lemma exit_code_family e :
  is_ECOSTRESSExitCodeException e = true <-> is_Some (exit_code e).
Proof.
  destruct e as [| | | | | | | |[]]; simpl; split; try done; by inversion 1.
Qed.

Lemma L1_L2_RAD_LSTE_try_yields a :
  yields (L1_L2_RAD_LSTE_try a) any (fun code => code = SUCCESS_EXIT_CODE) (body_exn a).
Proof.
  unfold L1_L2_RAD_LSTE_try.
  eapply (yields_bind _ _ any any any any); try done.
  { eapply yields_weaken; [apply prologue_yields|done..]. }
  intros l _. eapply (yields_bind _ _ any any any any); try done.
  { eapply yields_weaken; [apply resolve_spatial_index_yields|done..]. }
  intros ix _. eapply (yields_bind _ _ any any any any); try done.
  { eapply yields_weaken; [apply product_stages_yields|done..]. }
  intros _ _. by apply yields_ret.
Qed.

(** C9, as the code has it: an exception of the [ECOSTRESSExitCodeException]
    family that leaves the [try] block is caught at the boundary of the
    orchestrator, logged there, and its exit code is returned; every other
    exception leaves the orchestrator as it was raised, and the boundary
    neither catches nor logs it: the world is the one the [try] block left.
    A run whose [try] block ends normally returns the success code. *)
Theorem C9_exit_code_exceptions_at_the_boundary (a : arguments) (w : world) :
  match L1_L2_RAD_LSTE_try a w with
  | (Ok code, w1) =>
      code = SUCCESS_EXIT_CODE /\ L1_L2_RAD_LSTE a w = (Ok code, w1)
  | (Raise e, w1) =>
      if is_ECOSTRESSExitCodeException e
      then exists code,
          exit_code e = Some code /\
          L1_L2_RAD_LSTE a w =
            (Ok code, {| fs := fs w1; trace := trace w1 ++ [ELogException e] |})
      else L1_L2_RAD_LSTE a w = (Raise e, w1)
  end.
Proof.
  unfold L1_L2_RAD_LSTE, try_except.
  destruct (L1_L2_RAD_LSTE_try a w) as [[code|e] w1] eqn:Htry.
  - split; [|done]. by destruct (L1_L2_RAD_LSTE_try_yields a _ _ _ Htry) as [_ ?].
  - unfold L1_L2_RAD_LSTE_except.
    destruct (is_ECOSTRESSExitCodeException e) eqn:He.
    + apply exit_code_family in He as [code Hcode]. exists code. by rewrite Hcode.
    + destruct (exit_code e) as [code|] eqn:Hcode; [|done].
      assert (is_ECOSTRESSExitCodeException e = true) by (by apply exit_code_family).
      congruence.
Qed.

(** ** The land filter *)


(** ** Computations that only read the file system *)

Lemma keeps_fs_ret {A} (a : A) : keeps_fs (ret a : M A).
Proof. by intros w r w' [= <- <-]. Qed.

Lemma keeps_fs_raise {A} e : keeps_fs (raise e : M A).
Proof. by intros w r w' [= <- <-]. Qed.

Lemma keeps_fs_lift {A} (o : outcome A) : keeps_fs (lift o : M A).
Proof. by intros w r w' [= <- <-]. Qed.

Lemma keeps_fs_emit (ev : event) : keeps_fs (emit ev).
Proof. by intros w r w' [= <- <-]. Qed.

Lemma keeps_fs_get_fs : keeps_fs (get_fs : M _).
Proof. by intros w r w' [= <- <-]. Qed.

Lemma keeps_fs_call {A} (c : failure + A) : keeps_fs (call c : M A).
Proof. destruct c; [apply keeps_fs_raise|apply keeps_fs_ret]. Qed.

Lemma keeps_fs_bind {A B} (m : M A) (k : A -> M B) :
  keeps_fs m -> (forall a, keeps_fs (k a)) -> keeps_fs (bind m k).
Proof.
  intros Hm Hk w r w' Hrun. unfold bind in Hrun.
  destruct (m w) as [[a|e] w1] eqn:Hmw.
  - rewrite (Hk a _ _ _ Hrun). by eapply Hm.
  - injection Hrun as <- <-. by eapply Hm.
Qed.

Lemma keeps_fs_try_except {A} (m : M A) (h : exn -> M A) :
  keeps_fs m -> (forall e, keeps_fs (h e)) -> keeps_fs (try_except m h).
Proof.
  intros Hm Hh w r w' Hrun. unfold try_except in Hrun.
  destruct (m w) as [[a|e] w1] eqn:Hmw.
  - injection Hrun as <- <-. by eapply Hm.
  - rewrite (Hh e _ _ _ Hrun). by eapply Hm.
Qed.

Ltac keeps_fs_step :=
  lazymatch goal with
  | |- keeps_fs (bind _ _) => apply keeps_fs_bind; [|intros ?]
  | |- keeps_fs (try_except _ _) => apply keeps_fs_try_except; [|intros ?]
  | |- keeps_fs (ret _) => apply keeps_fs_ret
  | |- keeps_fs (raise _) => apply keeps_fs_raise
  | |- keeps_fs (lift _) => apply keeps_fs_lift
  | |- keeps_fs (emit _) => apply keeps_fs_emit
  | |- keeps_fs get_fs => apply keeps_fs_get_fs
  | |- keeps_fs (call _) => apply keeps_fs_call
  | |- keeps_fs (match ?x with _ => _ end) => destruct x
  | |- keeps_fs (let _ := _ in _) => cbv zeta
  end.

Ltac keeps_fs_go := repeat first [keeps_fs_step | progress cbv beta zeta].

Lemma exists__keeps_fs path : keeps_fs (exists_ path : M bool).
Proof. unfold exists_. keeps_fs_go. Qed.

Lemma L2LSTE_properties_keeps_fs g : keeps_fs (L2LSTE_properties g).
Proof. unfold L2LSTE_properties. keeps_fs_go. Qed.

Lemma L2GL2TRADLSTEConfig_keeps_fs filename : keeps_fs (L2GL2TRADLSTEConfig filename).
Proof.
  unfold L2GL2TRADLSTEConfig, L2GL2TRADLSTEConfig_try, L2GL2TRADLSTEConfig_except.
  keeps_fs_go; apply L2LSTE_properties_keeps_fs.
Qed.

Lemma prologue_keeps_fs a : keeps_fs (prologue a).
Proof.
  unfold prologue. keeps_fs_go;
    first [apply L2GL2TRADLSTEConfig_keeps_fs | apply L2LSTE_properties_keeps_fs
          | apply exists__keeps_fs].
Qed.

(** The first call of a run reads the run-config. *)
Lemma L2GL2TRADLSTEConfig_first filename :
  yields (L2GL2TRADLSTEConfig filename) (starts_with (EReadRunConfig filename)) any any.
Proof.
  unfold L2GL2TRADLSTEConfig.
  eapply (yields_bind _ _ (eq [EReadRunConfig filename]) any _ any any).
  - by apply yields_emit.
  - intros _ _. eapply yields_weaken; [apply L2GL2TRADLSTEConfig_parse_yields|done..].
  - intros t Ht. rewrite <- Ht. by exists [].
  - intros t1 t2 Ht _. rewrite <- Ht. by exists t2.
Qed.

Lemma prologue_first a :
  yields (prologue a)
         (fun t => starts_with (EReadRunConfig (runconfig_filename a)) t /\
                   Forall prologue_event t)
         any (body_exn a).
Proof.
  apply yields_and; [|eapply yields_weaken; [apply prologue_yields|done..]].
  pose proof (prologue_yields a) as Hall.
  intros w r w' Hrun. destruct (Hall _ _ _ Hrun) as [(t & Ht & _) Hr]. split; [|done].
  exists t. split; [done|].
  unfold prologue in Hrun. unfold bind at 1 in Hrun.
  destruct (L2GL2TRADLSTEConfig (runconfig_filename a) w) as [[c|e] w0] eqn:Hc;
    destruct (L2GL2TRADLSTEConfig_first _ _ _ _ Hc) as [(t0 & Ht0 & [t0' ->]) _].
  - match type of Hrun with ?k w0 = _ => assert (Hk : yields k (Forall prologue_event) any (body_exn a)) end.
    { clear. yields_go; try done.
      - by apply L2LSTE_properties_yields.
      - destruct (initial_gridded_geometry _ _) eqn:Hg; [done|].
        by eapply initial_gridded_geometry_exn.
      - by apply exists__yields. }
    destruct (Hk _ _ _ Hrun) as [(t1 & Ht1 & _) _].
    rewrite Ht1, Ht0, <- app_assoc in Ht. apply app_inv_head in Ht as <-.
    by eexists.
  - injection Hrun as <- <-. rewrite Ht0 in Ht. apply app_inv_head in Ht as <-.
    by eexists.
Qed.

(** ** The two configuration errors *)

Lemma L1_L2_RAD_LSTE_raises a w e w' :
  L1_L2_RAD_LSTE a w = (Raise e, w') ->
  L1_L2_RAD_LSTE_try a w = (Raise e, w') /\ body_exn a e /\ exit_code e = None.
Proof.
  unfold L1_L2_RAD_LSTE, try_except.
  destruct (L1_L2_RAD_LSTE_try a w) as [[code|e0] w1] eqn:Htry; [done|].
  destruct (L1_L2_RAD_LSTE_try_yields a _ _ _ Htry) as [_ He0].
  unfold L1_L2_RAD_LSTE_except. destruct (exit_code e0) eqn:Hcode; [done|].
  by intros [= <- <-].
Qed.

Lemma messages_differ (a : arguments) :
  unrecognized_projection_system a <> unrecognized_overlap_strategy a.
Proof.
  unfold unrecognized_projection_system, unrecognized_overlap_strategy. simpl.
  intros H. injection H as H. discriminate H.
Qed.

Lemma resolve_spatial_index_unrecognized a l w :
  overlap_strategy a ∉ overlap_strategies ->
  resolve_spatial_index a l w = (Raise (unrecognized_overlap_strategy a), w).
Proof.
  intros Hnot. unfold overlap_strategies in Hnot.
  rewrite !not_elem_of_cons in Hnot. destruct Hnot as (H1 & H2 & H3 & _).
  unfold resolve_spatial_index.
  apply String.eqb_neq in H1, H2, H3. by rewrite H1, H2, H3.
Qed.

(** C1, as the code has it: the overlap strategies the dispatch accepts are
    [checkerboard], [scan_by_scan] and [remove_105_128].  A run with one of
    them never ends with the error of an unrecognized strategy.  A run with
    any other value, once the run-config and the granule have been read and
    the grid of the projection system is there, ends with that [ValueError],
    uncaught: the file system is untouched and no call on the spatial index
    or on a product has been made, but the run-config file has been read
    first and the rest of the prologue has run. *)
Theorem C1_overlap_strategy_dispatch (a : arguments) (w : world) l w1 :
  prologue a w = (Ok l, w1) ->
  (overlap_strategy a ∈ overlap_strategies ->
   forall r w', L1_L2_RAD_LSTE a w = (r, w') ->
                r <> Raise (unrecognized_overlap_strategy a)) /\
  (overlap_strategy a ∉ overlap_strategies ->
   L1_L2_RAD_LSTE a w = (Raise (unrecognized_overlap_strategy a), w1) /\
   fs w1 = fs w /\
   exists t, trace w1 = trace w ++ EReadRunConfig (runconfig_filename a) :: t /\
             Forall prologue_event t).
Proof.
  intros Hp. split.
  - intros Hin r w' Hrun ->.
    apply L1_L2_RAD_LSTE_raises in Hrun as (_ & [(He & _)|(_ & Hnot)] & _); [|done].
    symmetry in He. by apply messages_differ in He.
  - intros Hnot. split; [|split].
    + unfold L1_L2_RAD_LSTE, try_except, L1_L2_RAD_LSTE_try. unfold bind at 1.
      rewrite Hp. unfold bind at 1.
      by rewrite resolve_spatial_index_unrecognized.
    + by eapply prologue_keeps_fs.
    + destruct (prologue_first a _ _ _ Hp) as [(t & Ht & [t' ->] & Hall) _].
      exists t'. split; [done|]. by apply Forall_cons in Hall as [_ ?].
Qed.







(** ** The whole-swath index and its cache file *)

Lemma prologue_kd_tree_path a w l w1 :
  prologue a w = (Ok l, w1) ->
  kd_tree_path0 l = match kd_tree_path a with
                    | None => default_kd_tree_path (runconfig l)
                    | Some p => p
                    end.
Proof.
  unfold prologue. unfold bind at 1.
  destruct (L2GL2TRADLSTEConfig _ w) as [[c|e] w0]; [|done].
  do 4 (unfold bind at 1; unfold emit at 1).
  unfold bind at 1. destruct (L2LSTE_properties _ _) as [[info|e] w2]; [|done].
  unfold bind at 1, lift at 1.
  destruct (initial_gridded_geometry a (geometry info)) as [grid|e] eqn:Hgrid; [|done].
  unfold bind at 1. destruct (exists_ _ _) as [[found|e] w3]; [|done].
  unfold bind at 1.
  destruct found; simpl; by intros [= <- <-].
Qed.

Lemma whole_swath_index_absent a l sg w :
  fs w !! kd_tree_path0 l = None ->
  let tree := KDTree_new sg (gridded_geometry0 l) (search_radius_meters a) in
  whole_swath_index a l sg w =
    (Ok {| ix_kd_tree := Some tree;
           ix_scan_kd_trees := scan_kd_trees a;
           ix_kd_tree_path := kd_tree_path0 l;
           ix_swath_geometry := sg |},
     {| fs := <[kd_tree_path0 l := File (KDTree_dumps tree)]> (fs w);
        trace := trace w ++
          [EExists (kd_tree_path0 l);
           EKDTreeBuild sg (gridded_geometry0 l) (search_radius_meters a);
           EKDTreeSave tree (kd_tree_path0 l)] |}).
Proof.
  intros Hnone. unfold whole_swath_index, exists_, KDTree_save, bind, emit, get_fs, put_fs, ret.
  simpl. rewrite Hnone. simpl. by rewrite <- !app_assoc.
Qed.

Lemma whole_swath_index_present a l sg w data :
  fs w !! kd_tree_path0 l = Some (File data) ->
  whole_swath_index a l sg w =
    (match KDTree_loads data with
     | inr tree => Ok {| ix_kd_tree := Some tree;
                         ix_scan_kd_trees := scan_kd_trees a;
                         ix_kd_tree_path := kd_tree_path0 l;
                         ix_swath_geometry := sg |}
     | inl f => Raise (Foreign f)
     end,
     {| fs := fs w;
        trace := trace w ++ [EExists (kd_tree_path0 l); EKDTreeLoad (kd_tree_path0 l)] |}).
Proof.
  intros Hsome. unfold whole_swath_index, exists_, KDTree_load, bind, emit, get_fs, call, ret.
  simpl. rewrite Hsome. simpl. rewrite Hsome.
  destruct (KDTree_loads data); unfold raise, ret; simpl; by rewrite <- !app_assoc.
Qed.

(** What the dispatch does before the whole-swath index: the clipping of the
    tails under [remove_105_128]. *)
Lemma resolve_spatial_index_whole_swath a l w :
  overlap_strategy a = "checkerboard" \/ overlap_strategy a = "remove_105_128" ->
  resolve_spatial_index a l w =
    whole_swath_index a l (prepared_swath_geometry a (swath_geometry0 l))
      {| fs := fs w;
         trace := trace w ++
           (if String.eqb (overlap_strategy a) "remove_105_128"
            then [EClipTails (swath_geometry0 l)] else []) |}.
Proof.
  unfold resolve_spatial_index, prepared_swath_geometry. intros [->| ->]; simpl.
  - rewrite app_nil_r. by destruct w.
  - done.
Qed.

(** C3, as the code has it: when the caller gives no K-D tree path, the path
    is [<working directory>/<granule ID>.kdtree].  Under the checkerboard
    and clipped-tails strategies the index is built and saved to that path
    when nothing is there, and it is loaded from that path, and not built,
    when a file is there. *)
Theorem C3_default_index_path (a : arguments) (w : world) l w1 :
  kd_tree_path a = None ->
  prologue a w = (Ok l, w1) ->
  overlap_strategy a = "checkerboard" \/ overlap_strategy a = "remove_105_128" ->
  let path := default_kd_tree_path (runconfig l) in
  let sg := prepared_swath_geometry a (swath_geometry0 l) in
  let tree := KDTree_new sg (gridded_geometry0 l) (search_radius_meters a) in
  kd_tree_path0 l = path /\
  (fs w1 !! path = None ->
   exists ix w2 t,
     resolve_spatial_index a l w1 = (Ok ix, w2) /\
     ix_kd_tree ix = Some tree /\
     ix_kd_tree_path ix = path /\
     fs w2 = <[path := File (KDTree_dumps tree)]> (fs w1) /\
     trace w2 = trace w1 ++ t /\
     builds t = 1%nat /\
     EKDTreeSave tree path ∈ t) /\
  (forall data, fs w1 !! path = Some (File data) ->
   exists r w2 t,
     resolve_spatial_index a l w1 = (r, w2) /\
     fs w2 = fs w1 /\
     trace w2 = trace w1 ++ t /\
     builds t = 0%nat /\
     EKDTreeLoad path ∈ t /\
     match r with
     | Ok ix => exists loaded, KDTree_loads data = inr loaded /\ ix_kd_tree ix = Some loaded
     | Raise e => exists f, KDTree_loads data = inl f /\ e = Foreign f
     end).
Proof.
  intros Hnone Hp Hstrategy path sg tree.
  pose proof (prologue_kd_tree_path _ _ _ _ Hp) as Hpath. rewrite Hnone in Hpath.
  fold path in Hpath. split; [done|]. split.
  - intros Habsent. rewrite resolve_spatial_index_whole_swath by done.
    rewrite whole_swath_index_absent by (by rewrite Hpath).
    fold sg tree. rewrite Hpath. simpl. rewrite <- app_assoc.
    eexists _, _, _. repeat split; try reflexivity.
    + rewrite builds_app. by destruct (String.eqb _ _).
    + rewrite elem_of_app. right. rewrite !elem_of_cons. auto.
  - intros data Hpresent. rewrite resolve_spatial_index_whole_swath by done.
    rewrite (whole_swath_index_present _ _ _ _ data) by (by rewrite Hpath).
    rewrite Hpath. simpl. rewrite <- app_assoc.
    eexists _, _, _. repeat split; try reflexivity.
    + rewrite builds_app. by destruct (String.eqb _ _).
    + rewrite elem_of_app. right. rewrite !elem_of_cons. auto.
    + destruct (KDTree_loads data); simpl; eauto.
Qed.

(** ** A product that is already there *)

Lemma write_all_other files (f : gmap string node) p :
  p ∉ files.*1 -> write_all files f !! p = f !! p.
Proof.
  unfold write_all. revert f. induction files as [|[q d] files IH]; intros f Hnot; [done|].
  simpl in *. apply not_elem_of_cons in Hnot as [Hq Hrest].
  rewrite IH by done. by rewrite lookup_insert_ne.
Qed.

Lemma product_stage_complete k a l ix grid w :
  is_Some (fs w !! product_filename k (runconfig l)) ->
  is_Some (fs w !! browse_filename k (runconfig l)) ->
  product_stage k a l ix grid w =
    (Ok (opened k l),
     {| fs := fs w;
        trace := trace w ++
          [EExists (product_filename k (runconfig l));
           EExists (browse_filename k (runconfig l));
           EOpenProduct k (product_filename k (runconfig l))] |}).
Proof.
  intros H1 H2. unfold product_stage, both_exist, exists_, bind, emit, get_fs, ret. simpl.
  rewrite (bool_decide_eq_true_2 _ H1). simpl.
  rewrite (bool_decide_eq_true_2 _ H2). simpl.
  by rewrite <- !app_assoc.
Qed.

Lemma both_exist_run p1 p2 (w : world) :
  both_exist p1 p2 w =
    (Ok (bool_decide (is_Some (fs w !! p1)) && bool_decide (is_Some (fs w !! p2))),
     after w (existence_checks (fs w) p1 p2)).
Proof.
  unfold both_exist, exists_, existence_checks, after. cbv [bind emit get_fs ret]. simpl.
  destruct (bool_decide (is_Some (fs w !! p1))); simpl; [|done].
  by rewrite <- app_assoc.
Qed.

Lemma product_stage_incomplete (k : product) (a : arguments) (l : locals)
    (ix : spatial_index) (grid : RasterGrid) (w : world) :
  let filename := product_filename k (runconfig l) in
  let browse := browse_filename k (runconfig l) in
  let args := product_args k a l ix grid in
  let checks := existence_checks (fs w) filename browse in
  ~ (is_Some (fs w !! filename) /\ is_Some (fs w !! browse)) ->
  product_stage k a l ix grid w =
    match from_swath k (fs w) args with
    | inl (e, partial) =>
        (Raise (Foreign e),
         {| fs := left_at filename partial (fs w);
            trace := trace w ++ checks ++ [EFromSwath k args] |})
    | inr data =>
        match browse_image k data with
        | inl (e, partial) =>
            (Raise (Foreign e),
             {| fs := left_at browse partial (<[filename := File data]> (fs w));
                trace := trace w ++ checks ++ [EFromSwath k args; EWriteBrowseImage k browse] |})
        | inr image =>
            (Ok (opened k l),
             {| fs := <[browse := File image]> (<[filename := File data]> (fs w));
                trace := trace w ++ checks ++ [EFromSwath k args; EWriteBrowseImage k browse] |})
        end
    end.
Proof.
  intros filename browse args checks Hmissing.
  unfold product_stage. unfold bind at 1. rewrite both_exist_run.
  fold filename browse args checks.
  assert (Hno : bool_decide (is_Some (fs w !! filename)) &&
                bool_decide (is_Some (fs w !! browse)) = false).
  { apply not_true_is_false. intros H.
    apply andb_prop in H as [H1%bool_decide_eq_true H2%bool_decide_eq_true].
    by apply Hmissing. }
  rewrite Hno. unfold after, from_swath_call, write_browse_image.
  cbv [bind emit get_fs put_fs ret raise]. simpl.
  destruct (from_swath k (fs w) args) as [[e partial]|data]; simpl.
  { by rewrite <- app_assoc. }
  destruct (browse_image k data) as [[e partial]|image]; simpl;
    by rewrite <- !app_assoc.
Qed.


Lemma left_at_keeps path partial (f : gmap string node) p :
  is_Some (f !! p) -> is_Some (left_at path partial f !! p).
Proof.
  intros Hp. destruct partial; [|done]. simpl.
  destruct (decide (path = p)) as [->|Hne]; [rewrite lookup_insert_eq; by eexists|].
  by rewrite lookup_insert_ne.
Qed.

(** C5: when the primary file of a product and its browse image both exist,
    the stage opens the primary file and returns its granule without a call
    of [from_swath] and without writing the browse image; the file system is
    as it was, so that a second run of the stage does the same; and the
    tiling that follows leaves both files as they are, as long as the tiles
    that [to_tiles] writes are other files. *)
Theorem C5_complete_product_is_reused (k : product) (a : arguments) (l : locals)
    (ix : spatial_index) (grid : RasterGrid) (w : world) :
  let filename := product_filename k (runconfig l) in
  let browse := browse_filename k (runconfig l) in
  let calls := [EExists filename; EExists browse; EOpenProduct k filename] in
  let w1 := {| fs := fs w; trace := trace w ++ calls |} in
  is_Some (fs w !! filename) ->
  is_Some (fs w !! browse) ->
  (forall files,
     to_tiles k (fs w) filename (output_directory (runconfig l)) (tiles a) (variables a)
     = inr files -> (filename ∉ files.*1) /\ (browse ∉ files.*1)) ->
  product_stage k a l ix grid w = (Ok (opened k l), w1) /\
  gg_filename (opened k l) = filename /\
  product_stage k a l ix grid w1 =
    (Ok (opened k l), {| fs := fs w; trace := trace w1 ++ calls |}) /\
  forall r w2, tile_stage (opened k l) a l w1 = (r, w2) ->
    (fs w2 !! filename) = (fs w !! filename) /\
    (fs w2 !! browse) = (fs w !! browse) /\
    exists t, trace w2 = trace w1 ++ t /\
              Forall (fun e => match e with
                               | EFromSwath _ _ | EWriteBrowseImage _ _ => False
                               | _ => True
                               end) t.
Proof.
  intros filename browse calls w1 Hfile Hbrowse Htiles.
  split; [by apply product_stage_complete|]. split; [done|].
  split; [by apply (product_stage_complete k a l ix grid w1)|].
  intros r w2 Hrun. unfold tile_stage in Hrun. destruct (process_tiles a).
  - unfold bind, emit, get_fs, call, put_fs in Hrun. simpl in Hrun.
    fold filename in Hrun.
    destruct (to_tiles k (fs w) filename _ _ _) as [f|files] eqn:Hcall.
    + injection Hrun as <- <-. simpl. split; [done|]. split; [done|].
      eexists. split; [reflexivity|]. by repeat constructor.
    + destruct (Htiles files eq_refl) as [Hf Hb].
      injection Hrun as <- <-. simpl.
      split; [by apply write_all_other|]. split; [by apply write_all_other|].
      eexists. split; [reflexivity|]. by repeat constructor.
  - injection Hrun as <- <-. split; [done|]. split; [done|].
    exists []. by rewrite app_nil_r.
Qed.

(** ** The stages of a run *)






(** ** The scan-by-scan cache *)













Lemma resolve_spatial_index_scan_by_scan a l :
  overlap_strategy a = "scan_by_scan" ->
  resolve_spatial_index a l = scan_by_scan_index a l.
Proof. unfold resolve_spatial_index. by intros ->. Qed.








(** ** The run-config generator *)

Lemma sorted_glob_keeps_fs pattern : keeps_fs (sorted_glob pattern : M (list string)).
Proof. unfold sorted_glob. keeps_fs_go. Qed.

Lemma of_option_keeps_fs {A} (o : option A) e : keeps_fs (of_option o e : M A).
Proof. unfold of_option. keeps_fs_go. Qed.

Lemma find_companion_keeps_fs given L2_LSTE_filename name label orbit scene build :
  keeps_fs (find_companion given L2_LSTE_filename name label orbit scene build : M string).
Proof.
  unfold find_companion.
  keeps_fs_go; first [apply sorted_glob_keeps_fs | apply of_option_keeps_fs].
Qed.

Lemma resolve_generate_inputs_keeps_fs g : keeps_fs (resolve_generate_inputs g).
Proof.
  unfold resolve_generate_inputs, granule_field.
  keeps_fs_go;
    first [apply exists__keeps_fs | apply find_companion_keeps_fs | apply of_option_keeps_fs].
Qed.

Lemma write_runconfig_no_output_directory g i (w : world) :
  g_working_directory g = None ->
  g_output_directory g = None ->
  write_runconfig g i w = (Raise join_of_None, w).
Proof. intros Hwd Hout. unfold write_runconfig. rewrite Hwd, Hout. reflexivity. Qed.

Lemma write_runconfig_no_runconfig_filename g i (w : world) d :
  g_working_directory g = None ->
  g_output_directory g = Some d ->
  g_runconfig_filename g = None ->
  write_runconfig g i w =
    (match read_L2LSTE (fs w) (generate_granule i) with
     | inl f => Raise (Foreign f)
     | inr _ => Raise join_of_None
     end,
     {| fs := fs w; trace := trace w ++ [EReadL2LSTE (generate_granule i)] |}).
Proof.
  intros Hwd Hout Hrc. unfold write_runconfig. rewrite Hwd, Hout, Hrc.
  unfold L2LSTE_properties, bind, emit, get_fs, ret, call, join_value, raise. simpl.
  destruct (read_L2LSTE (fs w) (generate_granule i)); reflexivity.
Qed.

(** C10 (amended).  With [working_directory] left as [None] and
    [output_directory] or [runconfig_filename] left as [None] too, the
    generator never returns and never applies the default of line 208: every
    call ends in an exception with the file system untouched.  The exception
    is the [TypeError] of [join] on [None] once lines 67 to 152 have gone
    through: at line 155 when [output_directory] is [None], and at line 196,
    after the granule has been read, when only [runconfig_filename] is
    [None].  An existing L2 LSTE file alone does not make lines 67 to 152 go
    through. *)
Theorem C10_working_directory_used_before_its_default (g : generate_arguments) (w : world) :
  g_working_directory g = None ->
  g_output_directory g = None \/ g_runconfig_filename g = None ->
  (exists e w', generate_L1_L2_RAD_LSTE_runconfig g w = (Raise e, w') /\ fs w' = fs w) /\
  (forall i w1, resolve_generate_inputs g w = (Ok i, w1) ->
     (g_output_directory g = None ->
        generate_L1_L2_RAD_LSTE_runconfig g w = (Raise join_of_None, w1)) /\
     (forall d info,
        g_output_directory g = Some d ->
        read_L2LSTE (fs w1) (generate_granule i) = inr info ->
        generate_L1_L2_RAD_LSTE_runconfig g w =
          (Raise join_of_None,
           {| fs := fs w1; trace := trace w1 ++ [EReadL2LSTE (generate_granule i)] |}))).
Proof.
  intros Hwd Hnone.
  unfold generate_L1_L2_RAD_LSTE_runconfig, bind.
  destruct (resolve_generate_inputs g w) as [[i|e] w1] eqn:Hin.
  - pose proof (resolve_generate_inputs_keeps_fs g _ _ _ Hin) as Hfs.
    split.
    + destruct (g_output_directory g) as [d|] eqn:Hout.
      * destruct Hnone as [[=]|Hrc].
        rewrite (write_runconfig_no_runconfig_filename g i w1 d Hwd Hout Hrc).
        destruct (read_L2LSTE (fs w1) (generate_granule i)); eexists _, _; split;
          first [reflexivity | exact Hfs].
      * rewrite (write_runconfig_no_output_directory g i w1 Hwd Hout).
        eexists _, _; split; [reflexivity | exact Hfs].
    + intros i' w1' [= <- <-]. split.
      * intros Hout. by apply write_runconfig_no_output_directory.
      * intros d info Hout Hread.
        destruct Hnone as [Hnone|Hrc]; [congruence|].
        rewrite (write_runconfig_no_runconfig_filename g i w1 d Hwd Hout Hrc), Hread.
        reflexivity.
  - split.
    + eexists _, _; split; [reflexivity|].
      exact (resolve_generate_inputs_keeps_fs g _ _ _ Hin).
    + intros i w1' [=].
Qed.

(** * Further properties of the code *)

(** ** The run-config reader *)

Lemma obind_raises {A B} (o : outcome A) (k : A -> outcome B) (E : exn -> Prop) :
  (forall e, o = Raise e -> E e) ->
  (forall x e, k x = Raise e -> E e) ->
  forall e, obind o k = Raise e -> E e.
Proof. intros Ho Hk e. destruct o as [x|e0]; simpl; [apply Hk|]. intros [= <-]. by apply Ho. Qed.

Lemma require_raises {V} (d : gmap string V) key msg e :
  require d key msg = Raise e -> e = MissingRunConfigValue msg.
Proof. unfold require. destruct (d !! key); by intros [= <-]. Qed.

Lemma getitem_raises {V} (d : gmap string V) key e :
  getitem d key = Raise e -> e = KeyError key.
Proof. unfold getitem, outcome_of_option. destruct (d !! key); by intros [= <-]. Qed.

Lemma int_raises s e : int s = Raise e -> exists msg, e = ValueError msg.
Proof. unfold int, outcome_of_option. destruct (parse_int s); intros [= <-]. by eexists. Qed.

Lemma read_fields_raises filename rc e :
  read_fields filename rc = Raise e -> fields_exn e.
Proof.
  unfold read_fields.
  repeat first
    [ apply obind_raises;
      [ intros ? H;
        first [ apply require_raises in H as ->; exact I
              | apply getitem_raises in H as ->; exact I
              | apply int_raises in H as [? ->]; exact I
              | unfold outcome_of_option in H;
                match type of H with
                | context [match ?o with _ => _ end] => destruct o
                end; [discriminate H | injection H as <-; exact I] ]
      | intros ? ]
    | intros ? ].
  done.
Qed.

Lemma L2GL2TRADLSTEConfig_run filename (w : world) :
  L2GL2TRADLSTEConfig filename w =
  match read_runconfig (fs w) filename with
  | inl f => (Raise (Foreign f), after w [EReadRunConfig filename])
  | inr rc =>
      try_except (L2GL2TRADLSTEConfig_try filename rc) (L2GL2TRADLSTEConfig_except filename)
                 (after w [EReadRunConfig filename])
  end.
Proof.
  unfold L2GL2TRADLSTEConfig, bind, emit, get_fs, call, after. simpl.
  by destruct (read_runconfig (fs w) filename).
Qed.

Lemma L2GL2TRADLSTEConfig_try_run filename rc (w : world) :
  L2GL2TRADLSTEConfig_try filename rc w =
  match read_fields filename rc with
  | Raise e => (Raise e, w)
  | Ok r =>
      let g := L2LSTE_granule (rf_L2_LSTE_filename r) (rf_L2_CLOUD_filename r)
                              (rf_L1B_GEO_filename r) in
      match read_L2LSTE (fs w) g with
      | inl f => (Raise (Foreign f), after w [EReadL2LSTE g])
      | inr info =>
          (if Qeq_bool (land_percent info) 0 then Raise (LandFilter (land_percent info))
           else Ok (make_config r (time_UTC info)),
           after w [EReadL2LSTE g])
      end
  end.
Proof.
  unfold L2GL2TRADLSTEConfig_try, L2LSTE_properties, after.
  cbv [bind lift emit get_fs call].
  destruct (read_fields filename rc) as [r|e]; [|reflexivity]. simpl.
  destruct (read_L2LSTE _ _) as [f|info]; [reflexivity|]. simpl.
  by destruct (Qeq_bool (land_percent info) 0).
Qed.

Lemma after_after (w : world) t1 t2 : after (after w t1) t2 = after w (t1 ++ t2).
Proof. unfold after. simpl. by rewrite app_assoc. Qed.

(** X1.  The run-config reader never lets a [KeyError], a [ValueError] or any
    other exception of the [try] block out: what it raises is
    [MissingRunConfigValue], [LandFilter], an exit-code exception of the
    granule reader, or [UnableToParseRunConfig] in place of an exception that
    it has logged first.  Only a failure of [read_runconfig], which line 288
    calls before the [try], comes out as it is.  The reader writes nothing. *)
Theorem config_reader_exceptions filename (w : world) e w' :
  L2GL2TRADLSTEConfig filename w = (Raise e, w') ->
  fs w' = fs w /\
  match read_runconfig (fs w) filename with
  | inl f => e = Foreign f /\ trace w' = trace w ++ [EReadRunConfig filename]
  | inr rc =>
      match e with
      | MissingRunConfigValue _ | LandFilter _ | Foreign (ExitCodeFailure _) =>
          Forall (fun ev => forall e0, ev <> ELogException e0) (drop (length (trace w)) (trace w'))
      | UnableToParseRunConfig msg =>
          UnableToParseRunConfig msg = unable_to_parse filename /\
          exists t e0, trace w' = trace w ++ t ++ [ELogException e0] /\
                       match e0 with
                       | KeyError _ | ValueError _ | Foreign (OtherFailure _) => True
                       | _ => False
                       end
      | _ => False
      end
  end.
Proof.
  rewrite L2GL2TRADLSTEConfig_run.
  destruct (read_runconfig (fs w) filename) as [f|rc].
  { intros [= <- <-]. done. }
  unfold try_except. rewrite L2GL2TRADLSTEConfig_try_run.
  assert (Hquiet : forall t : list event,
            Forall (fun ev : event => forall e0, ev <> ELogException e0) t ->
            Forall (fun ev : event => forall e0, ev <> ELogException e0)
                   (drop (length (trace w)) (trace w ++ t))).
  { intros t Ht. by rewrite drop_app_length. }
  destruct (read_fields filename rc) as [r|e1] eqn:Hfields.
  - cbv zeta.
    destruct (read_L2LSTE _ _) as [[c|what]|info].
    + intros [= <- <-]. split; [done|]. simpl. rewrite <- app_assoc.
      apply Hquiet. by repeat constructor.
    + simpl. unfold bind, emit, raise. simpl. intros [= <- <-]. split; [done|].
      split; [done|]. eexists [EReadRunConfig filename; EReadL2LSTE _], _.
      split; [by rewrite <- !app_assoc|]. done.
    + destruct (Qeq_bool (land_percent info) 0); [|done].
      intros [= <- <-]. split; [done|]. simpl. rewrite <- app_assoc.
      apply Hquiet. by repeat constructor.
  - pose proof (read_fields_raises _ _ _ Hfields) as Hkind.
    destruct e1; try done; simpl.
    + intros [= <- <-]. split; [done|]. apply Hquiet. by repeat constructor.
    + unfold bind, emit, raise. simpl. intros [= <- <-]. split; [done|].
      split; [done|]. eexists [EReadRunConfig filename], _.
      split; [by rewrite <- !app_assoc|]. done.
    + unfold bind, emit, raise. simpl. intros [= <- <-]. split; [done|].
      split; [done|]. eexists [EReadRunConfig filename], _.
      split; [by rewrite <- !app_assoc|]. done.
Qed.

Lemma L1_L2_RAD_LSTE_config_raise a (w : world) e w1 :
  L2GL2TRADLSTEConfig (runconfig_filename a) w = (Raise e, w1) ->
  L1_L2_RAD_LSTE a w = L1_L2_RAD_LSTE_except e w1.
Proof.
  intros H. unfold L1_L2_RAD_LSTE, try_except, L1_L2_RAD_LSTE_try, prologue.
  unfold bind at 1. unfold bind at 1. by rewrite H.
Qed.

(** X2.  A run-config that can be read but not made sense of ends the run
    with an exit code, never with an exception: the code of
    [MissingRunConfigValue] when a checked key is missing, the code of
    [UnableToParseRunConfig] for anything else that lines 293 to 374 raise
    (a [KeyError] on a key that is not checked, a [ValueError] on a number or
    a date).  No granule is opened and nothing is written. *)
Theorem invalid_runconfig_exit_code (a : arguments) (w : world) rc e :
  read_runconfig (fs w) (runconfig_filename a) = inr rc ->
  read_fields (runconfig_filename a) rc = Raise e ->
  L1_L2_RAD_LSTE a w =
    match e with
    | MissingRunConfigValue _ =>
        (Ok MISSING_RUNCONFIG_VALUE,
         after w [EReadRunConfig (runconfig_filename a); ELogException e])
    | _ =>
        (Ok UNABLE_TO_PARSE_RUNCONFIG,
         after w [EReadRunConfig (runconfig_filename a); ELogException e;
                  ELogException (unable_to_parse (runconfig_filename a))])
    end.
Proof.
  intros Hread Hfields.
  pose proof (read_fields_raises _ _ _ Hfields) as Hkind.
  assert (Hconfig : L2GL2TRADLSTEConfig (runconfig_filename a) w =
                    L2GL2TRADLSTEConfig_except (runconfig_filename a) e
                      (after w [EReadRunConfig (runconfig_filename a)])).
  { rewrite L2GL2TRADLSTEConfig_run, Hread. unfold try_except.
    by rewrite L2GL2TRADLSTEConfig_try_run, Hfields. }
  destruct e; try done.
  - rewrite (L1_L2_RAD_LSTE_config_raise a w _ _ Hconfig).
    unfold L1_L2_RAD_LSTE_except, after, bind, emit, ret. simpl.
    by rewrite <- !app_assoc.
  - erewrite L1_L2_RAD_LSTE_config_raise; [|rewrite Hconfig; reflexivity].
    unfold L1_L2_RAD_LSTE_except, after, bind, emit, ret. simpl.
    by rewrite <- !app_assoc.
  - erewrite L1_L2_RAD_LSTE_config_raise; [|rewrite Hconfig; reflexivity].
    unfold L1_L2_RAD_LSTE_except, after, bind, emit, ret. simpl.
    by rewrite <- !app_assoc.
Qed.

(** X3.  [read_runconfig] is called before the [try] block of the reader
    (line 288): when it fails, the reader does not turn the failure into
    [UnableToParseRunConfig].  The run ends with the exit code of the failure
    when it is an exit-code exception, and with the exception itself, out of
    the orchestrator and unlogged, when it is not. *)
Theorem unreadable_runconfig (a : arguments) (w : world) f :
  read_runconfig (fs w) (runconfig_filename a) = inl f ->
  L2GL2TRADLSTEConfig (runconfig_filename a) w =
    (Raise (Foreign f), after w [EReadRunConfig (runconfig_filename a)]) /\
  L1_L2_RAD_LSTE a w =
    match f with
    | ExitCodeFailure code =>
        (Ok code, after w [EReadRunConfig (runconfig_filename a); ELogException (Foreign f)])
    | OtherFailure _ =>
        (Raise (Foreign f), after w [EReadRunConfig (runconfig_filename a)])
    end.
Proof.
  intros Hread.
  assert (Hconfig : L2GL2TRADLSTEConfig (runconfig_filename a) w =
                    (Raise (Foreign f), after w [EReadRunConfig (runconfig_filename a)])).
  { by rewrite L2GL2TRADLSTEConfig_run, Hread. }
  split; [exact Hconfig|].
  rewrite (L1_L2_RAD_LSTE_config_raise a w _ _ Hconfig).
  destruct f; unfold L1_L2_RAD_LSTE_except, after, bind, emit, ret; simpl; [|done].
  by rewrite <- !app_assoc.
Qed.
Lemma obind_Ok {A B} (o : outcome A) (k : A -> outcome B) b :
  obind o k = Ok b -> exists x, o = Ok x /\ k x = Ok b.
Proof. destruct o as [x|e]; simpl; [|done]. intros H. by exists x. Qed.

Lemma require_delete_ne {V} (d : gmap string V) key other msg :
  other <> key -> require (delete other d) key msg = require d key msg.
Proof. intros H. unfold require. by rewrite lookup_delete_ne. Qed.

Lemma getitem_delete_ne {V} (d : gmap string V) key other :
  other <> key -> getitem (delete other d) key = getitem d key.
Proof. intros H. unfold getitem. by rewrite lookup_delete_ne. Qed.

Lemma require_delete {V} (d : gmap string V) key msg :
  require (delete key d) key msg = Raise (MissingRunConfigValue msg).
Proof. unfold require. by rewrite lookup_delete_eq. Qed.

Lemma getitem_delete {V} (d : gmap string V) key :
  getitem (delete key d) key = Raise (KeyError key).
Proof. unfold getitem. by rewrite lookup_delete_eq. Qed.

Ltac fields_inversion H :=
  repeat (let x := fresh "x" in
          let Hx := fresh "Hx" in
          apply obind_Ok in H as (x & Hx & H)).

Ltac fields_step :=
  match goal with
  | |- context [require (delete ?k ?d) ?k ?m] => rewrite (require_delete d k m); reflexivity
  | |- context [getitem (delete ?k ?d) ?k] => rewrite (getitem_delete d k); reflexivity
  | |- context [require (delete ?o ?d) ?k ?m] => rewrite (require_delete_ne d k o m) by done
  | |- context [getitem (delete ?o ?d) ?k] => rewrite (getitem_delete_ne d k o) by done
  | Hx : ?o = Ok _ |- context [obind ?o _] => rewrite Hx; simpl
  end.

(** X4.  Of the groups of a run-config, the reader checks three and takes
    three for granted.  Take a run-config that the reader accepts and remove
    one group: without [StaticAncillaryFileGroup], [ProductPathGroup] or
    [InputFileGroup] lines 293 to 374 raise [MissingRunConfigValue] with the
    message that names the group; without [Geometry], [JobIdentification] or
    [PrimaryExecutable] they raise the [KeyError] of the dictionary, which
    the reader then reports as [UnableToParseRunConfig]. *)
Theorem missing_group filename rc r :
  read_fields filename rc = Ok r ->
  (forall group,
     group ∈ ["StaticAncillaryFileGroup"; "ProductPathGroup"; "InputFileGroup"] ->
     read_fields filename (delete group rc) =
       Raise (MissingRunConfigValue
                ("missing " +:+ group +:+ " in L1_L2_RAD_LSTE run-config: " +:+ filename))) /\
  (forall group,
     group ∈ ["Geometry"; "JobIdentification"; "PrimaryExecutable"] ->
     read_fields filename (delete group rc) = Raise (KeyError group)).
Proof.
  intros H. unfold read_fields in H. fields_inversion H.
  split; intros group Hgroup; rewrite !elem_of_cons, elem_of_nil in Hgroup;
    destruct Hgroup as [->|[->|[->|[]]]]; unfold read_fields, runconfig_dict in *;
    repeat fields_step.
Qed.

(** ** The names of the products *)

Lemma join_relative dir c s :
  Ascii.eqb c "/" = false ->
  Py.join dir [String c s] = dir +:+ separator_after dir +:+ String c s.
Proof.
  intros Hc. unfold Py.join, Py.join2, separator_after. cbn [fold_left].
  rewrite startswith_sep_cons by done.
  by destruct (String.eqb dir "" || Py.ends_with_sep dir).
Qed.

(** X5.  The three products of a scene go to three different files of the
    output directory, whatever the run-config holds; and the granule ID that
    the reader keeps as [L2G_granule_ID] is the one of the radiance product
    (lines 413 and 414). *)
Theorem product_filenames_distinct (r : runconfig_fields) (t : DateTime) (k1 k2 : product) :
  (product_filename k1 (make_config r t) = product_filename k2 (make_config r t) -> k1 = k2) /\
  L1CG_RAD_filename (make_config r t) =
    Py.join (output_directory (make_config r t)) [L2G_granule_ID (make_config r t) +:+ ".h5"].
Proof.
  split; [|reflexivity].
  destruct k1, k2; try done; unfold product_filename, make_config;
    cbn [L1CG_RAD_filename L2G_LSTE_filename L2G_CLOUD_filename];
    repeat rewrite append_cons; rewrite !join_relative by done;
    intros H; do 2 apply append_inv_head in H; by simplify_eq.
Qed.

(** ** The product stages *)


Lemma product_stage_tiles k a l ix grid :
  yields (product_stage k a l ix grid) (Forall (tile_event a))
         (fun g => g = opened k l) any.
Proof.
  unfold product_stage. cbv zeta.
  eapply (yields_bind_Forall _ _ _ any); [by apply both_exist_yields|].
  intros [] _; [yields_go; done|].
  eapply (yields_bind_Forall _ _ _ any); [by apply from_swath_call_yields|].
  intros data _.
  eapply (yields_bind_Forall _ _ _ any); [by apply write_browse_image_yields|].
  intros _ _. by apply yields_ret.
Qed.

Lemma tile_stage_tiles k a l :
  k <> L2G_CLOUD ->
  yields (tile_stage (opened k l) a l) (Forall (tile_event a)) any any.
Proof.
  intros Hk. unfold tile_stage.
  destruct (process_tiles a) eqn:Htiles; yields_go; first [done | by case_match].
Qed.

Lemma product_stages_tiles a l ix :
  yields (product_stages a l ix) (Forall (tile_event a)) any any.
Proof.
  unfold product_stages. cbv zeta.
  eapply yields_bind_Forall; [apply product_stage_tiles|]. intros g ->.
  eapply (yields_bind_Forall _ _ _ any); [by apply tile_stage_tiles|]. intros _ _.
  eapply (yields_bind_Forall _ _ _ any); [unfold exists_; yields_go; done|]. intros _ _.
  eapply yields_bind_Forall; [apply product_stage_tiles|]. intros g ->.
  eapply (yields_bind_Forall _ _ _ any); [by apply tile_stage_tiles|]. intros _ _.
  eapply (yields_bind_Forall _ _ _ any);
    [eapply yields_weaken; [apply product_stage_tiles|done..]|].
  intros _ _. yields_go. done.
Qed.

(** X7.  A run makes tile products of the radiance and of the LSTE product
    only, never of the cloud product, and none at all when [process_tiles]
    is off; every call of [to_tiles] gets the [tiles] and the [variables] of
    the call of the orchestrator. *)
Theorem tiles_of_radiance_and_LSTE_only (a : arguments) (w : world) r w' :
  L1_L2_RAD_LSTE a w = (r, w') ->
  exists t, trace w' = trace w ++ t /\ Forall (tile_event a) t.
Proof.
  intros Hrun.
  assert (H : yields (L1_L2_RAD_LSTE a) (Forall (tile_event a)) any any).
  { unfold L1_L2_RAD_LSTE, L1_L2_RAD_LSTE_try.
    eapply (yields_try_except_Forall _ _ _ _ any).
    - eapply (yields_bind_Forall _ _ _ any).
      + eapply yields_weaken; [apply prologue_yields| |done..].
        intros t Ht. eapply Forall_impl; [exact Ht|]. by intros [].
      + intros l _. eapply (yields_bind_Forall _ _ _ any).
        * eapply yields_weaken; [apply resolve_spatial_index_yields| |done..].
          intros t Ht. eapply Forall_impl; [exact Ht|]. by intros [].
        * intros ix _. eapply (yields_bind_Forall _ _ _ any);
            [apply product_stages_tiles|]. intros _ _. yields_go. done.
    - intros e _. eapply yields_weaken; [apply L1_L2_RAD_LSTE_except_yields| |done..].
      intros t Ht. eapply Forall_impl; [exact Ht|]. by intros []. }
  by destruct (H w r w' Hrun) as [Ht _].
Qed.

(** ** The local variables of the dispatch *)




(** X9.  Under the [checkerboard] and [remove_105_128] strategies a
    [kd_tree] that the caller passes is never used: the tree is loaded from
    the K-D tree file or built anew whatever the argument is, so that two
    calls that differ in [kd_tree] only behave alike. *)
Theorem whole_swath_strategies_ignore_kd_tree (a : arguments) (t : option KDTree) (w : world) :
  overlap_strategy a = "checkerboard" \/ overlap_strategy a = "remove_105_128" ->
  L1_L2_RAD_LSTE (with_kd_tree t a) w = L1_L2_RAD_LSTE a w.
Proof.
  intros Hstrategy.
  unfold L1_L2_RAD_LSTE, L1_L2_RAD_LSTE_try, resolve_spatial_index.
  cbn [with_kd_tree overlap_strategy].
  destruct Hstrategy as [-> | ->]; reflexivity.
Qed.

(** ** The run-config generator *)

Lemma bind_Ok {A B} (m : M A) (k : A -> M B) (w : world) b w' :
  bind m k w = (Ok b, w') -> exists a w1, m w = (Ok a, w1) /\ k a w1 = (Ok b, w').
Proof.
  unfold bind. destruct (m w) as [[a|e] w1]; [|done]. intros H. by exists a, w1.
Qed.

Lemma join_value_Ok (a : option string) ps (w : world) s w' :
  (join_value a ps : M string) w = (Ok s, w') -> w' = w.
Proof. unfold join_value. destruct a; by intros [= _ <-]. Qed.

(** X10.  When the generator returns, the file it names exists, nothing
    has been removed, and whatever else has changed in the file system is a
    directory on the way to the run-config file that was missing and has
    been made: the generator writes no log and no output, and leaves its
    inputs alone. *)
Theorem generator_writes_the_runconfig_only (g : generate_arguments) (w : world) name w' :
  generate_L1_L2_RAD_LSTE_runconfig g w = (Ok name, w') ->
  is_Some (fs w' !! name) /\
  (forall p, is_Some (fs w !! p) -> is_Some (fs w' !! p)) /\
  forall p, p <> name -> fs w' !! p <> fs w !! p ->
            p ∈ directories_to (Py.dirname (abspath name)) /\
            fs w !! p = None /\ fs w' !! p = Some Directory.
Proof.
  unfold generate_L1_L2_RAD_LSTE_runconfig. intros H.
  apply bind_Ok in H as (i & w1 & Hinputs & H).
  apply resolve_generate_inputs_keeps_fs in Hinputs as Hfs1. rewrite <- Hfs1.
  clear Hinputs Hfs1 w. unfold write_runconfig in H. cbv zeta in H.
  apply bind_Ok in H as (out & w2 & Hout & H).
  assert (w2 = w1) as ->.
  { destruct (g_output_directory g); [by injection Hout as _ <-|].
    by eapply join_value_Ok. }
  clear Hout.
  apply bind_Ok in H as (info & w3 & Hinfo & H).
  apply L2LSTE_properties_keeps_fs in Hinfo as Hfs3. rewrite <- Hfs3. clear Hinfo Hfs3 w1.
  apply bind_Ok in H as (rc & w4 & Hrc & H).
  assert (w4 = w3) as ->.
  { destruct (g_runconfig_filename g); [by injection Hrc as _ <-|].
    by eapply join_value_Ok. }
  clear Hrc.
  apply bind_Ok in H as (present & w5 & Hpresent & H).
  unfold exists_ in Hpresent. cbv [bind emit get_fs ret] in Hpresent. simpl in Hpresent.
  injection Hpresent as <- <-.
  destruct (bool_decide (is_Some (fs w3 !! abspath (expanduser rc)))) eqn:Hthere.
  { injection H as <- <-. simpl. split; [by apply bool_decide_eq_true in Hthere|].
    split; [done|]. by intros p _ []. }
  apply bind_Ok in H as (log & w6 & Hlog & H).
  assert (fs w6 = fs w3) as Hfs6.
  { destruct (g_log_filename g); [by injection Hlog as _ <-|].
    by apply join_value_Ok in Hlog as ->. }
  clear Hlog.
  apply bind_Ok in H as (template & w7 & Htemplate & H).
  assert (fs w7 = fs w6) as Hfs7.
  { unfold read_file in Htemplate. cbv [bind emit get_fs ret raise] in Htemplate.
    simpl in Htemplate. destruct (fs w6 !! _) as [[|data]|]; try done.
    by injection Htemplate as _ <-. }
  clear Htemplate.
  apply bind_Ok in H as ([] & w8 & Hdirs & H).
  apply bind_Ok in H as ([] & w9 & Hwrite & H).
  injection H as <- <-.
  unfold write_file in Hwrite. cbv [bind emit get_fs put_fs] in Hwrite. simpl in Hwrite.
  injection Hwrite as <-. simpl.
  split; [rewrite lookup_insert_eq; by eexists|].
  rewrite <- Hfs6, <- Hfs7.
  destruct (makedirs_effect _ _ _ _ Hdirs) as (_ & Hsub & Hnew).
  split.
  - intros p [x Hp]. apply lookup_insert_is_Some'. right.
    exists x. by eapply lookup_weaken.
  - intros p Hp. rewrite lookup_insert_ne by done. apply Hnew.
Qed.

(** X11.  The generator never replaces a run-config file: when the file it
    is to write exists already, it returns its name after the granule has
    been read, without reading the template and without writing, whatever
    the other arguments of the call are. *)
Theorem existing_runconfig_is_returned (g : generate_arguments) (w : world) i w1 info name :
  resolve_generate_inputs g w = (Ok i, w1) ->
  is_Some (g_output_directory g) \/ is_Some (g_working_directory g) ->
  read_L2LSTE (fs w) (generate_granule i) = inr info ->
  generated_runconfig_filename g i info = Some name ->
  is_Some (fs w !! name) ->
  generate_L1_L2_RAD_LSTE_runconfig g w =
    (Ok name, after w1 [EReadL2LSTE (generate_granule i); EExists name]) /\
  fs w1 = fs w.
Proof.
  intros Hinputs Hout Hread Hname Hthere.
  pose proof (resolve_generate_inputs_keeps_fs g _ _ _ Hinputs) as Hfs.
  split; [|exact Hfs].
  unfold generate_L1_L2_RAD_LSTE_runconfig. unfold bind at 1. rewrite Hinputs.
  unfold write_runconfig. cbv zeta.
  assert (Hout' : exists out,
            (match g_output_directory g with
             | Some d => ret d
             | None => join_value (g_working_directory g) [DEFAULT_OUTPUT_DIRECTORY]
             end : M string) w1 = (Ok out, w1)).
  { destruct (g_output_directory g) as [d|]; [by eexists|].
    destruct Hout as [[? [=]]|[d ->]]. by eexists. }
  destruct Hout' as [out Hout'].
  unfold bind at 1. rewrite Hout'.
  unfold bind at 1. unfold L2LSTE_properties at 1. cbv [bind emit get_fs call]. simpl.
  rewrite Hfs, Hread. simpl.
  unfold generated_runconfig_filename, generated_granule_ID in Hname.
  destruct (g_runconfig_filename g) as [r|].
  - injection Hname as <-. unfold exists_. cbv [bind emit get_fs ret]. simpl.
    rewrite (bool_decide_eq_true_2 _ Hthere). unfold after. simpl.
    by rewrite <- app_assoc, Hfs.
  - destruct (g_working_directory g) as [d|]; [|done].
    injection Hname as <-. unfold join_value, exists_. cbv [bind emit get_fs ret]. simpl.
    rewrite (bool_decide_eq_true_2 _ Hthere). unfold after. simpl.
    by rewrite <- app_assoc, Hfs.
Qed.

Lemma index_from_end_last {A} (l : list A) : Py.index_from_end l 1 = last l.
Proof.
  unfold Py.index_from_end. destruct l as [|x l].
  - done.
  - replace (1 <=? length (x :: l))%nat with true
      by (symmetry; apply Nat.leb_le; simpl; lia).
    rewrite last_lookup. f_equal. simpl. lia.
Qed.

Lemma last_sorted_greatest (l : list string) c :
  last (Py.sorted l) = Some c -> greatest l c.
Proof.
  unfold Py.sorted. intros Hlast.
  pose proof (merge_sort_Permutation String.le l) as Hperm.
  pose proof (Sorted_merge_sort String.le l) as Hsorted.
  apply Sorted_StronglySorted in Hsorted; [|apply _].
  apply last_Some in Hlast as [l' Hl']. rewrite Hl' in Hperm, Hsorted.
  split.
  - rewrite <- Hperm. set_solver.
  - intros c' Hc'. rewrite <- Hperm in Hc'.
    apply elem_of_app in Hc' as [Hc'|Hc'].
    + apply (StronglySorted_app_1_elem_of _ _ _ _ _ Hsorted Hc').
      apply list_elem_of_here.
    + apply elem_of_cons in Hc' as [->|Hc']; [reflexivity|by apply elem_of_nil in Hc'].
Qed.

Lemma last_sorted_None (l : list string) : last (Py.sorted l) = None -> l = [].
Proof.
  unfold Py.sorted. intros Hlast. apply last_None in Hlast.
  pose proof (merge_sort_Permutation String.le l) as Hperm. rewrite Hlast in Hperm.
  by apply Permutation_nil_l in Hperm.
Qed.

Lemma find_companion_search L2_LSTE_filename name label orbit scene build (w : world) :
  let patterns := companion_patterns L2_LSTE_filename name orbit scene build in
  let missing := ValueError ("no " +:+ label +:+ " filename given or found") in
  find_companion None L2_LSTE_filename name label orbit scene build w =
    match Py.sorted (glob (fs w) patterns.1) with
    | [] =>
        (outcome_of_option (last (Py.sorted (glob (fs w) patterns.2))) missing,
         after w [EGlob patterns.1; EGlob patterns.2])
    | c :: cs =>
        (outcome_of_option (last (c :: cs)) missing, after w [EGlob patterns.1])
    end.
Proof.
  intros patterns missing. subst patterns missing.
  unfold find_companion, sorted_glob, companion_patterns, after.
  cbv [bind emit get_fs ret]. cbn [fs trace fst snd].
  destruct (Py.sorted (glob (fs w) _)) as [|c cs].
  - cbv [bind emit get_fs ret]. cbn [fs trace]. rewrite index_from_end_last.
    rewrite <- app_assoc.
    by destruct (last (Py.sorted (glob (fs w) _))).
  - rewrite index_from_end_last. by destruct (last (c :: cs)).
Qed.

(** X12.  The search for a file that the call does not name: of the files
    that match the pattern with the build, the last in sorted order is
    taken; the files of other builds are looked at only when no file of the
    build matches, and then the last of them in sorted order is taken; when
    neither pattern matches, [ValueError] is raised.  A file that the call
    names is taken as it is, with no look at the file system. *)
Theorem companion_file_choice (given : option string) (L2_LSTE_filename name label : string)
    (orbit scene : Z) (build : string) (w : world) r w' :
  find_companion given L2_LSTE_filename name label orbit scene build w = (r, w') ->
  let patterns := companion_patterns L2_LSTE_filename name orbit scene build in
  let of_build := glob (fs w) patterns.1 in
  let of_scene := glob (fs w) patterns.2 in
  fs w' = fs w /\
  match given with
  | Some filename => r = Ok filename /\ w' = w
  | None =>
      match r with
      | Ok filename =>
          if decide (of_build = []) then greatest of_scene filename
          else greatest of_build filename
      | Raise e =>
          of_build = [] /\ of_scene = [] /\
          e = ValueError ("no " +:+ label +:+ " filename given or found")
      end
  end.
Proof.
  intros H patterns of_build of_scene.
  split; [by eapply find_companion_keeps_fs|].
  destruct given as [filename|].
  { unfold find_companion in H. by injection H as <- <-. }
  rewrite find_companion_search in H. cbv zeta in H.
  fold patterns in H. fold of_build of_scene in H.
  destruct (Py.sorted of_build) as [|c cs] eqn:Hsorted.
  - assert (Hnone : of_build = []).
    { apply last_sorted_None. by rewrite Hsorted. }
    destruct (last (Py.sorted of_scene)) as [f|] eqn:Hlast; injection H as <- _.
    + rewrite decide_True by done. by apply last_sorted_greatest.
    + split; [done|]. split; [by apply last_sorted_None|done].
  - rewrite <- Hsorted in H.
    destruct (last (Py.sorted of_build)) as [f|] eqn:Hlast.
    + injection H as <- _. rewrite decide_False; [by apply last_sorted_greatest|].
      intros Hnil. rewrite Hnil in Hsorted. discriminate Hsorted.
    + apply last_None in Hlast. rewrite Hlast in Hsorted. discriminate Hsorted.
Qed.

(** ** The entry points *)

Context `{entry_points : !EntryPoints}.

Lemma generate_without_directories g (w : world) r w' :
  g_working_directory g = None ->
  g_output_directory g = None ->
  generate_L1_L2_RAD_LSTE_runconfig g w = (r, w') ->
  fs w' = fs w /\
  exists e, r = Raise e /\
            forall i w1, resolve_generate_inputs g w = (Ok i, w1) -> e = join_of_None.
Proof.
  intros Hwd Hout. unfold generate_L1_L2_RAD_LSTE_runconfig, bind.
  destruct (resolve_generate_inputs g w) as [[i|e] w1] eqn:Hinputs.
  - rewrite write_runconfig_no_output_directory by done. intros [= <- <-].
    split; [by eapply resolve_generate_inputs_keeps_fs|].
    eexists. split; [done|]. done.
  - intros [= <- <-]. split; [by eapply resolve_generate_inputs_keeps_fs|].
    eexists. split; [done|]. intros i w1' [=].
Qed.

(** X13.  [L1_L2_RAD_LSTE_runconfig_from_C1] never returns a run-config:
    its call of the generator names neither a working directory nor an
    output directory, so that every call ends in an exception and leaves the
    file system as it was.  When the scene is found and the generator gets
    through its search for the input files, the exception is the [TypeError]
    of [join] on [None] at line 155. *)
Theorem runconfig_from_C1_always_raises (orbit scene : Z) (runconfig_filename : string)
    (w : world) r w' :
  L1_L2_RAD_LSTE_runconfig_from_C1 orbit scene runconfig_filename w = (r, w') ->
  fs w' = fs w /\
  exists e, r = Raise e /\
    forall filenames L2_LSTE_filename L2_CLOUD_filename L1B_GEO_filename i w1,
      find_ECOSTRESS_C1_scene (fs w) orbit scene = inr filenames ->
      filenames !! "L2_LSTE" = Some L2_LSTE_filename ->
      filenames !! "L2_CLOUD" = Some L2_CLOUD_filename ->
      filenames !! "L1B_GEO" = Some L1B_GEO_filename ->
      resolve_generate_inputs
        (C1_generate_arguments orbit scene L2_LSTE_filename L2_CLOUD_filename L1B_GEO_filename
                               runconfig_filename) w = (Ok i, w1) ->
      e = TypeError "expected str, bytes or os.PathLike object, not NoneType".
Proof.
  unfold L1_L2_RAD_LSTE_runconfig_from_C1. cbv [bind get_fs call lift raise ret].
  destruct (find_ECOSTRESS_C1_scene (fs w) orbit scene) as [f|filenames].
  { intros [= <- <-]. split; [done|]. eexists. split; [done|]. by intros ? ? ? ? ? ? [=]. }
  unfold getitem, outcome_of_option.
  destruct (filenames !! "L2_LSTE") as [lste|] eqn:Hlste; cbn;
    [|intros [= <- <-]; split; [done|]; eexists; split; [done|];
      intros ? ? ? ? ? ? [= <-]; congruence].
  destruct (filenames !! "L2_CLOUD") as [cloud|] eqn:Hcloud; cbn;
    [|intros [= <- <-]; split; [done|]; eexists; split; [done|];
      intros ? ? ? ? ? ? [= <-]; congruence].
  destruct (filenames !! "L1B_GEO") as [geo|] eqn:Hgeo; cbn;
    [|intros [= <- <-]; split; [done|]; eexists; split; [done|];
      intros ? ? ? ? ? ? [= <-]; congruence].
  intros Hrun.
  apply generate_without_directories in Hrun as (Hfs & e & -> & He); [|done..].
  split; [done|]. exists e. split; [done|].
  intros ? ? ? ? i w1 [= <-] H1 H2 H3 Hinputs.
  rewrite Hlste in H1. rewrite Hcloud in H2. rewrite Hgeo in H3.
  injection H1 as <-. injection H2 as <-. injection H3 as <-. by eapply He.
Qed.

(** X14.  A command line with [--version] anywhere in it, or with the name
    of the program alone, prints the version and the usage and runs nothing:
    the result is [SUCCESS_EXIT_CODE] with [--version], also when a
    run-config is named beside it, and [RUNCONFIG_FILENAME_NOT_SUPPLIED]
    without.  An empty [argv] raises [IndexError]. *)
Theorem main_without_a_run (argv : list string) (w : world) :
  ("--version" ∈ argv -> main argv = (usage, ret SUCCESS_EXIT_CODE)) /\
  ("--version" ∉ argv -> length argv = 1%nat ->
   main argv = (usage, ret RUNCONFIG_FILENAME_NOT_SUPPLIED)) /\
  (main [] : list string * M Z).1 = [] /\
  (main [] : list string * M Z).2 w = (Raise (IndexError "list index out of range"), w).
Proof.
  split; [|split; [|done]].
  - intros Hversion. unfold main. rewrite (bool_decide_eq_true_2 _ Hversion).
    by rewrite orb_true_r.
  - intros Hversion Hlength. unfold main. rewrite (bool_decide_eq_false_2 _ Hversion).
    by rewrite Hlength.
Qed.

(** X15.  Any other command line runs the pipeline once, on [argv[1]] as the
    run-config and with the defaults of the orchestrator for the rest;
    [strip_console] is set by [--strip-console] anywhere in the command
    line, the flag being taken as the run-config when it comes first; what
    follows [argv[1]] is otherwise ignored.  [main] prints nothing and
    returns what the orchestrator returns. *)
Theorem main_runs_the_pipeline (program runconfig_filename : string) (rest : list string) :
  let argv := program :: runconfig_filename :: rest in
  "--version" ∉ argv ->
  main argv =
    ([], L1_L2_RAD_LSTE
           (main_arguments runconfig_filename (bool_decide ("--strip-console" ∈ argv)))) /\
  (runconfig_filename = "--strip-console" ->
   main argv = ([], L1_L2_RAD_LSTE (main_arguments "--strip-console" true))).
Proof.
  intros argv Hversion.
  assert (Hmain : main argv =
            ([], L1_L2_RAD_LSTE
                   (main_arguments runconfig_filename
                                   (bool_decide ("--strip-console" ∈ argv))))).
  { unfold main. rewrite (bool_decide_eq_false_2 _ Hversion). reflexivity. }
  split; [exact Hmain|].
  intros ->. rewrite Hmain. do 3 f_equal. apply bool_decide_eq_true_2.
  subst argv. set_solver.
Qed.

(** ** What stays in the file system *)

Lemma keeps_grows {A} (m : M A) : keeps_fs m -> grows_fs m.
Proof. intros Hm w r w' Hrun p Hp. by rewrite (Hm _ _ _ Hrun). Qed.

Lemma grows_fs_bind {A B} (m : M A) (k : A -> M B) :
  grows_fs m -> (forall a, grows_fs (k a)) -> grows_fs (bind m k).
Proof.
  intros Hm Hk w r w' Hrun p Hp. unfold bind in Hrun.
  destruct (m w) as [[a|e] w1] eqn:Hmw.
  - eapply Hk; [exact Hrun|]. by eapply Hm.
  - injection Hrun as <- <-. by eapply Hm.
Qed.

Lemma grows_fs_try_except {A} (m : M A) (h : exn -> M A) :
  grows_fs m -> (forall e, grows_fs (h e)) -> grows_fs (try_except m h).
Proof.
  intros Hm Hh w r w' Hrun p Hp. unfold try_except in Hrun.
  destruct (m w) as [[a|e] w1] eqn:Hmw.
  - injection Hrun as <- <-. by eapply Hm.
  - eapply Hh; [exact Hrun|]. by eapply Hm.
Qed.

Lemma is_Some_insert (f : gmap string node) p q v :
  is_Some (f !! p) -> is_Some (<[q := v]> f !! p).
Proof.
  intros Hp. destruct (decide (q = p)) as [->|Hne].
  - rewrite lookup_insert_eq. by eexists.
  - by rewrite lookup_insert_ne.
Qed.

Lemma keeps_fs_mapM {A B} (f : A -> M B) (l : list A) :
  (forall x, keeps_fs (f x)) -> keeps_fs (mapM f l).
Proof.
  intros Hf. induction l as [|x l IH]; simpl; [apply keeps_fs_ret|].
  apply keeps_fs_bind; [apply Hf|]. intros y.
  apply keeps_fs_bind; [apply IH|]. intros ys. apply keeps_fs_ret.
Qed.

Lemma KDTree_load_keeps_fs path : keeps_fs (KDTree_load path).
Proof. unfold KDTree_load. keeps_fs_go. Qed.

Lemma KDTree_save_grows t path : grows_fs (KDTree_save t path).
Proof.
  intros w r w' Hrun p Hp. unfold KDTree_save in Hrun.
  cbv [bind emit get_fs put_fs] in Hrun. simpl in Hrun. injection Hrun as <- <-.
  by apply is_Some_insert.
Qed.

Lemma makedirs_grows path : grows_fs (makedirs path : M unit).
Proof.
  intros w r w' Hrun p [x Hp].
  destruct (makedirs_effect _ _ _ _ Hrun) as (_ & Hsub & _).
  exists x. by eapply lookup_weaken.
Qed.

Lemma save_scan_kd_trees_grows dir trees :
  forall i ix, grows_fs (save_scan_kd_trees dir i trees ix).
Proof.
  induction trees as [|t trees IH]; intros i ix; simpl.
  - apply keeps_grows, keeps_fs_ret.
  - apply grows_fs_bind; [apply KDTree_save_grows|]. intros _. apply IH.
Qed.

Lemma whole_swath_index_grows a l sg : grows_fs (whole_swath_index a l sg).
Proof.
  unfold whole_swath_index. cbv zeta.
  apply grows_fs_bind; [apply keeps_grows, exists__keeps_fs|]. intros found.
  apply grows_fs_bind; [|intros ?; apply keeps_grows, keeps_fs_ret].
  destruct found; [apply keeps_grows, KDTree_load_keeps_fs|].
  apply grows_fs_bind; [apply keeps_grows, keeps_fs_emit|]. intros _.
  apply grows_fs_bind; [apply KDTree_save_grows|]. intros _.
  apply keeps_grows, keeps_fs_ret.
Qed.

Lemma scan_by_scan_index_grows a l : grows_fs (scan_by_scan_index a l).
Proof.
  unfold scan_by_scan_index. cbv zeta.
  destruct (scan_kd_trees a); [apply keeps_grows, keeps_fs_ret|].
  apply grows_fs_bind; [apply keeps_grows, exists__keeps_fs|]. intros found.
  destruct found.
  - apply keeps_grows. keeps_fs_go. apply keeps_fs_mapM, KDTree_load_keeps_fs.
  - apply grows_fs_bind; [apply keeps_grows, keeps_fs_emit|]. intros _.
    apply grows_fs_bind; [apply makedirs_grows|]. intros _.
    apply save_scan_kd_trees_grows.
Qed.

Lemma resolve_spatial_index_grows a l : grows_fs (resolve_spatial_index a l).
Proof.
  unfold resolve_spatial_index.
  repeat case_match;
    first [ apply whole_swath_index_grows
          | apply scan_by_scan_index_grows
          | apply keeps_grows, keeps_fs_raise
          | idtac ].
  apply grows_fs_bind; [apply keeps_grows, keeps_fs_emit|]. intros _.
  apply whole_swath_index_grows.
Qed.

Lemma both_exist_keeps_fs p1 p2 : keeps_fs (both_exist p1 p2 : M bool).
Proof. unfold both_exist. keeps_fs_go; apply exists__keeps_fs. Qed.

Lemma product_stage_grows k a l ix grid : grows_fs (product_stage k a l ix grid).
Proof.
  intros w r w' Hrun p Hp.
  destruct (decide (is_Some (fs w !! product_filename k (runconfig l)) /\
                    is_Some (fs w !! browse_filename k (runconfig l)))) as [[H1 H2]|Hmissing].
  - rewrite product_stage_complete in Hrun by done. by injection Hrun as <- <-.
  - rewrite product_stage_incomplete in Hrun by done. cbv zeta in Hrun.
    destruct (from_swath _ _ _) as [[e partial]|data].
    { injection Hrun as <- <-. by apply left_at_keeps. }
    destruct (browse_image _ _) as [[e partial]|image]; injection Hrun as <- <-; simpl.
    + by apply left_at_keeps, is_Some_insert.
    + by do 2 apply is_Some_insert.
Qed.

Lemma write_all_grows files (f : gmap string node) p :
  is_Some (f !! p) -> is_Some (write_all files f !! p).
Proof.
  unfold write_all. revert f. induction files as [|[q d] files IH]; intros f Hp; [done|].
  simpl. apply IH. by apply is_Some_insert.
Qed.

Lemma tile_stage_grows g a l : grows_fs (tile_stage g a l).
Proof.
  intros w r w' Hrun p Hp. unfold tile_stage in Hrun.
  destruct (process_tiles a); [|by injection Hrun as <- <-].
  cbv [bind emit get_fs put_fs call ret raise] in Hrun. simpl in Hrun.
  destruct (to_tiles _ _ _ _ _ _) as [f|files]; injection Hrun as <- <-; simpl; [done|].
  by apply write_all_grows.
Qed.

Lemma product_stages_grows a l ix : grows_fs (product_stages a l ix).
Proof.
  unfold product_stages. cbv zeta.
  repeat first
    [ apply product_stage_grows
    | apply tile_stage_grows
    | apply keeps_grows, exists__keeps_fs
    | apply keeps_grows, keeps_fs_ret
    | apply grows_fs_bind; [|intros ?] ].
Qed.

Lemma L1_L2_RAD_LSTE_try_grows a : grows_fs (L1_L2_RAD_LSTE_try a).
Proof.
  unfold L1_L2_RAD_LSTE_try.
  apply grows_fs_bind; [apply keeps_grows, prologue_keeps_fs|]. intros l.
  apply grows_fs_bind; [apply resolve_spatial_index_grows|]. intros ix.
  apply grows_fs_bind; [apply product_stages_grows|]. intros _.
  apply keeps_grows, keeps_fs_ret.
Qed.

(** X16.  A run removes nothing: every path that is in the file system
    when the orchestrator is called is still there when it returns or
    raises.  In particular the K-D tree files stay (the removal at the end
    of the run, lines 758 to 760, is commented out). *)
Theorem run_removes_nothing (a : arguments) (w : world) r w' :
  L1_L2_RAD_LSTE a w = (r, w') ->
  forall p, is_Some (fs w !! p) -> is_Some (fs w' !! p).
Proof.
  revert w r w'. change (grows_fs (L1_L2_RAD_LSTE a)).
  unfold L1_L2_RAD_LSTE. apply grows_fs_try_except; [apply L1_L2_RAD_LSTE_try_grows|].
  intros e. apply keeps_grows. unfold L1_L2_RAD_LSTE_except. keeps_fs_go.
Qed.

Lemma whole_swath_index_leaves_file a l sg (w : world) ix w' :
  whole_swath_index a l sg w = (Ok ix, w') ->
  is_Some (fs w' !! kd_tree_path0 l) /\ ix_kd_tree_path ix = kd_tree_path0 l.
Proof.
  destruct (fs w !! kd_tree_path0 l) as [[|data]|] eqn:Hlookup.
  - unfold whole_swath_index, exists_, KDTree_load.
    cbv [bind emit get_fs ret raise]. simpl. rewrite Hlookup.
    rewrite bool_decide_eq_true_2 by by eexists. simpl. by rewrite Hlookup.
  - rewrite (whole_swath_index_present a l sg w data Hlookup).
    destruct (KDTree_loads data); [done|]. intros [= <- <-]. simpl.
    split; [|done]. rewrite Hlookup. by eexists.
  - rewrite (whole_swath_index_absent a l sg w Hlookup). cbv zeta.
    intros [= <- <-]. simpl. split; [|done]. rewrite lookup_insert_eq. by eexists.
Qed.

(** X17.  Under the [checkerboard] and [remove_105_128] strategies the K-D
    tree file, loaded or newly saved, is still in the file system when the
    [try] block of a run completes: no run ends without it, so that a later
    run on the same K-D tree path finds it. *)
Theorem kd_tree_file_outlives_the_run (a : arguments) (w : world) code w' :
  overlap_strategy a = "checkerboard" \/ overlap_strategy a = "remove_105_128" ->
  L1_L2_RAD_LSTE_try a w = (Ok code, w') ->
  exists l w1,
    prologue a w = (Ok l, w1) /\
    kd_tree_path0 l = match kd_tree_path a with
                      | None => default_kd_tree_path (runconfig l)
                      | Some p => p
                      end /\
    is_Some (fs w' !! kd_tree_path0 l).
Proof.
  intros Hstrategy Hrun. unfold L1_L2_RAD_LSTE_try in Hrun.
  apply bind_Ok in Hrun as (l & w1 & Hprologue & Hrun).
  apply bind_Ok in Hrun as (ix & w2 & Hindex & Hrun).
  apply bind_Ok in Hrun as ([] & w3 & Hstages & Hrun).
  injection Hrun as _ <-.
  exists l, w1. split; [exact Hprologue|].
  split; [by eapply prologue_kd_tree_path|].
  rewrite resolve_spatial_index_whole_swath in Hindex by done.
  apply whole_swath_index_leaves_file in Hindex as [Hfile _].
  by eapply product_stages_grows.
Qed.

(** ** The browse images *)

Lemma prefix_h5 s :
  String.prefix ".h5" s = true -> exists rest, s = ".h5" +:+ rest.
Proof.
  destruct s as [|c1 [|c2 [|c3 rest]]]; cbn -[ascii_dec]; try done;
    repeat (case ascii_dec; [intros <-|done]); try done.
  intros _. by exists rest.
Qed.

Lemma Py_replace_go_unfold old new c s :
  Py.replace_go old new 0 (String c s) =
    if String.prefix old (String c s)
    then new +:+ Py.replace_go old new (String.length old - 1) s
    else String c (Py.replace_go old new 0 s).
Proof. reflexivity. Qed.

Lemma replace_h5_match rest :
  Py.replace_go ".h5" ".png" 0 (".h5" +:+ rest) = ".png" +:+ Py.replace_go ".h5" ".png" 0 rest.
Proof.
  rewrite !append_cons. change ("" +:+ rest) with rest.
  rewrite (Py_replace_go_unfold ".h5" ".png" "." _).
  replace (String.prefix ".h5" (String "." (String "h" (String "5" rest)))) with true
    by by destruct rest.
  reflexivity.
Qed.

Lemma replace_h5_no_match c s :
  String.prefix ".h5" (String c s) = false ->
  Py.replace_go ".h5" ".png" 0 (String c s) = String c (Py.replace_go ".h5" ".png" 0 s).
Proof. intros H. by rewrite Py_replace_go_unfold, H. Qed.

Lemma ends_with_h5_tail c s :
  ends_with_h5 (String c s) -> s <> "" -> String.prefix ".h5" (String c s) = false ->
  ends_with_h5 s.
Proof.
  intros [x Hx] Hs Hprefix. destruct x as [|c' x].
  - change ("" +:+ ".h5") with ".h5" in Hx. rewrite Hx in Hprefix. done.
  - rewrite append_cons in Hx. injection Hx as _ ->. by exists x.
Qed.

Lemma ends_with_h5_after_match rest :
  ends_with_h5 (".h5" +:+ rest) -> rest = "" \/ ends_with_h5 rest.
Proof.
  intros [x Hx].
  destruct x as [|x1 [|x2 [|x3 x]]].
  - left. change ("" +:+ ".h5") with ".h5" in Hx. by apply (append_inv_head ".h5" rest "").
  - exfalso. rewrite !append_cons in Hx. by simplify_eq.
  - exfalso. rewrite !append_cons in Hx. by simplify_eq.
  - right. rewrite !append_cons in Hx. exists x. by simplify_eq.
Qed.

Lemma last_char_String c s : s <> "" -> Py.last_char (String c s) = Py.last_char s.
Proof. by destruct s. Qed.

Lemma last_char_append s1 s2 : s2 <> "" -> Py.last_char (s1 +:+ s2) = Py.last_char s2.
Proof.
  intros Hs2. induction s1 as [|c s1 IH]; [done|].
  rewrite append_cons, last_char_String; [done|]. by destruct s1, s2.
Qed.

Lemma replace_go_nonempty s :
  s <> "" -> Py.replace_go ".h5" ".png" 0 s <> "".
Proof.
  destruct s as [|c s]; [done|]. intros _.
  destruct (String.prefix ".h5" (String c s)) eqn:Hprefix.
  - apply prefix_h5 in Hprefix as [rest ->]. by rewrite replace_h5_match.
  - by rewrite replace_h5_no_match.
Qed.

Lemma replace_h5_last n :
  forall s, (String.length s <= n)%nat -> ends_with_h5 s ->
            Py.last_char (Py.replace_go ".h5" ".png" 0 s) = Some "g"%char.
Proof.
  induction n as [|n IH]; intros s Hlength Hends.
  { destruct s; [|simpl in Hlength; lia]. destruct Hends as [[|? ?] [=]]. }
  destruct s as [|c s]; [by destruct Hends as [[|? ?] [=]]|].
  destruct (String.prefix ".h5" (String c s)) eqn:Hprefix.
  - apply prefix_h5 in Hprefix as [rest Hrest]. rewrite Hrest in *.
    rewrite replace_h5_match.
    apply ends_with_h5_after_match in Hends as [->|Hends]; [done|].
    rewrite last_char_append.
    + apply IH; [|done]. rewrite !append_cons in Hlength.
      change ("" +:+ rest) with rest in Hlength. simpl in Hlength. lia.
    + apply replace_go_nonempty. by destruct Hends as [[|? ?] ->].
  - rewrite replace_h5_no_match by done.
    assert (Hs : s <> "").
    { intros ->. by destruct Hends as [[|? [|? ?]] [=]]. }
    rewrite last_char_String by by apply replace_go_nonempty.
    apply IH; [simpl in Hlength; lia|]. by eapply ends_with_h5_tail.
Qed.

Lemma product_filename_ends_with_h5 (r : runconfig_fields) (t : DateTime) k :
  ends_with_h5 (product_filename k (make_config r t)).
Proof.
  destruct k; unfold product_filename, make_config;
    cbn [L1CG_RAD_filename L2G_LSTE_filename L2G_CLOUD_filename];
    repeat rewrite append_cons; rewrite join_relative by done;
    rewrite <- !append_cons, !append_assoc; eexists; rewrite <- !append_assoc; reflexivity.
Qed.

(** X18.  No browse image is written over a product: the name of a browse
    image, which is the name of its product with every [.h5] replaced by
    [.png], ends in the letter g, while the three product files end in
    [.h5]; so the browse image of one product is never the file of the same
    or of another product, whatever the output directory is called. *)
Theorem browse_images_beside_products (r : runconfig_fields) (t : DateTime) (k1 k2 : product) :
  Py.last_char (browse_filename k1 (make_config r t)) = Some "g"%char /\
  Py.last_char (product_filename k2 (make_config r t)) = Some "5"%char /\
  browse_filename k1 (make_config r t) <> product_filename k2 (make_config r t).
Proof.
  assert (Hbrowse : Py.last_char (browse_filename k1 (make_config r t)) = Some "g"%char).
  { unfold browse_filename, Py.replace.
    eapply replace_h5_last; [reflexivity|apply product_filename_ends_with_h5]. }
  assert (Hproduct : Py.last_char (product_filename k2 (make_config r t)) = Some "5"%char).
  { destruct (product_filename_ends_with_h5 r t k2) as [x ->].
    by rewrite last_char_append. }
  split; [done|]. split; [done|].
  intros Heq. rewrite Heq, Hproduct in Hbrowse. done.
Qed.

(** ** Runs on the trees of the caller *)

(** X19.  Under [scan_by_scan] with [scan_kd_trees] passed by the caller the
    run does no work on the spatial index: it loads, builds and saves no
    tree, does not search the cache directory and does not create it; every
    [from_swath] gets the trees and the [kd_tree] of the call. *)
Theorem passed_scan_trees_are_used (a : arguments) (trees : list KDTree) (w : world) r w' :
  overlap_strategy a = "scan_by_scan" ->
  scan_kd_trees a = Some trees ->
  L1_L2_RAD_LSTE a w = (r, w') ->
  exists t, trace w' = trace w ++ t /\ Forall (passed_trees_event a trees) t.
Proof.
  intros Hstrategy Htrees Hrun.
  assert (H : yields (L1_L2_RAD_LSTE a) (Forall (passed_trees_event a trees)) any any).
  { unfold L1_L2_RAD_LSTE, L1_L2_RAD_LSTE_try.
    eapply (yields_try_except_Forall _ _ _ _ any).
    - eapply (yields_bind_Forall _ _ _ any).
      + eapply yields_weaken; [apply prologue_yields| |done..].
        intros t Ht. eapply Forall_impl; [exact Ht|]. by intros [].
      + intros l _.
        eapply (yields_bind_Forall _ _ _
                  (fun ix => ix_scan_kd_trees ix = Some trees /\ ix_kd_tree ix = kd_tree a)).
        * rewrite resolve_spatial_index_scan_by_scan by done.
          unfold scan_by_scan_index. rewrite Htrees. cbv zeta.
          apply yields_ret; [by constructor|done].
        * intros ix [Hix1 Hix2]. eapply (yields_bind_Forall _ _ _ any).
          -- eapply yields_weaken; [apply product_stages_yields| |done..].
             intros t Ht. eapply Forall_impl; [exact Ht|].
             intros e [k He]. destruct e; try done.
             simpl in He. destruct He as [_ ->]. done.
          -- intros _ _. yields_go. done.
    - intros e _. eapply yields_weaken; [apply L1_L2_RAD_LSTE_except_yields| |done..].
      intros t Ht. eapply Forall_impl; [exact Ht|]. by intros []. }
  by destruct (H w r w' Hrun) as [Ht _].
Qed.

(** ** The land filter *)

(** X20.  The land filter is the comparison [land_percent == 0] and nothing
    else: with a run-config that reads well and a granule that opens, the
    reader raises [LandFilter] when the land fraction is zero and returns
    the configuration for any other value, small or negative as it may be. *)
Theorem land_filter_at_zero_only filename (w : world) rc r info :
  read_runconfig (fs w) filename = inr rc ->
  read_fields filename rc = Ok r ->
  let g := L2LSTE_granule (rf_L2_LSTE_filename r) (rf_L2_CLOUD_filename r)
                          (rf_L1B_GEO_filename r) in
  read_L2LSTE (fs w) g = inr info ->
  L2GL2TRADLSTEConfig filename w =
    (if Qeq_bool (land_percent info) 0 then Raise (LandFilter (land_percent info))
     else Ok (make_config r (time_UTC info)),
     after w [EReadRunConfig filename; EReadL2LSTE g]) /\
  (Qeq_bool (land_percent info) 0 = true <-> (land_percent info == 0)%Q).
Proof.
  intros Hread Hfields g Hgranule.
  split; [|apply Qeq_bool_iff].
  rewrite L2GL2TRADLSTEConfig_run, Hread. unfold try_except.
  rewrite L2GL2TRADLSTEConfig_try_run, Hfields. cbv zeta. fold g.
  change (fs (after w [EReadRunConfig filename])) with (fs w).
  rewrite Hgranule, after_after.
  by destruct (Qeq_bool (land_percent info) 0).
Qed.

(** ** A run that completes *)

Lemma product_stage_completes k a l ix grid (w : world) :
  (forall f args, exists data, from_swath k f args = inr data) ->
  (forall data, exists image, browse_image k data = inr image) ->
  exists w',
    product_stage k a l ix grid w = (Ok (opened k l), w') /\
    is_Some (fs w' !! product_filename k (runconfig l)) /\
    is_Some (fs w' !! browse_filename k (runconfig l)).
Proof.
  intros Hswath Hbrowse.
  destruct (decide (is_Some (fs w !! product_filename k (runconfig l)) /\
                    is_Some (fs w !! browse_filename k (runconfig l)))) as [[H1 H2]|Hmissing].
  - rewrite product_stage_complete by done. by eexists.
  - rewrite product_stage_incomplete by done. cbv zeta.
    destruct (Hswath (fs w) (product_args k a l ix grid)) as [data ->].
    destruct (Hbrowse data) as [image ->].
    eexists. split; [reflexivity|]. simpl. split.
    + apply is_Some_insert. rewrite lookup_insert_eq. by eexists.
    + rewrite lookup_insert_eq. by eexists.
Qed.

Lemma tile_stage_completes g a l (w : world) :
  (forall k f filename out ti va, exists files, to_tiles k f filename out ti va = inr files) ->
  exists w', tile_stage g a l w = (Ok tt, w').
Proof.
  intros Htiles. unfold tile_stage. destruct (process_tiles a); [|by eexists].
  cbv [bind emit get_fs put_fs call ret]. simpl.
  destruct (Htiles (gg_product g) (fs w) (gg_filename g) (output_directory (runconfig l))
                   (tiles a) (variables a)) as [files ->].
  by eexists.
Qed.

Lemma exists__completes path (w : world) :
  exists found w', (exists_ path : M bool) w = (Ok found, w') /\ fs w' = fs w.
Proof. unfold exists_. cbv [bind emit get_fs ret]. simpl. by eexists _, _. Qed.

(** X21.  A run whose run-config, granules and spatial index are in order,
    and whose calls of [from_swath], [write_browse_image] and [to_tiles] do
    not fail, completes with [SUCCESS_EXIT_CODE], and the file and the
    browse image of each of the three products are in the file system when
    it returns: those that were there complete, and those that it built. *)
Theorem run_completes (a : arguments) (w : world) l w1 ix w2 :
  prologue a w = (Ok l, w1) ->
  resolve_spatial_index a l w1 = (Ok ix, w2) ->
  (forall k f args, exists data, from_swath k f args = inr data) ->
  (forall k data, exists image, browse_image k data = inr image) ->
  (forall k f filename out ti va, exists files, to_tiles k f filename out ti va = inr files) ->
  exists w',
    L1_L2_RAD_LSTE a w = (Ok SUCCESS_EXIT_CODE, w') /\
    forall k, is_Some (fs w' !! product_filename k (runconfig l)) /\
              is_Some (fs w' !! browse_filename k (runconfig l)).
Proof.
  intros Hprologue Hindex Hswath Hbrowse Htiles.
  set (grid := geographic (ix_swath_geometry ix) (cell_size_degrees a)).
  destruct (product_stage_completes L1CG_RAD a l ix grid w2 (Hswath _) (Hbrowse _))
    as (w3 & Hrad & Hrad1 & Hrad2).
  destruct (tile_stage_completes (opened L1CG_RAD l) a l w3 Htiles) as (w4 & Htile1).
  destruct (exists__completes (ix_kd_tree_path ix) w4) as (found & w5 & Hexists & Hfs5).
  destruct (product_stage_completes L2G_LSTE a l ix grid w5 (Hswath _) (Hbrowse _))
    as (w6 & Hlste & Hlste1 & Hlste2).
  destruct (tile_stage_completes (opened L2G_LSTE l) a l w6 Htiles) as (w7 & Htile2).
  destruct (product_stage_completes L2G_CLOUD a l ix grid w7 (Hswath _) (Hbrowse _))
    as (w8 & Hcloud & Hcloud1 & Hcloud2).
  exists w8.
  assert (Hgrow34 : forall p, is_Some (fs w3 !! p) -> is_Some (fs w4 !! p)).
  { intros p. by eapply tile_stage_grows. }
  assert (Hgrow67 : forall p, is_Some (fs w6 !! p) -> is_Some (fs w7 !! p)).
  { intros p. by eapply tile_stage_grows. }
  assert (Hgrow56 : forall p, is_Some (fs w5 !! p) -> is_Some (fs w6 !! p)).
  { intros p. by eapply product_stage_grows. }
  assert (Hgrow78 : forall p, is_Some (fs w7 !! p) -> is_Some (fs w8 !! p)).
  { intros p. by eapply product_stage_grows. }
  split.
  - unfold L1_L2_RAD_LSTE, try_except, L1_L2_RAD_LSTE_try.
    unfold bind at 1. rewrite Hprologue.
    unfold bind at 1. rewrite Hindex.
    unfold bind at 1. unfold product_stages. cbv zeta. fold grid.
    unfold bind at 1. rewrite Hrad.
    unfold bind at 1. rewrite Htile1.
    unfold bind at 1. rewrite Hexists.
    unfold bind at 1. rewrite Hlste.
    unfold bind at 1. rewrite Htile2.
    unfold bind at 1. rewrite Hcloud.
    reflexivity.
  - intros []; split; try done.
    + apply Hgrow78, Hgrow67, Hgrow56. rewrite Hfs5. by apply Hgrow34.
    + apply Hgrow78, Hgrow67, Hgrow56. rewrite Hfs5. by apply Hgrow34.
    + by apply Hgrow78, Hgrow67.
    + by apply Hgrow78, Hgrow67.
Qed.

(** ** The default working directory of the generator *)

Lemma join_value_None ps (w : world) s w' :
  (join_value None ps : M string) w = (Ok s, w') -> False.
Proof. done. Qed.

(** X22.  The default of the working directory (lines 208 and 209) is
    reached by one kind of call only.  When [working_directory] is left as
    [None], the generator returns only if [output_directory] and
    [runconfig_filename] are both given, and then only if the run-config
    file is there already or [log_filename] is given as well: every other
    call has used the missing working directory in a [join] before. *)
Theorem working_directory_default (g : generate_arguments) (w : world) name w' :
  g_working_directory g = None ->
  generate_L1_L2_RAD_LSTE_runconfig g w = (Ok name, w') ->
  is_Some (g_output_directory g) /\
  (exists r, g_runconfig_filename g = Some r /\ name = abspath (expanduser r)) /\
  (is_Some (fs w !! name) \/ is_Some (g_log_filename g)).
Proof.
  intros Hwd H. unfold generate_L1_L2_RAD_LSTE_runconfig in H.
  apply bind_Ok in H as (i & w1 & Hinputs & H).
  apply resolve_generate_inputs_keeps_fs in Hinputs as Hfs1. rewrite <- Hfs1.
  clear Hinputs Hfs1 w. unfold write_runconfig in H. cbv zeta in H. rewrite Hwd in H.
  apply bind_Ok in H as (out & w2 & Hout & H).
  destruct (g_output_directory g) as [d|]; [|by apply join_value_None in Hout].
  injection Hout as _ <-. split; [by eexists|].
  apply bind_Ok in H as (info & w3 & Hinfo & H).
  apply L2LSTE_properties_keeps_fs in Hinfo as Hfs3. rewrite <- Hfs3. clear Hinfo Hfs3 w1.
  apply bind_Ok in H as (rc & w4 & Hrc & H).
  destruct (g_runconfig_filename g) as [r|]; [|by apply join_value_None in Hrc].
  injection Hrc as <- <-.
  apply bind_Ok in H as (present & w5 & Hpresent & H).
  unfold exists_ in Hpresent. cbv [bind emit get_fs ret] in Hpresent. simpl in Hpresent.
  injection Hpresent as <- <-.
  destruct (bool_decide (is_Some (fs w3 !! abspath (expanduser r)))) eqn:Hthere.
  { injection H as <- <-. split; [by eexists|]. left. by apply bool_decide_eq_true in Hthere. }
  apply bind_Ok in H as (log & w6 & Hlog & H).
  destruct (g_log_filename g) as [f|]; [|by apply join_value_None in Hlog].
  apply bind_Ok in H as (template & w7 & _ & H).
  apply bind_Ok in H as ([] & w8 & _ & H).
  apply bind_Ok in H as ([] & w9 & _ & H).
  injection H as <- _. split; [by eexists|]. right. by eexists.
Qed.

(** ** The input file of the generator *)

(** X23.  The generator looks at the L2 LSTE file before anything else.
    When the file is not there, it raises [IOError] after this one look.
    When the file is there, the orbit is not given, and the name of the
    file without its extension has fewer than five fields between
    underscores, the index [-5] of line 77 is out of range: [IndexError],
    before any search for the other files. *)
Theorem generator_input_errors (g : generate_arguments) (w : world) :
  let path := abspath (expanduser (g_L2_LSTE_filename g)) in
  let fields := Py.split "_" (Py.splitext_root (Py.basename path)) in
  (fs w !! path = None ->
   generate_L1_L2_RAD_LSTE_runconfig g w =
     (Raise (IOError ("L2 LSTE file not found: " +:+ path)), after w [EExists path])) /\
  (is_Some (fs w !! path) -> g_orbit g = None -> (length fields < 5)%nat ->
   generate_L1_L2_RAD_LSTE_runconfig g w =
     (Raise (IndexError "list index out of range"), after w [EExists path])).
Proof.
  intros path fields. split.
  - intros Habsent. unfold generate_L1_L2_RAD_LSTE_runconfig, resolve_generate_inputs, exists_.
    fold path. cbv [bind emit get_fs ret raise]. simpl. rewrite Habsent.
    rewrite bool_decide_eq_false_2 by by intros [? [=]]. reflexivity.
  - intros Hthere Horbit Hshort.
    unfold generate_L1_L2_RAD_LSTE_runconfig, resolve_generate_inputs, exists_.
    fold path. cbv [bind emit get_fs ret raise]. simpl.
    rewrite (bool_decide_eq_true_2 _ Hthere). simpl. rewrite Horbit.
    unfold granule_field, Py.index_from_end. fold fields.
    replace (5 <=? length fields)%nat with false by (symmetry; apply Nat.leb_gt; lia).
    reflexivity.
Qed.

End Facts.

(** * The theorems on the test double *)

Import TestDouble.


(** ** C1 *)

Lemma C1_witness :
  L1_L2_RAD_LSTE (call_with "nearest" "global_geographic" None) (start (inputs "3"))
  = (Raise (ValueError "unrecognized overlap strategy: nearest"),
     {| fs := inputs "3"; trace := prologue_trace scene_kd_tree_path false |}).
Proof.
  edestruct (C1_overlap_strategy_dispatch
               (call_with "nearest" "global_geographic" None)
               (start (inputs "3"))
               (scene_locals 3 scene_kd_tree_path)
               {| fs := inputs "3"; trace := prologue_trace scene_kd_tree_path false |})
    as [_ Hother].
  - vm_compute. reflexivity.
  - destruct Hother as (Hrun & _).
    + compute_done.
    + exact Hrun.
Defined.

(** [remove_edge_overlap] is not one of the accepted values, [remove_105_128]
    is; and the rejection comes after the run-config and the granules have
    been read and the K-D tree file has been looked for. *)
Lemma C1_counterexample :
  L1_L2_RAD_LSTE (call_with "remove_edge_overlap" "global_geographic" None) (start (inputs "3"))
  = (Raise (ValueError "unrecognized overlap strategy: remove_edge_overlap"),
     {| fs := inputs "3";
        trace :=
          [EReadRunConfig "/rc.xml";
           EReadL2LSTE (L2LSTE_granule "/i/lste.h5" "/i/cloud.h5" "/i/geo.h5");
           EConfigureLog "/w/log/ECOv002_L1_L2_RAD_LSTE_00001_002_T_0700_01.log" false;
           EOpenSwath {| sg_kind := L1B_RAD_swath;
                         sg_filenames :=
                           ["/i/rad.h5"; "/i/cloud.h5"; "/i/lste.h5"; "/i/geo.h5"] |};
           EOpenSwath (L2LSTE_granule "/i/lste.h5" "/i/cloud.h5" "/i/geo.h5");
           EOpenSwath {| sg_kind := L2_CLOUD_swath;
                         sg_filenames := ["/i/cloud.h5"; "/i/geo.h5"] |};
           EReadL2LSTE (L2LSTE_granule "/i/lste.h5" "/i/cloud.h5" "/i/geo.h5");
           EExists scene_kd_tree_path;
           ELogWarning ("K-D tree file not found: " +:+ scene_kd_tree_path)] |})
  /\ (L1_L2_RAD_LSTE (call_with "remove_105_128" "global_geographic" None)
                     (start (inputs "3"))).1 = Ok 0.
Proof. split; vm_compute; reflexivity. Qed.

(** ** C2 *)



(** ** C3 *)

Lemma C3_witness :
  exists ix w2,
    resolve_spatial_index (call_with "checkerboard" "global_geographic" None)
                          (scene_locals 3 scene_kd_tree_path)
                          {| fs := inputs "3"; trace := prologue_trace scene_kd_tree_path false |}
    = (Ok ix, w2) /\
    ix_kd_tree ix = Some 99%nat /\
    fs w2 = <[scene_kd_tree_path := File "99"]> (inputs "3").
Proof.
  edestruct (C3_default_index_path
               (call_with "checkerboard" "global_geographic" None)
               (start (inputs "3"))
               (scene_locals 3 scene_kd_tree_path)
               {| fs := inputs "3"; trace := prologue_trace scene_kd_tree_path false |})
    as (_ & Habsent & _).
  - reflexivity.
  - vm_compute. reflexivity.
  - left. reflexivity.
  - destruct Habsent as (ix & w2 & t & Hresolve & Htree & _ & Hfs & _).
    + vm_compute. reflexivity.
    + exists ix, w2. split; [exact Hresolve|]. split; [exact Htree | exact Hfs].
Defined.

(** A run that is given no [kd_tree_path] leaves the K-D tree that it built
    in a file of the working directory. *)
Lemma C3_counterexample :
  let run := L1_L2_RAD_LSTE (call_with "checkerboard" "global_geographic" None)
                            (start (inputs "3")) in
  kd_tree_path (call_with "checkerboard" "global_geographic" None) = None /\
  inputs "3" !! scene_kd_tree_path = None /\
  run.1 = Ok 0 /\
  fs run.2 !! scene_kd_tree_path = Some (File "99") /\
  trace run.2 !! 11%nat = Some (EKDTreeSave 99%nat scene_kd_tree_path).
Proof. repeat split; vm_compute; reflexivity. Qed.

(** ** C4 *)



(** ** C5 *)

Lemma C5_witness :
  let w := start (<["/o/ECOv002_L1CG_RAD_00001_002_T_0700_01.h5" := File "old"]>
                  (<["/o/ECOv002_L1CG_RAD_00001_002_T_0700_01.png" := File "old png"]>
                   (inputs "3"))) in
  product_stage L1CG_RAD (call_with "checkerboard" "global_geographic" None)
                (scene_locals 3 scene_kd_tree_path)
                {| ix_kd_tree := Some 99%nat; ix_scan_kd_trees := None;
                   ix_kd_tree_path := scene_kd_tree_path;
                   ix_swath_geometry := (3%nat, 540%nat) |}
                ("geographic", (3%nat, 540%nat)) w
  = (Ok (opened L1CG_RAD (scene_locals 3 scene_kd_tree_path)),
     {| fs := fs w;
        trace := [EExists "/o/ECOv002_L1CG_RAD_00001_002_T_0700_01.h5";
                  EExists "/o/ECOv002_L1CG_RAD_00001_002_T_0700_01.png";
                  EOpenProduct L1CG_RAD "/o/ECOv002_L1CG_RAD_00001_002_T_0700_01.h5"] |}).
Proof.
  intros w.
  edestruct (C5_complete_product_is_reused
               L1CG_RAD (call_with "checkerboard" "global_geographic" None)
               (scene_locals 3 scene_kd_tree_path)
               {| ix_kd_tree := Some 99%nat; ix_scan_kd_trees := None;
                  ix_kd_tree_path := scene_kd_tree_path;
                  ix_swath_geometry := (3%nat, 540%nat) |}
               ("geographic", (3%nat, 540%nat)) w)
    as (Hstage & _).
  - apply (bool_decide_unpack _). vm_compute. reflexivity.
  - apply (bool_decide_unpack _). vm_compute. reflexivity.
  - intros files [= <-]. split; apply not_elem_of_nil.
  - exact Hstage.
Defined.

(** ** C6 *)


(** ** C7 *)


(** ** C8 *)



(** ** C9 *)

(** An exception outside the exit-code hierarchy leaves the orchestrator
    as it was raised: nothing is logged at the boundary. *)
Lemma C9_counterexample :
  let run := L1_L2_RAD_LSTE (call_with "checkerboard" "mercator" None) (start (inputs "3")) in
  run.1 = Raise (ValueError "unrecognized projection system: mercator") /\
  is_ECOSTRESSExitCodeException (ValueError "unrecognized projection system: mercator") = false /\
  logged (trace run.2) = [].
Proof. repeat split; vm_compute; reflexivity. Qed.

(** ** C10 *)

Lemma C10_witness :
  generate_L1_L2_RAD_LSTE_runconfig (generate_call None None None) (start granules)
  = (Raise (TypeError "expected str, bytes or os.PathLike object, not NoneType"),
     {| fs := granules; trace := found_trace |}).
Proof.
  destruct (C10_working_directory_used_before_its_default
              (generate_call None None None) (start granules) eq_refl (or_introl eq_refl))
    as [_ Hraise].
  destruct (Hraise found_inputs {| fs := granules; trace := found_trace |}) as [Hout _].
  - vm_compute. reflexivity.
  - exact (Hout eq_refl).
Defined.

(** The L2 LSTE file exists, [working_directory] and [output_directory] are
    [None], and the call ends in a [ValueError]: no L2 CLOUD file lies beside
    the L2 LSTE file. *)
Lemma C10_counterexample :
  let g := generate_call None None None in
  let f : gmap string node := {[ L2_LSTE_name := File "3" ]} in
  is_Some (f !! abspath (expanduser (g_L2_LSTE_filename g))) /\
  g_working_directory g = None /\
  g_output_directory g = None /\
  (generate_L1_L2_RAD_LSTE_runconfig g (start f)).1
  = Raise (ValueError "no L2 CLOUD filename given or found").
Proof.
  repeat split; try (vm_compute; reflexivity).
  apply (bool_decide_unpack _). vm_compute. reflexivity.
Qed.

(** * The further properties on the test double *)

Lemma config_reader_exceptions_witness :
  fs (after (start (inputs "ocean"))
            [EReadRunConfig "/rc.xml";
             EReadL2LSTE (L2LSTE_granule "/i/lste.h5" "/i/cloud.h5" "/i/geo.h5")])
  = inputs "ocean".
Proof.
  edestruct (config_reader_exceptions "/rc.xml" (start (inputs "ocean")) (LandFilter 0))
    as [Hfs _].
  - vm_compute. reflexivity.
  - exact Hfs.
Defined.

Lemma invalid_runconfig_exit_code_witness :
  @L1_L2_RAD_LSTE _ _ _ _ without_geometry
    (call_with "checkerboard" "global_geographic" None) (start (inputs "3"))
  = (Ok 4,
     {| fs := inputs "3";
        trace := [EReadRunConfig "/rc.xml"; ELogException (KeyError "Geometry");
                  ELogException (UnableToParseRunConfig
                                   "unable to parse run-config file: /rc.xml")] |}).
Proof.
  rewrite (@invalid_runconfig_exit_code _ _ _ _ without_geometry
             (call_with "checkerboard" "global_geographic" None) (start (inputs "3"))
             (delete "Geometry" scene_runconfig) (KeyError "Geometry")).
  - reflexivity.
  - reflexivity.
  - vm_compute. reflexivity.
Defined.

Lemma unreadable_runconfig_witness :
  L1_L2_RAD_LSTE (call_with "checkerboard" "global_geographic" None) (start ∅)
  = (Raise (Foreign (OtherFailure "no run-config")),
     {| fs := ∅; trace := [EReadRunConfig "/rc.xml"] |}).
Proof.
  destruct (unreadable_runconfig (call_with "checkerboard" "global_geographic" None)
                                 (start ∅) (OtherFailure "no run-config"))
    as [_ Hrun].
  - reflexivity.
  - exact Hrun.
Defined.

Lemma missing_group_witness :
  read_fields "/rc.xml" (delete "Geometry" scene_runconfig) = Raise (KeyError "Geometry") /\
  read_fields "/rc.xml" (delete "InputFileGroup" scene_runconfig) =
    Raise (MissingRunConfigValue
             "missing InputFileGroup in L1_L2_RAD_LSTE run-config: /rc.xml").
Proof.
  destruct (missing_group "/rc.xml" scene_runconfig scene_fields) as [Hchecked Hunchecked].
  - vm_compute. reflexivity.
  - split.
    + apply Hunchecked. apply (bool_decide_unpack _). vm_compute. reflexivity.
    + apply (Hchecked "InputFileGroup"). apply (bool_decide_unpack _). vm_compute. reflexivity.
Defined.


Lemma tiles_of_radiance_and_LSTE_only_witness :
  exists t,
    trace (L1_L2_RAD_LSTE (call_with "checkerboard" "global_geographic" None)
                          (start (inputs "3"))).2 = [] ++ t /\
    Forall (tile_event (call_with "checkerboard" "global_geographic" None)) t.
Proof.
  destruct (L1_L2_RAD_LSTE (call_with "checkerboard" "global_geographic" None)
                           (start (inputs "3"))) as [r w'] eqn:Hrun.
  exact (tiles_of_radiance_and_LSTE_only _ _ _ _ Hrun).
Defined.


Lemma whole_swath_strategies_ignore_kd_tree_witness :
  L1_L2_RAD_LSTE (with_kd_tree (Some 5%nat) (call_with "checkerboard" "global_geographic" None))
                 (start (inputs "3"))
  = L1_L2_RAD_LSTE (call_with "checkerboard" "global_geographic" None) (start (inputs "3")).
Proof.
  apply whole_swath_strategies_ignore_kd_tree. left. reflexivity.
Defined.

Lemma generator_writes_the_runconfig_only_witness :
  let w := start (<["/pkg/L1_L2_RAD_LSTE.xml" := File "<orbit_number/>"]> granules) in
  let run := generate_L1_L2_RAD_LSTE_runconfig (generate_call (Some "/w") None None) w in
  run.1 = Ok generated_name /\
  fs run.2 !! generated_name = Some (File "<00001/>") /\
  is_Some (fs run.2 !! L2_LSTE_name) /\
  ("/w" ∈ directories_to (Py.dirname (abspath generated_name)) /\
   fs w !! "/w" = None /\ fs run.2 !! "/w" = Some Directory).
Proof.
  intros w run.
  assert (Hrun : generate_L1_L2_RAD_LSTE_runconfig (generate_call (Some "/w") None None) w
                 = (Ok generated_name, run.2)).
  { vm_compute. reflexivity. }
  destruct (generator_writes_the_runconfig_only _ _ _ _ Hrun) as (_ & Hkeeps & Hnew).
  split; [vm_compute; reflexivity|]. split; [vm_compute; reflexivity|].
  split.
  - apply Hkeeps. apply (bool_decide_unpack _). vm_compute. reflexivity.
  - apply Hnew.
    + intros H. discriminate H.
    + intros H. vm_compute in H. discriminate H.
Defined.

Lemma existing_runconfig_is_returned_witness :
  let w := start (<[generated_name := File "as it was"]> granules) in
  generate_L1_L2_RAD_LSTE_runconfig (generate_call (Some "/w") None None) w
  = (Ok generated_name,
     {| fs := fs w;
        trace := found_trace ++ [EReadL2LSTE (generate_granule found_inputs);
                                 EExists generated_name] |}).
Proof.
  intros w.
  edestruct (existing_runconfig_is_returned
               (generate_call (Some "/w") None None) w found_inputs
               {| fs := fs w; trace := found_trace |} scene_info generated_name)
    as [Hrun _].
  - vm_compute. reflexivity.
  - right. by eexists.
  - vm_compute. reflexivity.
  - vm_compute. reflexivity.
  - apply (bool_decide_unpack _). vm_compute. reflexivity.
  - exact Hrun.
Defined.

Lemma companion_file_choice_witness :
  let later := "/i/ECOv002_L2_CLOUD_00001_002_20240102T000000_0700_02.h5" in
  let other := "/i/ECOv002_L2_CLOUD_00001_002_20240103T000000_0601_01.h5" in
  let w := start (<[later := File "c"]> (<[other := File "c"]> granules)) in
  greatest (glob (fs w) "/i/*_L2_CLOUD_00001_002_*_0700_*.h5") later.
Proof.
  intros later other w.
  pose proof (companion_file_choice None L2_LSTE_name "L2_CLOUD" "L2 CLOUD" 1 2 "0700" w
                (Ok later) {| fs := fs w; trace := [EGlob "/i/*_L2_CLOUD_00001_002_*_0700_*.h5"] |})
    as Hchoice.
  destruct Hchoice as [_ Hchoice].
  - vm_compute. reflexivity.
  - cbv zeta in Hchoice.
    destruct (decide _) as [Hnil|_] in Hchoice; [|exact Hchoice].
    vm_compute in Hnil. discriminate Hnil.
Defined.

Lemma runconfig_from_C1_always_raises_witness :
  (L1_L2_RAD_LSTE_runconfig_from_C1 1 2 "/w/rc.xml" (start granules)).1
  = Raise (TypeError "expected str, bytes or os.PathLike object, not NoneType").
Proof.
  destruct (L1_L2_RAD_LSTE_runconfig_from_C1 1 2 "/w/rc.xml" (start granules))
    as [r w'] eqn:Hrun.
  destruct (runconfig_from_C1_always_raises _ _ _ _ _ _ Hrun) as (_ & e & -> & He).
  simpl. f_equal.
  eapply (He _ L2_LSTE_name L2_CLOUD_name L1B_GEO_name).
  - reflexivity.
  - reflexivity.
  - reflexivity.
  - reflexivity.
  - vm_compute. reflexivity.
Defined.

Lemma main_runs_the_pipeline_witness :
  main ["L1_L2_RAD_LSTE"; "/rc.xml"; "--strip-console"]
  = ([], L1_L2_RAD_LSTE (main_arguments "/rc.xml" true)).
Proof.
  destruct (main_runs_the_pipeline "L1_L2_RAD_LSTE" "/rc.xml" ["--strip-console"])
    as [Hmain _].
  - apply (bool_decide_unpack _). vm_compute. reflexivity.
  - exact Hmain.
Defined.

Lemma run_removes_nothing_witness :
  is_Some (fs (L1_L2_RAD_LSTE (call_with "checkerboard" "global_geographic" None)
                              (start (inputs "3"))).2 !! "/i/rad.h5").
Proof.
  destruct (L1_L2_RAD_LSTE (call_with "checkerboard" "global_geographic" None)
                           (start (inputs "3"))) as [r w'] eqn:Hrun.
  apply (run_removes_nothing _ _ _ _ Hrun).
  apply (bool_decide_unpack _). vm_compute. reflexivity.
Defined.

Lemma kd_tree_file_outlives_the_run_witness :
  is_Some (fs (L1_L2_RAD_LSTE_try (call_with "remove_105_128" "global_geographic" None)
                                  (start (inputs "3"))).2 !! scene_kd_tree_path).
Proof.
  assert (Hrun : L1_L2_RAD_LSTE_try (call_with "remove_105_128" "global_geographic" None)
                                    (start (inputs "3"))
                 = (Ok 0,
                    (L1_L2_RAD_LSTE_try (call_with "remove_105_128" "global_geographic" None)
                                        (start (inputs "3"))).2)).
  { vm_compute. reflexivity. }
  destruct (kd_tree_file_outlives_the_run
              (call_with "remove_105_128" "global_geographic" None) _ _ _
              (or_intror eq_refl) Hrun)
    as (l & w1 & Hprologue & Hpath & Hfile).
  assert (Hl : Ok l = Ok (scene_locals 3 scene_kd_tree_path)
               :> outcome (@locals (nat * nat) (string * (nat * nat)) string)).
  { transitivity
      (prologue (call_with "remove_105_128" "global_geographic" None) (start (inputs "3"))).1.
    - by rewrite Hprologue.
    - vm_compute. reflexivity. }
  injection Hl as ->. exact Hfile.
Defined.

Lemma passed_scan_trees_are_used_witness :
  exists t,
    trace (L1_L2_RAD_LSTE (call_with_trees [7; 8]%nat) (start (inputs "3"))).2 = [] ++ t /\
    Forall (passed_trees_event (call_with_trees [7; 8]%nat) [7; 8]%nat) t.
Proof.
  destruct (L1_L2_RAD_LSTE (call_with_trees [7; 8]%nat) (start (inputs "3")))
    as [r w'] eqn:Hrun.
  exact (passed_scan_trees_are_used (call_with_trees [7; 8]%nat) [7; 8]%nat _ _ _
           eq_refl eq_refl Hrun).
Defined.

Lemma land_filter_at_zero_only_witness :
  L2GL2TRADLSTEConfig "/rc.xml" (start (inputs "3"))
  = (Ok (make_config scene_fields "T"),
     {| fs := inputs "3";
        trace := [EReadRunConfig "/rc.xml";
                  EReadL2LSTE (L2LSTE_granule "/i/lste.h5" "/i/cloud.h5" "/i/geo.h5")] |}).
Proof.
  edestruct (land_filter_at_zero_only "/rc.xml" (start (inputs "3")) scene_runconfig
                                      scene_fields scene_info) as [Hconfig _].
  - reflexivity.
  - vm_compute. reflexivity.
  - vm_compute. reflexivity.
  - exact Hconfig.
Defined.

Lemma run_completes_witness :
  exists w',
    L1_L2_RAD_LSTE (call_with "checkerboard" "global_geographic" None) (start (inputs "3"))
    = (Ok 0, w') /\
    is_Some (fs w' !! "/o/ECOv002_L2G_CLOUD_00001_002_T_0700_01.png").
Proof.
  edestruct (run_completes (call_with "checkerboard" "global_geographic" None)
                           (start (inputs "3"))
                           (scene_locals 3 scene_kd_tree_path)
                           {| fs := inputs "3"; trace := prologue_trace scene_kd_tree_path false |}
                           scene_index
                           {| fs := <[scene_kd_tree_path := File "99"]> (inputs "3");
                              trace := prologue_trace scene_kd_tree_path false ++
                                [EExists scene_kd_tree_path;
                                 EKDTreeBuild (3%nat, 540%nat) ("geographic", (3%nat, 540%nat))
                                              SEARCH_RADIUS_METERS;
                                 EKDTreeSave 99%nat scene_kd_tree_path] |})
    as (w' & Hrun & Hfiles).
  - vm_compute. reflexivity.
  - vm_compute. reflexivity.
  - intros. by eexists.
  - intros. by eexists.
  - intros. by eexists.
  - exists w'. split; [exact Hrun|]. exact (proj2 (Hfiles L2G_CLOUD)).
Defined.

Lemma working_directory_default_witness :
  let w := start (<["/w/rc.xml" := File "as it was"]> granules) in
  is_Some (g_output_directory (generate_call None (Some "/o") (Some "/w/rc.xml"))) /\
  (generate_L1_L2_RAD_LSTE_runconfig (generate_call None (Some "/o") (Some "/w/rc.xml")) w).1
  = Ok "/w/rc.xml".
Proof.
  intros w.
  assert (Hrun : generate_L1_L2_RAD_LSTE_runconfig
                   (generate_call None (Some "/o") (Some "/w/rc.xml")) w
                 = (Ok "/w/rc.xml",
                    (generate_L1_L2_RAD_LSTE_runconfig
                       (generate_call None (Some "/o") (Some "/w/rc.xml")) w).2)).
  { vm_compute. reflexivity. }
  destruct (working_directory_default
              (generate_call None (Some "/o") (Some "/w/rc.xml")) _ _ _ eq_refl Hrun)
    as [Hout _].
  split; [exact Hout|]. by rewrite Hrun.
Defined.

Lemma generator_input_errors_witness :
  generate_L1_L2_RAD_LSTE_runconfig (generate_call None None None) (start ∅)
  = (Raise (IOError ("L2 LSTE file not found: " +:+ L2_LSTE_name)),
     {| fs := ∅; trace := [EExists L2_LSTE_name] |}).
Proof.
  destruct (generator_input_errors (generate_call None None None) (start ∅)) as [Hmissing _].
  apply Hmissing. reflexivity.
Defined.
